(** * The VirtualBox VM supervisor of the BOINC vboxwrapper

    A shallow embedding of [samples/vboxwrapper/vbox.cpp]: the command
    line invoker ([vbm_popen_raw]), the retry controller ([vbm_popen]),
    the poller, the lifecycle operations, the snapshot coordinator and
    the registry adapter of class [VBOX_VM], followed by the properties
    of the supervisor that are checked against them.

    Conventions of the embedding.
    - [std::string] is [string]; positions are [size_t] values, kept
      as [Z] in [0, 2^64) with [npos = 2^64 - 1] and wrap-around
      addition, because the invoker adds 1 to a position that may be
      [npos].
    - [int] is a [Z] in [-2^31, 2^31).
    - The hypervisor command line tool is outside the program.  The
      [World] holds the answers of the successive child processes (a
      script), a clock in milliseconds, the trace of the commands
      executed and of the sleeps taken, and the text written to
      stderr.
    - A member function of [VBOX_VM] is a function of the object and
      of the world that returns its result with the new object and the
      new world. *)

From Stdlib Require Import ZArith List Ascii String Bool Lia.
From Stdlib Require Import Numbers.DecimalString Numbers.DecimalZ
  Numbers.DecimalPos.
Import ListNotations.

Set Implicit Arguments.

Local Open Scope string_scope.
Local Open Scope Z_scope.

(** ** Machine integers *)

Module Int.

(** [size_t]: 64 bits, unsigned. *)
Definition size_modulus : Z := 2 ^ 64.

(** [std::string::npos], that is [(size_t) -1]. *)
Definition npos : Z := size_modulus - 1.

(** [a + b] on [size_t]. *)
Definition size_add (a b : Z) : Z := (a + b) mod size_modulus.

(** [a - b] on [size_t]. *)
Definition size_sub (a b : Z) : Z := (a - b) mod size_modulus.

(** [unsigned int] and [int]: 32 bits. *)
Definition uint_modulus : Z := 2 ^ 32.

(** The [int] whose bits are those of the [unsigned int] [u]: what
    [sscanf("%x", &retval)] leaves in an [int retval]. *)
Definition int_of_uint (u : Z) : Z :=
  let u := u mod uint_modulus in
  if u <? 2 ^ 31 then u else u - uint_modulus.

(** The conversion of an [int] to [unsigned int], as in the comparison
    [0x80bb0007 == retval]. *)
Definition uint_of_int (i : Z) : Z := i mod uint_modulus.

(** [(int)x] for a [double] [x] whose whole part, the value truncated
    toward zero, is [z].  When the whole part does not fit in an [int]
    the conversion is undefined in C++; the instruction that compilers
    emit for it on x86 ([cvttsd2si]) then gives the "integer
    indefinite" value, [INT_MIN], and that is the value taken here. *)
Definition int_of_double (z : Z) : Z :=
  if (- 2 ^ 31 <=? z) && (z <? 2 ^ 31) then z else - 2 ^ 31.

End Int.

(** ** Strings *)

Module Str.

Import Int.

Definition LF : ascii := ascii_of_nat 10.
Definition CR : ascii := ascii_of_nat 13.

(** The one-character string ["\n"]. *)
Definition nl : string := String LF EmptyString.

Definition size (s : string) : Z := Z.of_nat (String.length s).

(** [s.find(pat, pos)]: the position of the first occurrence of [pat]
    in [s] at or after [pos]; [npos] if there is none (in particular
    when [pos] is past the end). *)
Definition find (s pat : string) (pos : Z) : Z :=
  if size s <? pos then npos
  else match String.index (Z.to_nat pos) pat s with
       | Some i => Z.of_nat i
       | None => npos
       end.

(** [s.substr(pos, n)]: at most [n] characters from position [pos].
    The standard library raises [out_of_range] when [pos > s.size()];
    every call in the file passes 0 or a position just after a pattern
    that [find] located (see [find_found_bound]), so that case does
    not arise and the model returns the empty string there. *)
Definition substr (s : string) (pos n : Z) : string :=
  if size s <? pos then EmptyString
  else String.substring (Z.to_nat pos) (Z.to_nat (Z.min n (size s - pos))) s.

(** [strstr(s, pat) != NULL] and [s.find(pat) != string::npos]: the
    text [pat] occurs in [s]. *)
Definition contains (s pat : string) : bool :=
  match String.index 0 pat s with
  | Some _ => true
  | None => false
  end.

(** Removal of every carriage return, as the [erase] loops do. *)
Fixpoint remove_cr (s : string) : string :=
  match s with
  | EmptyString => EmptyString
  | String c s' =>
      if Ascii.eqb c CR then remove_cr s' else String c (remove_cr s')
  end.

(** *** [sscanf(s, "%x", &v)] *)

(** C's [isspace] in the "C" locale. *)
Definition is_space (c : ascii) : bool :=
  let n := nat_of_ascii c in
  (Nat.eqb n 32 || (Nat.leb 9 n && Nat.leb n 13))%bool.

Definition hex_digit (c : ascii) : option Z :=
  let n := Z.of_nat (nat_of_ascii c) in
  if (48 <=? n) && (n <=? 57) then Some (n - 48)        (* 0-9 *)
  else if (97 <=? n) && (n <=? 102) then Some (n - 87)  (* a-f *)
  else if (65 <=? n) && (n <=? 70) then Some (n - 55)   (* A-F *)
  else None.

Fixpoint skip_space (s : string) : string :=
  match s with
  | String c s' => if is_space c then skip_space s' else s
  | EmptyString => s
  end.

(** The value of the longest run of hexadecimal digits at the head of
    [s], continuing from [acc]. *)
Fixpoint hex_run (acc : Z) (s : string) : Z :=
  match s with
  | String c s' =>
      match hex_digit c with
      | Some d => hex_run (16 * acc + d) s'
      | None => acc
      end
  | EmptyString => acc
  end.

Definition starts_with_hex (s : string) : bool :=
  match s with
  | String c _ => match hex_digit c with Some _ => true | None => false end
  | EmptyString => false
  end.

(** The [0x] or [0X] prefix is skipped when a digit follows it. *)
Definition strip_0x (s : string) : string :=
  match s with
  | String "0" (String x s') =>
      if (Ascii.eqb x "x" || Ascii.eqb x "X") && starts_with_hex s'
      then s' else s
  | _ => s
  end.

(** The conversion [%x]: white space, an optional sign, an optional
    [0x], then hexadecimal digits, read as by [strtoul] in base 16 and
    stored in an [unsigned int].  [None] is a matching failure, which
    leaves the argument of [sscanf] untouched.  A value that does not
    fit is kept modulo [2^32]. *)
Definition scan_hex (s : string) : option Z :=
  let s := skip_space s in
  let '(neg, s) :=
    match s with
    | String "-" s' => (true, s')
    | String "+" s' => (false, s')
    | _ => (false, s)
    end in
  let s := strip_0x s in
  if starts_with_hex s then
    let v := hex_run 0 s in
    Some ((if neg then - v else v) mod uint_modulus)
  else None.

(** [sprintf(buf, "%d", i)]. *)
Definition dec (i : Z) : string := NilEmpty.string_of_int (Z.to_int i).

(** *** [atol(s)] *)

Definition dec_digit (c : ascii) : option Z :=
  let n := Z.of_nat (nat_of_ascii c) in
  if (48 <=? n) && (n <=? 57) then Some (n - 48) else None.

(** The value of the longest run of decimal digits at the head of
    [s], continuing from [acc]. *)
Fixpoint dec_run (acc : Z) (s : string) : Z :=
  match s with
  | String c s' =>
      match dec_digit c with
      | Some d => dec_run (10 * acc + d) s'
      | None => acc
      end
  | EmptyString => acc
  end.

(** [atol]: white space, an optional sign, then decimal digits, read
    as by [strtol] in base 10 into a [long] of [bits] bits.  Without a
    digit the result is 0; a value that does not fit is replaced by
    the nearest [long]. *)
Definition atol (bits : Z) (s : string) : Z :=
  let s := skip_space s in
  let '(neg, s) :=
    match s with
    | String "-" s' => (true, s')
    | String "+" s' => (false, s')
    | _ => (false, s)
    end in
  let v := dec_run 0 s in
  let v := if neg then - v else v in
  Z.max (- 2 ^ (bits - 1)) (Z.min (2 ^ (bits - 1) - 1) v).

(** The loop that looks "for the next whole line of text": the
    characters are erased one by one up to the first line feed, which
    is erased too. *)
Fixpoint erase_first_line (s : string) : string :=
  match s with
  | EmptyString => EmptyString
  | String c s' => if Ascii.eqb c LF then s' else erase_first_line s'
  end.

(** The double quote character, and a string between double quotes. *)
Definition dq : string := String (ascii_of_nat 34) EmptyString.
Definition quoted (s : string) : string := dq ++ s ++ dq.

End Str.

Import Int Str.


(** ** Error numbers *)

(** Modelled from the spec: [error_numbers.h] is not among the sources.
    The spec names these codes ([ERR_FOPEN], [ERR_EXEC], [ERR_TIMEOUT],
    [ERR_FWRITE], [ERR_BIND]) as the non-zero results of the failure
    paths; [ERR_SOCKET] is what [boinc_socket] returns when it fails.
    The numbers follow BOINC's [lib/error_numbers.h]; the properties
    below rest on their being different from 0 and on which name the
    source returns, not on the numbers. *)
Definition BOINC_SUCCESS : Z := 0.
Definition ERR_FWRITE : Z := -105.
Definition ERR_FOPEN : Z := -108.
Definition ERR_EXEC : Z := -148.
Definition ERR_SOCKET : Z := -153.
Definition ERR_BIND : Z := -180.
Definition ERR_TIMEOUT : Z := -182.

(** Modelled from the spec: [ERR_NOT_FOUND] is the code for a missing
    external resource (a log file that is absent, a process id that
    is not found); the number is that of BOINC's
    [lib/error_numbers.h]. *)
Definition ERR_NOT_FOUND : Z := -161.

(** [VBOX_E_INVALID_OBJECT_STATE], the session lock error. *)
Definition VBOX_E_INVALID_OBJECT_STATE : Z := 0x80bb0007.

(** ** The host and the world *)

Inductive platform : Type := Win32 | Posix.

(** The members of [APP_INIT_DATA] that the supervisor reads. *)
Record APP_INIT_DATA : Type := {
  major_version : Z;
  minor_version : Z;
  release : Z;
  p_features : string;            (* host_info.p_features *)
  vm_extensions_disabled : bool
}.

(** What does not change during a run: the platform the file was
    compiled for, the data of [boinc_get_init_data_p] and the current
    directory that [getcwd] reports. *)
Record Host : Type := {
  host_platform : platform;
  host_aid : APP_INIT_DATA;
  host_cwd : string
}.

(** One child process, as the invoker sees it once the child is gone.
    [spawned] is false when [popen] returns [NULL], or when
    [CreatePipe] or [CreateProcess] fails.  [exit_code] is the value of
    [ulExitCode] and [timed_out] tells whether the wait loop ended the
    child, both at the label [CLEANUP] of the Windows branch; the POSIX
    branch reads neither.  [elapsed] is the time the call took, in
    milliseconds.

    The last three members are what the invoker writes to stderr
    about.  [launch_error] is the number that [%d] prints for [errno]
    after [popen], or for [GetLastError()] after the call that failed
    on Windows; it is read only when [spawned] is false.
    [pipe_created] is false when the call that failed on Windows is
    [CreatePipe], and true when it is [CreateProcess].
    [vboxsvc_error] belongs to [launch_vboxsvc], which the invoker
    calls before it launches the child: it is [Some e] when that
    function went as far as [CreateProcess] for [VBoxSVC.exe] (the
    client uses the sandbox, and the service has no handle yet or its
    process is gone) and the call failed with [GetLastError() = e],
    and [None] in every other case; it is read on Windows only. *)
Record child : Type := {
  spawned : bool;
  timed_out : bool;
  exit_code : Z;
  child_output : string;
  elapsed : N;
  launch_error : Z;
  pipe_created : bool;
  vboxsvc_error : option Z
}.

(** The answer of the network stack to one attempt at binding a
    loopback socket. *)
Inductive socket_answer : Type :=
| SocketError               (* boinc_socket failed *)
| BindFailed                (* bind returned a negative value *)
| Bound (port : Z).         (* getsockname reports this port *)

Inductive event : Type :=
| Exec (command : string)           (* the invoker launched this command *)
| Sleep (ms : Z)                    (* boinc_sleep *)
| SetPriority (pid : Z) (idle : bool).

Record World : Type := {
  clock : Z;                        (* dtime(), in milliseconds *)
  script : list child;              (* the children still to come *)
  sockets : list socket_answer;
  floppy_ready : bool;              (* FloppyIO::ready() *)
  trace : list event;               (* oldest first *)
  stderr : list string;             (* oldest first *)
  floppy_error : Z;                 (* FloppyIO::error *)
  floppy_errorStr : string          (* FloppyIO::errorStr *)
}.

(** *** Primitive effects on the world *)

Definition emit (e : event) (w : World) : World :=
  {| clock := clock w; script := script w; sockets := sockets w;
     floppy_ready := floppy_ready w;
     trace := (trace w ++ [e])%list; stderr := stderr w;
     floppy_error := floppy_error w;
     floppy_errorStr := floppy_errorStr w |}.

(** [fprintf(stderr, ...)]: one call adds one entry to the log.  The
    time stamp that [vboxwrapper_msg_prefix] or [boinc_msg_prefix]
    puts in front of a line and the line feed that ends the message
    are left out. *)
Definition say (msg : string) (w : World) : World :=
  {| clock := clock w; script := script w; sockets := sockets w;
     floppy_ready := floppy_ready w;
     trace := trace w; stderr := (stderr w ++ [msg])%list;
     floppy_error := floppy_error w;
     floppy_errorStr := floppy_errorStr w |}.

Definition advance (ms : Z) (w : World) : World :=
  {| clock := clock w + ms; script := script w; sockets := sockets w;
     floppy_ready := floppy_ready w;
     trace := trace w; stderr := stderr w;
     floppy_error := floppy_error w;
     floppy_errorStr := floppy_errorStr w |}.

(** [boinc_sleep(seconds)], the argument given in milliseconds. *)
Definition boinc_sleep (ms : Z) (w : World) : World :=
  advance ms (emit (Sleep ms) w).

(** The child that answers when the script is used up: it cannot be
    launched, the error number being 2 ([ENOENT] for [popen],
    [ERROR_FILE_NOT_FOUND] for [CreateProcess]). *)
Definition no_child : child :=
  {| spawned := false; timed_out := false; exit_code := 0;
     child_output := EmptyString; elapsed := 0%N;
     launch_error := 2; pipe_created := true; vboxsvc_error := None |}.

(** Launching the next child and waiting for its end. *)
Definition spawn (command : string) (w : World) : child * World :=
  let w := emit (Exec command) w in
  match script w with
  | [] => (no_child, w)
  | c :: rest =>
      (c, advance (Z.of_N (elapsed c))
            {| clock := clock w; script := rest; sockets := sockets w;
               floppy_ready := floppy_ready w;
               trace := trace w; stderr := stderr w;
               floppy_error := floppy_error w;
               floppy_errorStr := floppy_errorStr w |})
  end.

Definition next_socket (w : World) : socket_answer * World :=
  match sockets w with
  | [] => (BindFailed, w)
  | a :: rest =>
      (a, {| clock := clock w; script := script w; sockets := rest;
             floppy_ready := floppy_ready w;
             trace := trace w; stderr := stderr w;
             floppy_error := floppy_error w;
             floppy_errorStr := floppy_errorStr w |})
  end.

(** ** The command line invoker *)

(** "Determine the real error code by parsing the output": the block
    that both branches of [vbm_popen_raw] share.  [retval] is the
    value of the variable before the block; the result is its value
    after it.  The test [if (errcode_start)] is the source's: it is
    false only when the text starts at position 0, and true for
    [npos], which the addition then wraps to 0. *)
Definition parse_errcode (output : string) (retval : Z) : Z :=
  let errcode_start := find output "(0x" 0 in
  if errcode_start =? 0 then retval
  else
    let errcode_start := size_add errcode_start 1 in
    let errcode_end := find output ")" errcode_start in
    let errcode :=
      substr output errcode_start (size_sub errcode_end errcode_start) in
    match scan_hex errcode with
    | Some v => int_of_uint v
    | None => retval
    end.

(** The value that [vbm_popen_raw] returns and the text it leaves in
    [output], for the child [c]. *)
Definition raw_result (p : platform) (c : child) : Z * string :=
  let output := if spawned c then child_output c else EmptyString in
  match p with
  | Win32 =>
      (* retval is ERR_TIMEOUT when the wait loop ended the child *)
      let retval := if spawned c && timed_out c then ERR_TIMEOUT else 0 in
      let ulExitCode := if spawned c then exit_code c else 0 in
      if negb (ulExitCode =? 0) || negb (spawned c) then
        let retval := parse_errcode output retval in
        (if retval =? 0 then ERR_FOPEN else retval, output)
      else (retval, output)
  | Posix =>
      if negb (spawned c) then (ERR_FOPEN, output)
      else
        (* the value that sscanf stores is overwritten at once *)
        let retval := parse_errcode output 0 in
        let retval := 0 in
        (retval, output)
  end.

(** "Initialize command line". *)
Definition command_line (arguments : string) : string :=
  "VBoxManage -q " ++ arguments.

(** [VBOX_VM::launch_vboxsvc], as far as the supervisor can tell: the
    function starts the service daemon on Windows under the sandbox,
    its handle is read by no other function, it always returns 0, and
    what shows is the message that it writes when the daemon cannot
    be created.  The body is empty on POSIX. *)
Definition launch_vboxsvc (p : platform) (w : World) : World :=
  match p, script w with
  | Win32, c :: _ =>
      match vboxsvc_error c with
      | Some e => say ("Creating VBoxSVC.exe failed! (" ++ dec e ++ ").") w
      | None => w
      end
  | _, _ => w
  end.

(** The message that the invoker writes when the child [c] could not
    be launched. *)
Definition launch_failure (p : platform) (c : child) : string :=
  match p with
  | Posix => "vbm_popen popen failed! errno = " ++ dec (launch_error c)
  | Win32 =>
      if pipe_created c
      then "CreateProcess failed! (" ++ dec (launch_error c) ++ ")."
      else "CreatePipe failed! (" ++ dec (launch_error c) ++ ")."
  end.

(** [VBOX_VM::vbm_popen_raw].  The time limit is enforced by the wait
    loop of the Windows branch, whose outcome is the [timed_out] of
    the child. *)
Definition vbm_popen_raw (p : platform) (arguments : string) (timeout : Z)
    (w : World) : Z * string * World :=
  let w := launch_vboxsvc p w in
  let command := command_line arguments in
  let '(c, w) := spawn command w in
  let w := if spawned c then w else say (launch_failure p c) w in
  (raw_result p c, w).

(** ** The retry controller *)

(** Modelled from the spec: [vbox.h], which declares [vbm_popen] with
    its default arguments, is not among the sources.  The spec has the
    caller mark a call as retryable and log its error; the calls of the
    file that pass fewer than six arguments rely on these defaults
    ([log_error = true], [retry_failures = true], [timeout = 45], the
    45 seconds that the comment in [start] mentions). *)
Definition default_log_error : bool := true.
Definition default_retry_failures : bool := true.
Definition default_timeout : Z := 45.

Definition lock_note : string :=
  "Another VirtualBox management application has locked the session for" ++ nl ++
  "this VM. BOINC cannot properly monitor this VM" ++ nl ++
  "and so this job will be aborted." ++ nl ++ nl.

(** The test [0x80bb0007 == retval]. *)
Definition is_session_lock (retval : Z) : bool :=
  VBOX_E_INVALID_OBJECT_STATE =? uint_of_int retval.

(** The [do ... while (retval)] loop of [vbm_popen].  The state of the
    loop is [retry_count], [sleep_interval] (in milliseconds) and
    [retry_notes]; the result is [retval], [output] and [retry_notes]
    at the exit of the loop.  [fuel] bounds the number of further
    iterations; 5 is enough, since the loop leaves when
    [retry_count >= 5] (lemma [vbm_popen_loop_fuel]). *)
Fixpoint vbm_popen_loop (fuel : nat) (p : platform) (arguments : string)
    (retry_failures : bool) (timeout : Z)
    (retry_count sleep_interval : Z) (retry_notes : string) (w : World)
    : Z * string * string * World :=
  let '(retval, output, w) := vbm_popen_raw p arguments timeout w in
  if retval =? 0 then (retval, output, retry_notes, w)
  else
    let is_lock := is_session_lock retval in
    let retry_notes :=
      if is_lock && negb (contains retry_notes "Another VirtualBox management")
      then retry_notes ++ lock_note else retry_notes in
    let sleep_interval :=
      if is_lock && negb (retry_count =? 0)
      then sleep_interval * 2 else sleep_interval in
    if negb retry_failures then (retval, output, retry_notes, w)
    else if retry_count >=? 5 then (retval, output, retry_notes, w)
    else
      match fuel with
      | O => (retval, output, retry_notes, w)
      | S fuel =>
          let retry_count := retry_count + 1 in
          let w := boinc_sleep sleep_interval w in
          vbm_popen_loop fuel p arguments retry_failures timeout
            retry_count sleep_interval retry_notes w
      end.

(** The message that [vbm_popen] writes to stderr on failure. *)
Definition error_message (item : string) (retval : Z)
    (arguments output : string) : string :=
  "Error in " ++ item ++ " for VM: " ++ dec retval ++ nl ++
  "Arguments:" ++ nl ++ arguments ++ nl ++
  "Output:" ++ nl ++ output.

(** [VBOX_VM::vbm_popen]: the result is [retval] and the text left in
    [output]. *)
Definition vbm_popen (p : platform) (arguments item : string)
    (log_error retry_failures : bool) (timeout : Z) (w : World)
    : Z * string * World :=
  let '(retval, output, retry_notes, w) :=
    vbm_popen_loop 5 p arguments retry_failures timeout 0 1000 EmptyString w in
  let output := match p with Win32 => remove_cr output | Posix => output end in
  if negb (retval =? 0) && log_error then
    let output :=
      if negb (String.eqb retry_notes EmptyString)
      then output ++ nl ++ "Notes:" ++ nl ++ nl ++ retry_notes
      else output in
    (retval, output, say (error_message item retval arguments output) w)
  else (retval, output, w).

(** ** The supervisor object *)

(** The members of [VBOX_VM] that the embedded functions read or
    write.  [pFloppy] tells whether the floppy channel is allocated. *)
Record VBOX_VM : Type := {
  vm_master_name : string;
  vm_master_description : string;
  vm_name : string;
  vm_cpu_count : string;
  vm_disk_controller_type : string;
  vm_disk_controller_model : string;
  os_name : string;
  memory_size_mb : string;
  image_filename : string;
  floppy_image_filename : string;
  suspended : bool;
  network_suspended : bool;
  online : bool;
  crashed : bool;
  enable_shared_directory : bool;
  enable_floppyio : bool;
  enable_remotedesktop : bool;
  register_only : bool;
  enable_network : bool;
  pf_guest_port : Z;
  pf_host_port : Z;
  rd_host_port : Z;
  headless : bool;
  vm_pid : Z;
  pFloppy : bool
}.

(** Assignments to the members that the supervisor writes. *)

Definition set_vm_name (v : string) (vm : VBOX_VM) : VBOX_VM :=
  {| vm_master_name := vm_master_name vm;
     vm_master_description := vm_master_description vm; vm_name := v;
     vm_cpu_count := vm_cpu_count vm;
     vm_disk_controller_type := vm_disk_controller_type vm;
     vm_disk_controller_model := vm_disk_controller_model vm;
     os_name := os_name vm; memory_size_mb := memory_size_mb vm;
     image_filename := image_filename vm;
     floppy_image_filename := floppy_image_filename vm;
     suspended := suspended vm;
     network_suspended := network_suspended vm; online := online vm;
     crashed := crashed vm;
     enable_shared_directory := enable_shared_directory vm;
     enable_floppyio := enable_floppyio vm;
     enable_remotedesktop := enable_remotedesktop vm;
     register_only := register_only vm;
     enable_network := enable_network vm;
     pf_guest_port := pf_guest_port vm; pf_host_port := pf_host_port vm;
     rd_host_port := rd_host_port vm; headless := headless vm;
     vm_pid := vm_pid vm; pFloppy := pFloppy vm |}.

Definition set_suspended (v : bool) (vm : VBOX_VM) : VBOX_VM :=
  {| vm_master_name := vm_master_name vm;
     vm_master_description := vm_master_description vm;
     vm_name := vm_name vm; vm_cpu_count := vm_cpu_count vm;
     vm_disk_controller_type := vm_disk_controller_type vm;
     vm_disk_controller_model := vm_disk_controller_model vm;
     os_name := os_name vm; memory_size_mb := memory_size_mb vm;
     image_filename := image_filename vm;
     floppy_image_filename := floppy_image_filename vm; suspended := v;
     network_suspended := network_suspended vm; online := online vm;
     crashed := crashed vm;
     enable_shared_directory := enable_shared_directory vm;
     enable_floppyio := enable_floppyio vm;
     enable_remotedesktop := enable_remotedesktop vm;
     register_only := register_only vm;
     enable_network := enable_network vm;
     pf_guest_port := pf_guest_port vm; pf_host_port := pf_host_port vm;
     rd_host_port := rd_host_port vm; headless := headless vm;
     vm_pid := vm_pid vm; pFloppy := pFloppy vm |}.

Definition set_network_suspended (v : bool) (vm : VBOX_VM) : VBOX_VM :=
  {| vm_master_name := vm_master_name vm;
     vm_master_description := vm_master_description vm;
     vm_name := vm_name vm; vm_cpu_count := vm_cpu_count vm;
     vm_disk_controller_type := vm_disk_controller_type vm;
     vm_disk_controller_model := vm_disk_controller_model vm;
     os_name := os_name vm; memory_size_mb := memory_size_mb vm;
     image_filename := image_filename vm;
     floppy_image_filename := floppy_image_filename vm;
     suspended := suspended vm; network_suspended := v;
     online := online vm; crashed := crashed vm;
     enable_shared_directory := enable_shared_directory vm;
     enable_floppyio := enable_floppyio vm;
     enable_remotedesktop := enable_remotedesktop vm;
     register_only := register_only vm;
     enable_network := enable_network vm;
     pf_guest_port := pf_guest_port vm; pf_host_port := pf_host_port vm;
     rd_host_port := rd_host_port vm; headless := headless vm;
     vm_pid := vm_pid vm; pFloppy := pFloppy vm |}.

Definition set_online (v : bool) (vm : VBOX_VM) : VBOX_VM :=
  {| vm_master_name := vm_master_name vm;
     vm_master_description := vm_master_description vm;
     vm_name := vm_name vm; vm_cpu_count := vm_cpu_count vm;
     vm_disk_controller_type := vm_disk_controller_type vm;
     vm_disk_controller_model := vm_disk_controller_model vm;
     os_name := os_name vm; memory_size_mb := memory_size_mb vm;
     image_filename := image_filename vm;
     floppy_image_filename := floppy_image_filename vm;
     suspended := suspended vm;
     network_suspended := network_suspended vm; online := v;
     crashed := crashed vm;
     enable_shared_directory := enable_shared_directory vm;
     enable_floppyio := enable_floppyio vm;
     enable_remotedesktop := enable_remotedesktop vm;
     register_only := register_only vm;
     enable_network := enable_network vm;
     pf_guest_port := pf_guest_port vm; pf_host_port := pf_host_port vm;
     rd_host_port := rd_host_port vm; headless := headless vm;
     vm_pid := vm_pid vm; pFloppy := pFloppy vm |}.

Definition set_crashed (v : bool) (vm : VBOX_VM) : VBOX_VM :=
  {| vm_master_name := vm_master_name vm;
     vm_master_description := vm_master_description vm;
     vm_name := vm_name vm; vm_cpu_count := vm_cpu_count vm;
     vm_disk_controller_type := vm_disk_controller_type vm;
     vm_disk_controller_model := vm_disk_controller_model vm;
     os_name := os_name vm; memory_size_mb := memory_size_mb vm;
     image_filename := image_filename vm;
     floppy_image_filename := floppy_image_filename vm;
     suspended := suspended vm;
     network_suspended := network_suspended vm; online := online vm;
     crashed := v;
     enable_shared_directory := enable_shared_directory vm;
     enable_floppyio := enable_floppyio vm;
     enable_remotedesktop := enable_remotedesktop vm;
     register_only := register_only vm;
     enable_network := enable_network vm;
     pf_guest_port := pf_guest_port vm; pf_host_port := pf_host_port vm;
     rd_host_port := rd_host_port vm; headless := headless vm;
     vm_pid := vm_pid vm; pFloppy := pFloppy vm |}.

Definition set_pf_host_port (v : Z) (vm : VBOX_VM) : VBOX_VM :=
  {| vm_master_name := vm_master_name vm;
     vm_master_description := vm_master_description vm;
     vm_name := vm_name vm; vm_cpu_count := vm_cpu_count vm;
     vm_disk_controller_type := vm_disk_controller_type vm;
     vm_disk_controller_model := vm_disk_controller_model vm;
     os_name := os_name vm; memory_size_mb := memory_size_mb vm;
     image_filename := image_filename vm;
     floppy_image_filename := floppy_image_filename vm;
     suspended := suspended vm;
     network_suspended := network_suspended vm; online := online vm;
     crashed := crashed vm;
     enable_shared_directory := enable_shared_directory vm;
     enable_floppyio := enable_floppyio vm;
     enable_remotedesktop := enable_remotedesktop vm;
     register_only := register_only vm;
     enable_network := enable_network vm;
     pf_guest_port := pf_guest_port vm; pf_host_port := v;
     rd_host_port := rd_host_port vm; headless := headless vm;
     vm_pid := vm_pid vm; pFloppy := pFloppy vm |}.

Definition set_rd_host_port (v : Z) (vm : VBOX_VM) : VBOX_VM :=
  {| vm_master_name := vm_master_name vm;
     vm_master_description := vm_master_description vm;
     vm_name := vm_name vm; vm_cpu_count := vm_cpu_count vm;
     vm_disk_controller_type := vm_disk_controller_type vm;
     vm_disk_controller_model := vm_disk_controller_model vm;
     os_name := os_name vm; memory_size_mb := memory_size_mb vm;
     image_filename := image_filename vm;
     floppy_image_filename := floppy_image_filename vm;
     suspended := suspended vm;
     network_suspended := network_suspended vm; online := online vm;
     crashed := crashed vm;
     enable_shared_directory := enable_shared_directory vm;
     enable_floppyio := enable_floppyio vm;
     enable_remotedesktop := enable_remotedesktop vm;
     register_only := register_only vm;
     enable_network := enable_network vm;
     pf_guest_port := pf_guest_port vm; pf_host_port := pf_host_port vm;
     rd_host_port := v; headless := headless vm; vm_pid := vm_pid vm;
     pFloppy := pFloppy vm |}.

Definition set_pFloppy (v : bool) (vm : VBOX_VM) : VBOX_VM :=
  {| vm_master_name := vm_master_name vm;
     vm_master_description := vm_master_description vm;
     vm_name := vm_name vm; vm_cpu_count := vm_cpu_count vm;
     vm_disk_controller_type := vm_disk_controller_type vm;
     vm_disk_controller_model := vm_disk_controller_model vm;
     os_name := os_name vm; memory_size_mb := memory_size_mb vm;
     image_filename := image_filename vm;
     floppy_image_filename := floppy_image_filename vm;
     suspended := suspended vm;
     network_suspended := network_suspended vm; online := online vm;
     crashed := crashed vm;
     enable_shared_directory := enable_shared_directory vm;
     enable_floppyio := enable_floppyio vm;
     enable_remotedesktop := enable_remotedesktop vm;
     register_only := register_only vm;
     enable_network := enable_network vm;
     pf_guest_port := pf_guest_port vm; pf_host_port := pf_host_port vm;
     rd_host_port := rd_host_port vm; headless := headless vm;
     vm_pid := vm_pid vm; pFloppy := v |}.

Definition set_vm_pid (v : Z) (vm : VBOX_VM) : VBOX_VM :=
  {| vm_master_name := vm_master_name vm;
     vm_master_description := vm_master_description vm;
     vm_name := vm_name vm; vm_cpu_count := vm_cpu_count vm;
     vm_disk_controller_type := vm_disk_controller_type vm;
     vm_disk_controller_model := vm_disk_controller_model vm;
     os_name := os_name vm; memory_size_mb := memory_size_mb vm;
     image_filename := image_filename vm;
     floppy_image_filename := floppy_image_filename vm;
     suspended := suspended vm;
     network_suspended := network_suspended vm; online := online vm;
     crashed := crashed vm;
     enable_shared_directory := enable_shared_directory vm;
     enable_floppyio := enable_floppyio vm;
     enable_remotedesktop := enable_remotedesktop vm;
     register_only := register_only vm;
     enable_network := enable_network vm;
     pf_guest_port := pf_guest_port vm; pf_host_port := pf_host_port vm;
     rd_host_port := rd_host_port vm; headless := headless vm;
     vm_pid := v; pFloppy := pFloppy vm |}.

(** The components of a result [(value, object, world)] or
    [(retval, output, world)]. *)
Definition value_of {A B C : Type} (r : A * B * C) : A := fst (fst r).
Definition object_of {A B C : Type} (r : A * B * C) : B := snd (fst r).
Definition output_of {A B C : Type} (r : A * B * C) : B := snd (fst r).
Definition world_of {A B C : Type} (r : A * B * C) : C := snd r.

(** *** Member functions as state transformers *)

Definition M (A : Type) : Type := VBOX_VM -> World -> A * VBOX_VM * World.

Definition ret {A : Type} (a : A) : M A := fun vm w => (a, vm, w).

Definition bind {A B : Type} (m : M A) (k : A -> M B) : M B :=
  fun vm w => let '(a, vm, w) := m vm w in k a vm w.

(** Reading the object. *)
Definition this : M VBOX_VM := fun vm w => (vm, vm, w).

(** Writing a member. *)
Definition assign (f : VBOX_VM -> VBOX_VM) : M unit :=
  fun vm w => (tt, f vm, w).

(** An action on the world alone. *)
Definition call {A : Type} (f : World -> A * World) : M A :=
  fun vm w => let '(a, w) := f w in (a, vm, w).

Definition effect (f : World -> World) : M unit :=
  fun vm w => (tt, vm, f w).

(** Reading the world. *)
Definition ask {A : Type} (f : World -> A) : M A :=
  fun vm w => (f w, vm, w).

Declare Scope vbox_scope.
Delimit Scope vbox_scope with vbox.

Notation "x <- m ;; k" := (bind m (fun x => k))
  (at level 61, m at next level, right associativity) : vbox_scope.
Notation "' pat <- m ;; k" := (bind m (fun x => let pat := x in k))
  (at level 61, pat pattern, m at next level, right associativity) : vbox_scope.
Notation "m ;; k" := (bind m (fun _ => k))
  (at level 61, right associativity) : vbox_scope.

(** [retval = m; if (retval) return retval;] followed by [k]. *)
Notation "'check' m ;; k" :=
  (bind m (fun retval => if retval =? 0 then k else ret retval))
  (at level 61, m at next level, right associativity) : vbox_scope.

Local Open Scope vbox_scope.

(** ** The member functions of [VBOX_VM] *)

Section Supervisor.

Variable host : Host.

(** A call of [vbm_popen] from a member function. *)
Definition popen (arguments item : string) (log_error retry_failures : bool)
    (timeout : Z) : M (Z * string) :=
  call (vbm_popen (host_platform host) arguments item
          log_error retry_failures timeout).

(** The same, for the callers that read the return value only. *)
Definition popen_rc (arguments item : string) (log_error retry_failures : bool)
    (timeout : Z) : M Z :=
  '(retval, _) <- popen arguments item log_error retry_failures timeout ;;
  ret retval.

(** A call that leaves the last three arguments to their defaults. *)
Definition popen_default (arguments item : string) : M (Z * string) :=
  popen arguments item default_log_error default_retry_failures default_timeout.

Definition popen_default_rc (arguments item : string) : M Z :=
  popen_rc arguments item default_log_error default_retry_failures
    default_timeout.

(** [dtime()]. *)
Definition dtime : M Z := ask clock.

(** [VBOX_VM::lower_vm_process_priority]. *)
Definition lower_vm_process_priority : M unit :=
  vm <- this ;;
  if negb (vm_pid vm =? 0) then effect (emit (SetPriority (vm_pid vm) true))
  else ret tt.

(** [VBOX_VM::reset_vm_process_priority]. *)
Definition reset_vm_process_priority : M unit :=
  vm <- this ;;
  if negb (vm_pid vm =? 0) then effect (emit (SetPriority (vm_pid vm) false))
  else ret tt.

(** The three assignments of one branch of [poll]. *)
Definition set_power_state (o s c : bool) : M unit :=
  assign (set_online o) ;;
  assign (set_suspended s) ;;
  assign (set_crashed c).

(** The chain of comparisons of [poll] on the token [vmstate]. *)
Definition classify (log_state : bool) (vmstate : string) : M unit :=
  if (vmstate =? "running")%string then set_power_state true false false
  else if (vmstate =? "paused")%string then set_power_state true true false
  else if (vmstate =? "starting")%string then set_power_state true false false
  else if (vmstate =? "stopping")%string then set_power_state true false false
  else if (vmstate =? "saving")%string then set_power_state true false false
  else if (vmstate =? "restoring")%string then set_power_state true false false
  else if (vmstate =? "livesnapshotting")%string
       then set_power_state true false false
  else if (vmstate =? "deletingsnapshotlive")%string
       then set_power_state true false false
  else if (vmstate =? "deletingsnapshotlivepaused")%string
       then set_power_state true false false
  else if (vmstate =? "aborted")%string then set_power_state false false true
  else if (vmstate =? "gurumeditation")%string
       then set_power_state false false true
  else
    set_power_state false false false ;;
    if log_state then
      effect (say ("VM is no longer is a running state. It is in '" ++
                   vmstate ++ "'."))
    else ret tt.

(** The command of [poll]. *)
Definition poll_command (vm : VBOX_VM) : string :=
  "showvminfo " ++ quoted (vm_name vm) ++ " " ++ "--machinereadable ".

(** The token that follows [VMState=] between double quotes, when the
    output has one. *)
Definition vmstate_token (output : string) : option string :=
  let vmstate_start := find output ("VMState=" ++ dq) 0 in
  if negb (vmstate_start =? npos) then
    let vmstate_start := size_add vmstate_start 9 in
    let vmstate_end := find output dq vmstate_start in
    Some (substr output vmstate_start (size_sub vmstate_end vmstate_start))
  else None.

(** [VBOX_VM::poll]. *)
Definition poll (log_state : bool) : M unit :=
  vm <- this ;;
  let command := poll_command vm in
  '(retval, output) <- popen command "VM state" false false default_timeout ;;
  if retval =? 0 then
    match vmstate_token output with
    | Some vmstate => classify log_state vmstate
    | None => ret tt
    end
  else ret tt.

(** The [do ... while (timeout >= dtime())] loop of [start]; [timeout]
    is in milliseconds.  [fuel] bounds the number of further
    iterations: every iteration sleeps one second, so 300 further
    iterations exhaust the 300 seconds (lemma [start_wait_fuel]). *)
Fixpoint start_wait (fuel : nat) (timeout : Z) : M unit :=
  poll false ;;
  vm <- this ;;
  if online vm then ret tt
  else
    effect (boinc_sleep 1000) ;;
    now <- dtime ;;
    if timeout >=? now then
      match fuel with
      | O => ret tt
      | S fuel => start_wait fuel timeout
      end
    else ret tt.

(** The command of [start]. *)
Definition start_command (vm : VBOX_VM) : string :=
  let command := "startvm " ++ quoted (vm_name vm) in
  if headless vm then command ++ " --type headless" else command.

(** [VBOX_VM::start]. *)
Definition start : M Z :=
  effect (say "Starting VM.") ;;
  vm <- this ;;
  let command := start_command vm in
  check popen_default_rc command "start VM" ;;
  now <- dtime ;;
  let timeout := now + 300 * 1000 in
  start_wait 300 timeout ;;
  vm <- this ;;
  if online vm then
    effect (say "Successfully started VM.") ;;
    ret BOINC_SUCCESS
  else
    effect (say "VM did not start within 5 minutes, aborting job.") ;;
    ret ERR_EXEC.

(** [VBOX_VM::stop]. *)
Definition stop : M Z :=
  effect (say "Stopping VM.") ;;
  vm <- this ;;
  if online vm then
    let command := "controlvm " ++ quoted (vm_name vm) ++ " savestate" in
    popen command "stop VM" true false default_timeout ;;
    poll false ;;
    vm <- this ;;
    if negb (online vm) then
      effect (say "Successfully stopped VM.") ;;
      ret BOINC_SUCCESS
    else
      effect (say "VM did not stop when requested.") ;;
      ret ERR_EXEC
  else ret 0.

(** [VBOX_VM::poweroff]. *)
Definition poweroff : M Z :=
  effect (say "Powering off VM.") ;;
  vm <- this ;;
  if online vm then
    let command := "controlvm " ++ quoted (vm_name vm) ++ " poweroff" in
    popen command "poweroff VM" true false default_timeout ;;
    poll false ;;
    vm <- this ;;
    if negb (online vm) then
      effect (say "Successfully powered off VM.") ;;
      ret BOINC_SUCCESS
    else
      effect (say "VM did not power off when requested.") ;;
      ret ERR_EXEC
  else ret 0.

(** [VBOX_VM::pause]. *)
Definition pause : M Z :=
  reset_vm_process_priority ;;
  vm <- this ;;
  let command := "controlvm " ++ quoted (vm_name vm) ++ " pause" in
  check popen_default_rc command "pause VM" ;;
  assign (set_suspended true) ;;
  ret 0.

(** [VBOX_VM::resume]. *)
Definition resume : M Z :=
  lower_vm_process_priority ;;
  vm <- this ;;
  let command := "controlvm " ++ quoted (vm_name vm) ++ " resume" in
  check popen_default_rc command "resume VM" ;;
  assign (set_suspended false) ;;
  ret 0.


(** [VBOX_VM::restoresnapshot]. *)
Definition restoresnapshot : M Z :=
  effect (say "Restore from previously saved snapshot.") ;;
  vm <- this ;;
  let command := "snapshot " ++ quoted (vm_name vm) ++ " " ++
                 "restorecurrent " in
  check popen_default_rc command "restore current snapshot" ;;
  effect (say "Restore completed.") ;;
  ret 0.

(** The part of an iteration of [cleanupsnapshots] that deletes the
    snapshot named on [line], if the line names one.  [output] is the
    variable of that name, which holds the listing: the call that
    deletes the snapshot receives it as its output buffer, so the
    result, the value of [output] after the block, is the text that
    this call left there. *)
Definition delete_listed (line output : string) : M string :=
  let uuid_start := find line "(UUID: " 0 in
  if negb (uuid_start =? npos) then
    let uuid_start := size_add uuid_start 7 in
    let uuid_end := find line ")" uuid_start in
    let uuid := substr line uuid_start (size_sub uuid_end uuid_start) in
    effect (say "Deleting stale snapshot.") ;;
    vm <- this ;;
    let command := "snapshot " ++ quoted (vm_name vm) ++ " " ++
                   "delete " ++ dq ++ uuid ++ dq ++ " " in
    '(_, output) <- popen command "delete stale snapshot" true false 0 ;;
    ret output
  else ret output.

(** The [while (eol_pos != string::npos)] loop of [cleanupsnapshots].
    The positions of the next iteration are looked up in [output] as
    [delete_listed] left it.  [fuel] bounds the number of further
    iterations. *)
Fixpoint cleanupsnapshots_loop (fuel : nat) (delete_active : bool)
    (output : string) (eol_prev_pos eol_pos : Z) : M unit :=
  if eol_pos =? npos then ret tt
  else
    let line := substr output eol_prev_pos (size_sub eol_pos eol_prev_pos) in
    if contains line "does not have any snapshots" then ret tt
    else if negb delete_active && contains line "*" then ret tt
    else
      output <- delete_listed line output ;;
      let eol_prev_pos := size_add eol_pos 1 in
      let eol_pos := find output nl eol_prev_pos in
      match fuel with
      | O => ret tt
      | S fuel =>
          cleanupsnapshots_loop fuel delete_active output eol_prev_pos eol_pos
      end.

(** The longest text that [vbm_popen] can add to the output of a
    child: the notes. *)
Definition notes_size : nat :=
  String.length (nl ++ "Notes:" ++ nl ++ nl ++ lock_note).

(** A bound on the length of every text that the calls still to come
    can leave in an output buffer. *)
Definition output_bound (w : World) : nat :=
  fold_right (fun c n => (String.length (child_output c) + notes_size + n)%nat)
    O (script w).

(** [VBOX_VM::cleanupsnapshots].  The end-of-line position grows with
    every iteration and stays below the length of the text it was
    found in, which bounds the number of iterations (lemma
    [cleanupsnapshots_fuel]). *)
Definition cleanupsnapshots (delete_active : bool) : M Z :=
  vm <- this ;;
  let command := "snapshot " ++ quoted (vm_name vm) ++ " " ++ "list " in
  '(retval, output) <- popen_default command "enumerate snapshot(s)" ;;
  if negb (retval =? 0) then ret retval
  else
    fuel <- ask (fun w => (String.length output + output_bound w)%nat) ;;
    let eol_prev_pos := 0 in
    let eol_pos := find output nl 0 in
    cleanupsnapshots_loop fuel delete_active output eol_prev_pos eol_pos ;;
    ret 0.

(** [VBOX_VM::createsnapshot]; [elapsed_time] is in milliseconds, and
    [(int)elapsed_time] is the conversion to [int] of its whole number
    of seconds. *)
Definition createsnapshot (elapsed_time : Z) : M Z :=
  effect (say "Creating new snapshot for VM.") ;;
  pause ;;
  vm <- this ;;
  let command := "snapshot " ++ quoted (vm_name vm) ++ " " ++
                 "take boinc_" ++
                 dec (int_of_double (Z.quot elapsed_time 1000)) in
  check popen_rc command "create new snapshot" true true 0 ;;
  resume ;;
  poll false ;;
  cleanupsnapshots false ;;
  effect (say "Checkpoint completed.") ;;
  ret 0.

(** [VBOX_VM::set_network_access]. *)
Definition set_network_access (enabled : bool) : M Z :=
  assign (set_network_suspended (negb enabled)) ;;
  vm <- this ;;
  if enabled then
    effect (say "Enabling network access for VM.") ;;
    let command := "modifyvm " ++ quoted (vm_name vm) ++ " " ++
                   "--cableconnected1 on " in
    check popen_default_rc command "enable network" ;;
    ret 0
  else
    effect (say "Disabling network access for VM.") ;;
    let command := "modifyvm " ++ quoted (vm_name vm) ++ " " ++
                   "--cableconnected1 off " in
    check popen_default_rc command "disable network" ;;
    ret 0.

(** [VBOX_VM::get_port_forwarding_port]: a first attempt on the
    configured port, a second one on any port. *)
Definition get_port_forwarding_port : M Z :=
  a <- call next_socket ;;
  match a with
  | SocketError => ret ERR_SOCKET
  | Bound port => assign (set_pf_host_port port) ;; ret 0
  | BindFailed =>
      a <- call next_socket ;;
      match a with
      | SocketError => ret ERR_SOCKET
      | BindFailed => ret ERR_BIND
      | Bound port => assign (set_pf_host_port port) ;; ret 0
      end
  end.

(** [VBOX_VM::get_remote_desktop_port]. *)
Definition get_remote_desktop_port : M Z :=
  a <- call next_socket ;;
  match a with
  | SocketError => ret ERR_SOCKET
  | BindFailed => ret ERR_BIND
  | Bound port => assign (set_rd_host_port port) ;; ret 0
  end.

(** ** The registry adapter *)

(** [VBOX_VM::is_registered]. *)
Definition is_registered : M bool :=
  vm <- this ;;
  let command := "showvminfo " ++ quoted (vm_master_name vm) ++ " " ++
                 "--machinereadable " in
  '(retval, output) <- popen command "registration" false false default_timeout ;;
  if retval =? 0 then
    if negb (contains output "VBOX_E_OBJECT_NOT_FOUND") then ret true
    else ret false
  else ret false.

(** [VBOX_VM::is_hdd_registered]. *)
Definition is_hdd_registered : M bool :=
  vm <- this ;;
  let virtual_machine_root_dir := host_cwd host in
  let command := "showhdinfo " ++
                 quoted (virtual_machine_root_dir ++ "/" ++ image_filename vm) ++
                 " " in
  '(retval, output) <-
     popen command "hdd registration" false false default_timeout ;;
  if retval =? 0 then
    if negb (contains output "VBOX_E_FILE_ERROR") &&
       negb (contains output "VBOX_E_OBJECT_NOT_FOUND") &&
       negb (contains output "does not match the value")
    then ret true else ret false
  else ret false.

(** [VBOX_VM::is_extpack_installed]. *)
Definition is_extpack_installed : M bool :=
  '(retval, output) <-
     popen "list extpacks" "extpack detection" false false default_timeout ;;
  if retval =? 0 then
    if contains output "Oracle VM VirtualBox Extension Pack" &&
       contains output "VBoxVRDP"
    then ret true else ret false
  else ret false.

(** [is_client_version_newer]: true when the version of the client,
    [aid], is after [maj.min.rel]. *)
Definition is_client_version_newer (aid : APP_INIT_DATA) (maj min rel : Z)
    : bool :=
  if maj <? major_version aid then true
  else if maj >? major_version aid then false
  else if min <? minor_version aid then true
  else if min >? minor_version aid then false
  else if rel <? release aid then true
  else false.

(** The value of [disable_acceleration] once the four tests of
    [register_vm] have run. *)
Definition disable_acceleration (aid : APP_INIT_DATA) (vm : VBOX_VM)
    : bool :=
  let disable_acceleration := false in
  let disable_acceleration :=
    if negb (contains (p_features aid) "vmx") &&
       negb (contains (p_features aid) "svm")
    then true else disable_acceleration in
  let disable_acceleration :=
    if contains (p_features aid) "hypervisor"
    then true else disable_acceleration in
  let disable_acceleration :=
    if is_client_version_newer aid 7 2 16 then
      if vm_extensions_disabled aid then true else disable_acceleration
    else
      if (vm_cpu_count vm =? "1")%string then true else disable_acceleration in
  disable_acceleration.

(** The messages that the four tests write. *)
Definition acceleration_messages (aid : APP_INIT_DATA) : M unit :=
  (if negb (contains (p_features aid) "vmx") &&
      negb (contains (p_features aid) "svm")
   then effect (say ("Hardware acceleration CPU extensions not detected. " ++
                     "Disabling VirtualBox hardware acceleration support."))
   else ret tt) ;;
  (if contains (p_features aid) "hypervisor"
   then effect (say ("Running under Hypervisor. " ++
                     "Disabling VirtualBox hardware acceleration support."))
   else ret tt) ;;
  (if is_client_version_newer aid 7 2 16 && vm_extensions_disabled aid
   then effect (say ("Hardware acceleration failed with previous execution. " ++
                     "Disabling VirtualBox hardware acceleration support."))
   else ret tt).

(** The block of [register_vm] headed "Only perform hardware
    acceleration check on 32-bit VM types". *)
Definition register_vm_hwvirtex : M Z :=
  vm <- this ;;
  let aid := host_aid host in
  if negb (contains (os_name vm) "_64") then
    acceleration_messages aid ;;
    if disable_acceleration aid vm then
      effect (say "Disabling hardware acceleration support for virtualization.") ;;
      let command := "modifyvm " ++ quoted (vm_name vm) ++ " " ++
                     "--hwvirtex off " in
      check popen_default_rc command "VT-x/AMD-V support" ;;
      ret 0
    else ret 0
  else ret 0.

(** The part of [register_vm] that precedes the hardware acceleration
    check: creation of the VM and the settings that follow it. *)
Definition register_vm_create : M Z :=
  let virtual_machine_slot_directory := host_cwd host in
  vm <- this ;;
  assign (set_vm_name (vm_master_name vm)) ;;
  vm <- this ;;
  let modifyvm := "modifyvm " ++ quoted (vm_name vm) ++ " " in
  effect (say ("Registering VM. (" ++ vm_name vm ++ ") ")) ;;
  check popen_default_rc
    ("createvm " ++
     "--name " ++ quoted (vm_name vm) ++ " " ++
     "--basefolder " ++ quoted virtual_machine_slot_directory ++ " " ++
     "--ostype " ++ quoted (os_name vm) ++ " " ++
     "--register") "register" ;;
  popen (modifyvm ++ "--description " ++ quoted (vm_master_description vm) ++ " ")
    "modifydescription" false false default_timeout ;;
  effect (say ("Setting CPU Count for VM. (" ++ vm_cpu_count vm ++ ")")) ;;
  check popen_default_rc
    (modifyvm ++ "--cpus " ++ vm_cpu_count vm ++ " ") "modifycpu" ;;
  effect (say ("Setting Memory Size for VM. (" ++ memory_size_mb vm ++ "MB)")) ;;
  check popen_default_rc
    (modifyvm ++ "--memory " ++ memory_size_mb vm ++ " ") "modifymem" ;;
  effect (say "Setting Chipset Options for VM.") ;;
  check popen_default_rc
    (modifyvm ++ "--acpi on " ++ "--ioapic on ") "modifychipset" ;;
  effect (say "Setting Boot Options for VM.") ;;
  check popen_default_rc
    (modifyvm ++ "--boot1 disk " ++ "--boot2 none " ++ "--boot3 none " ++
     "--boot4 none ") "modifyboot" ;;
  effect (say "Setting Network Configuration for VM.") ;;
  check popen_default_rc
    (modifyvm ++ "--nic1 nat " ++ "--natdnsproxy1 on " ++
     "--cableconnected1 off ") "modifynetwork" ;;
  effect (say "Disabling USB Support for VM.") ;;
  popen (modifyvm ++ "--usb off ") "modifyusb" false false default_timeout ;;
  effect (say "Disabling COM Port Support for VM.") ;;
  popen (modifyvm ++ "--uart1 off " ++ "--uart2 off ")
    "modifycom" false false default_timeout ;;
  effect (say "Disabling LPT Port Support for VM.") ;;
  popen (modifyvm ++ "--lpt1 off " ++ "--lpt2 off ")
    "modifylpt" false false default_timeout ;;
  effect (say "Disabling Audio Support for VM.") ;;
  popen (modifyvm ++ "--audio none ") "modifyaudio" false false default_timeout ;;
  effect (say "Disabling Clipboard Support for VM.") ;;
  popen (modifyvm ++ "--clipboard disabled ")
    "modifyclipboard" false false default_timeout ;;
  effect (say "Disabling Drag and Drop Support for VM.") ;;
  popen (modifyvm ++ "--draganddrop disabled ")
    "modifydragdrop" false false default_timeout ;;
  ret 0.

(** The part of [register_vm] that follows the check: storage, floppy,
    network, remote desktop and shared directory. *)
Definition register_vm_devices : M Z :=
  let virtual_machine_slot_directory := host_cwd host in
  vm <- this ;;
  let modifyvm := "modifyvm " ++ quoted (vm_name vm) ++ " " in
  effect (say "Adding storage controller to VM.") ;;
  let command :=
    "storagectl " ++ quoted (vm_name vm) ++ " " ++
    "--name " ++ quoted "Hard Disk Controller" ++ " " ++
    "--add " ++ quoted (vm_disk_controller_type vm) ++ " " ++
    "--controller " ++ quoted (vm_disk_controller_model vm) ++ " " ++
    "--hostiocache off " in
  let command :=
    if (vm_disk_controller_type vm =? "sata")%string ||
       (vm_disk_controller_type vm =? "SATA")%string
    then command ++ "--sataportcount 1 " else command in
  check popen_default_rc command "add storage controller (fixed disk)" ;;
  check (if enable_floppyio vm then
           popen_default_rc
             ("storagectl " ++ quoted (vm_name vm) ++ " " ++
              "--name " ++ quoted "Floppy Controller" ++ " " ++
              "--add floppy ") "add storage controller (floppy)"
         else ret 0) ;;
  effect (say ("Adding virtual disk drive to VM. (" ++ image_filename vm ++ ")")) ;;
  check popen_default_rc
    ("storageattach " ++ quoted (vm_name vm) ++ " " ++
     "--storagectl " ++ quoted "Hard Disk Controller" ++ " " ++
     "--port 0 " ++ "--device 0 " ++ "--type hdd " ++
     "--setuuid " ++ quoted EmptyString ++ " " ++
     "--medium " ++
     quoted (virtual_machine_slot_directory ++ "/" ++ image_filename vm) ++ " ")
    "storage attach (fixed disk)" ;;
  check (if enable_floppyio vm then
           assign (set_pFloppy true) ;;
           ready <- ask floppy_ready ;;
           if negb ready then
             error <- ask floppy_error ;;
             errorStr <- ask floppy_errorStr ;;
             effect (say ("Creating virtual floppy image failed." ++ nl ++
                          "Error Code '" ++ dec error ++
                          "' Error Message '" ++ errorStr ++ "'")) ;;
             ret ERR_FWRITE
           else
             effect (say "Adding virtual floppy disk drive to VM.") ;;
             popen_default_rc
               ("storageattach " ++ quoted (vm_name vm) ++ " " ++
                "--storagectl " ++ quoted "Floppy Controller" ++ " " ++
                "--port 0 " ++ "--device 0 " ++
                "--medium " ++
                quoted (virtual_machine_slot_directory ++ "/" ++
                        floppy_image_filename vm) ++ " ")
               "storage attach (floppy disk)"
         else ret 0) ;;
  check (if enable_network vm then
           set_network_access true ;;
           if negb (pf_guest_port vm =? 0) then
             check (if pf_host_port vm =? 0 then get_port_forwarding_port
                    else ret 0) ;;
             effect (say "Enabling VM firewall rules.") ;;
             vm <- this ;;
             popen_default_rc
               (modifyvm ++ "--natpf1 " ++
                quoted ("vboxwrapper,tcp,127.0.0.1," ++ dec (pf_host_port vm) ++
                        ",," ++ dec (pf_guest_port vm)) ++ " ")
               "add updated port forwarding rule"
           else ret 0
         else ret 0) ;;
  check (if enable_remotedesktop vm then
           effect (say "Enabling remote desktop for VM.") ;;
           installed <- is_extpack_installed ;;
           if negb installed then
             effect (say ("Required extension pack not installed, " ++
                          "remote desktop not enabled.")) ;;
             ret 0
           else
             check get_remote_desktop_port ;;
             vm <- this ;;
             popen_default_rc
               (modifyvm ++ "--vrde on " ++ "--vrdeextpack default " ++
                "--vrdeauthlibrary default " ++ "--vrdeauthtype null " ++
                "--vrdeport " ++ dec (rd_host_port vm) ++ " ")
               "remote desktop"
         else ret 0) ;;
  check (if enable_shared_directory vm then
           effect (say "Enabling shared directory for VM.") ;;
           popen_default_rc
             ("sharedfolder add " ++ quoted (vm_name vm) ++ " " ++
              "--name " ++ quoted "shared" ++ " " ++
              "--hostpath " ++
              quoted (virtual_machine_slot_directory ++ "/shared"))
             "enable shared dir"
         else ret 0) ;;
  ret 0.

(** [VBOX_VM::register_vm]. *)
Definition register_vm : M Z :=
  check register_vm_create ;;
  check register_vm_hwvirtex ;;
  register_vm_devices.

(** [VBOX_VM::deregister_vm]. *)
Definition deregister_vm (delete_media : bool) : M Z :=
  let virtual_machine_slot_directory := host_cwd host in
  effect (say "Deregistering VM.") ;;
  cleanupsnapshots true ;;
  effect (say "Removing storage controller(s) from VM.") ;;
  vm <- this ;;
  popen ("storagectl " ++ quoted (vm_name vm) ++ " " ++
         "--name " ++ quoted "IDE Controller" ++ " " ++
         "--remove ")
    "deregister storage controller (fixed disk)" false false default_timeout ;;
  (if enable_floppyio vm then
     popen ("storagectl " ++ quoted (vm_name vm) ++ " " ++
            "--name " ++ quoted "Floppy Controller" ++ " " ++
            "--remove ")
       "deregister storage controller (floppy disk)" false false
       default_timeout ;;
     ret tt
   else ret tt) ;;
  effect (say "Removing VM from VirtualBox.") ;;
  popen ("unregistervm " ++ quoted (vm_name vm) ++ " " ++ "--delete ")
    "delete VM" false false default_timeout ;;
  effect (say "Removing virtual disk drive from VirtualBox.") ;;
  let command :=
    "closemedium disk " ++
    quoted (virtual_machine_slot_directory ++ "/" ++ image_filename vm) ++ " " in
  let command := if delete_media then command ++ "--delete " else command in
  popen command "remove virtual disk" false false default_timeout ;;
  (if enable_floppyio vm then
     effect (say "Removing virtual floppy disk from VirtualBox.") ;;
     let command :=
       "closemedium floppy " ++
       quoted (virtual_machine_slot_directory ++ "/" ++
               floppy_image_filename vm) ++ " " in
     let command := if delete_media then command ++ "--delete " else command in
     popen command "remove virtual floppy disk" false false default_timeout ;;
     ret tt
   else ret tt) ;;
  ret 0.

(** [VBOX_VM::deregister_stale_vm]. *)
Definition deregister_stale_vm : M Z :=
  let virtual_machine_slot_directory := host_cwd host in
  vm <- this ;;
  let command :=
    "showhdinfo " ++
    quoted (virtual_machine_slot_directory ++ "/" ++ image_filename vm) ++ " " in
  '(retval, output) <- popen_default command "get HDD info" ;;
  if negb (retval =? 0) then ret retval
  else
    let uuid_start := find output "(UUID: " 0 in
    if negb (uuid_start =? npos) then
      let uuid_start := size_add uuid_start 7 in
      let uuid_end := find output ")" uuid_start in
      assign (set_vm_name
                (substr output uuid_start (size_sub uuid_end uuid_start))) ;;
      deregister_vm false
    else
      popen ("closemedium disk " ++
             quoted (virtual_machine_slot_directory ++ "/" ++
                     image_filename vm) ++ " ")
        "remove virtual disk" false default_retry_failures default_timeout ;;
      (if enable_floppyio vm then
         popen ("closemedium floppy " ++
                quoted (virtual_machine_slot_directory ++ "/" ++
                        floppy_image_filename vm) ++ " ")
           "remove virtual floppy disk" false default_retry_failures
           default_timeout ;;
         ret tt
       else ret tt) ;;
      ret 0.

(** [VBOX_VM::cleanup]. *)
Definition cleanup : M unit :=
  poweroff ;;
  deregister_vm true ;;
  effect (boinc_sleep 5000).

(** ** The entry point *)

(** [VBOX_VM::run]; [elapsed_time] is in milliseconds. *)
Definition run (elapsed_time : Z) : M Z :=
  registered <- is_registered ;;
  check (if negb registered then
           hdd_registered <- is_hdd_registered ;;
           check (if hdd_registered then deregister_stale_vm else ret 0) ;;
           register_vm
         else ret 0) ;;
  vm <- this ;;
  if register_only vm then ret ERR_FOPEN
  else
    assign (set_vm_name (vm_master_name vm)) ;;
    poll false ;;
    vm <- this ;;
    (if online vm then poweroff ;; ret tt else ret tt) ;;
    (if negb (elapsed_time =? 0) then restoresnapshot ;; ret tt else ret tt) ;;
    check start ;;
    ret 0.

End Supervisor.

(** ** Probes, settings and logs *)

Section Probes.

Variable host : Host.

(** [OpenProcess(PROCESS_QUERY_INFORMATION | PROCESS_SET_INFORMATION,
    FALSE, process_id)] on Windows: the handle of the process, 0 when
    it cannot be opened.  The member [vm_pid] of the model stands for
    [vm_pid_handle] there. *)
Variable OpenProcess : Z -> Z.

(** [VBOX_VM::is_system_ready]; the result is [rc] and the text left
    in [message]. *)
Definition is_system_ready (message : string) : M (bool * string) :=
  let rc := true in
  '(retval, output) <- popen_default host "list hostinfo " "host info" ;;
  if retval =? 0 then
    let '(message, rc) :=
      if negb (contains output "Processor count:")
      then ("Communication with VM Hypervisor failed.", false)
      else (message, rc) in
    let '(message, rc) :=
      if contains output "WARNING: The vboxdrv kernel module is not loaded."
      then ("Please update/recompile VirtualBox kernel drivers.", false)
      else (message, rc) in
    ret (rc, message)
  else ret (rc, message).

(** "Keep only the last 16k if it is larger than that": the tail of
    [get_vm_log], from [size_t size = output.size()] on.  The result
    is the text left in [log]. *)
Definition last_16k (output : string) : string :=
  let size := Str.size output in
  if size >? 16384 then
    let log := substr output (size_sub size 16384) size in
    if Str.size log >=? 16384 then erase_first_line log else log
  else output.

(** [VBOX_VM::get_vm_log]; the result is the return value and the
    text left in [log]. *)
Definition get_vm_log (log : string) : M (Z * string) :=
  vm <- this ;;
  let command := "showvminfo " ++ quoted (vm_name vm) ++ " " ++ "--log 0 " in
  '(retval, output) <- popen host command "get vm log" false false default_timeout ;;
  if negb (retval =? 0) && negb (contains output "Process ID: ")
  then ret (retval, log)
  else ret (0, last_16k output).

(** The conversion of the [long] that [atol] returns to the [int]
    [process_id]. *)
Definition long_bits (p : platform) : Z :=
  match p with Win32 => 32 | Posix => 64 end.

(** [VBOX_VM::get_vm_process_id]; the result is the return value and
    the value left in [process_id]. *)
Definition get_vm_process_id (process_id : Z) : M (Z * Z) :=
  vm <- this ;;
  let command := "showvminfo " ++ quoted (vm_name vm) ++ " " ++ "--log 0 " in
  '(retval, output) <- popen_default host command "get process ID" ;;
  if negb (retval =? 0) then ret (retval, process_id)
  else
    let pid_start := find output "Process ID: " 0 in
    if pid_start =? npos then ret (ERR_NOT_FOUND, process_id)
    else
      let pid_start := size_add pid_start 12 in
      let pid_end := find output nl pid_start in
      let pid := substr output pid_start (size_sub pid_end pid_start) in
      if Str.size pid <=? 0 then ret (ERR_NOT_FOUND, process_id)
      else
        let process_id :=
          int_of_uint (atol (long_bits (host_platform host)) pid) in
        assign (set_vm_pid (match host_platform host with
                            | Posix => process_id
                            | Win32 => OpenProcess process_id
                            end)) ;;
        ret (0, process_id).

(** [VBOX_VM::set_cpu_usage]. *)
Definition set_cpu_usage (percentage : Z) : M Z :=
  effect (say ("Setting cpu throttle for VM. (" ++ dec percentage ++ "%)")) ;;
  vm <- this ;;
  let command := "controlvm " ++ quoted (vm_name vm) ++ " " ++
                 "cpuexecutioncap " ++ dec percentage ++ " " in
  check popen_default_rc host command "CPU throttle" ;;
  ret 0.

(** [VBOX_VM::set_network_usage]. *)
Definition set_network_usage (kilobytes : Z) : M Z :=
  effect (say "Setting network throttle for VM.") ;;
  vm <- this ;;
  let command := "modifyvm " ++ quoted (vm_name vm) ++ " " ++
                 "--nicspeed1 " ++ dec kilobytes ++ " " in
  check popen_default_rc host command "network throttle" ;;
  ret 0.

(** [VBOX_VM::read_floppy]; [received] is what [FloppyIO::receive]
    hands over, and the result is the return value and the text left
    in [data]. *)
Definition read_floppy (received data : string) : M (Z * string) :=
  vm <- this ;;
  if enable_floppyio vm && pFloppy vm then ret (0, received)
  else ret (1, data).

(** [VBOX_VM::write_floppy]; the result is the return value and the
    text passed to [FloppyIO::send], if any. *)
Definition write_floppy (data : string) : M (Z * option string) :=
  vm <- this ;;
  if enable_floppyio vm && pFloppy vm then ret (0, Some data)
  else ret (1, None).

(** *** Network statistics *)

Section Counters.

(** The type [double] with the operations that the two functions
    use: the constant 0, the addition and [atof]. *)
Variable double : Type.
Variable dzero : double.
Variable dadd : double -> double -> double.
Variable atof : string -> double.

(** The [while (counter_start != string::npos)] loop that adds up the
    counters.  [fuel] bounds the number of further iterations; every
    iteration moves [counter_start] forward, so the length of
    [output] is enough (lemma [add_counters_fuel]). *)
Fixpoint add_counters (fuel : nat) (output : string) (counter_start : Z)
    (total : double) : double :=
  if counter_start =? npos then total
  else
    let counter_start := size_add counter_start 3 in
    let counter_end := find output dq counter_start in
    let counter_value :=
      substr output counter_start (size_sub counter_end counter_start) in
    let total := dadd total (atof counter_value) in
    let counter_start := find output ("c=" ++ dq) counter_start in
    match fuel with
    | O => total
    | S fuel => add_counters fuel output counter_start total
    end.

(** [VBOX_VM::get_network_bytes_sent]; the result is the return value
    and the value left in [sent]. *)
Definition get_network_bytes_sent (sent : double) : M (Z * double) :=
  vm <- this ;;
  let command := "debugvm " ++ quoted (vm_name vm) ++ " " ++
                 "statistics --pattern " ++
                 quoted "/Devices/*/TransmitBytes" ++ " " in
  '(retval, output) <- popen_default host command "get bytes sent" ;;
  if negb (retval =? 0) then ret (retval, sent)
  else
    let sent := dzero in
    let counter_start := find output ("c=" ++ dq) 0 in
    ret (0, add_counters (String.length output) output counter_start sent).

(** [VBOX_VM::get_network_bytes_received]; the result is the return
    value and the value left in [received]. *)
Definition get_network_bytes_received (received : double) : M (Z * double) :=
  vm <- this ;;
  let command := "debugvm " ++ quoted (vm_name vm) ++ " " ++
                 "statistics --pattern " ++
                 quoted "/Devices/*/ReceiveBytes" ++ " " in
  '(retval, output) <- popen_default host command "get bytes received" ;;
  if negb (retval =? 0) then ret (retval, received)
  else
    let received := dzero in
    let counter_start := find output ("c=" ++ dq) 0 in
    ret (0, add_counters (String.length output) output counter_start received).

End Counters.

End Probes.

(** The object that the constructor [VBOX_VM::VBOX_VM] builds.  The
    constructor does not assign [rd_host_port]: the member holds
    whatever its memory held before, the argument [indeterminate]. *)
Definition VBOX_VM_new (indeterminate : Z) : VBOX_VM :=
  {| vm_master_name := EmptyString; vm_master_description := EmptyString;
     vm_name := EmptyString; vm_cpu_count := EmptyString;
     vm_disk_controller_type := "ide"; vm_disk_controller_model := "PIIX4";
     os_name := EmptyString; memory_size_mb := EmptyString;
     image_filename := EmptyString; floppy_image_filename := EmptyString;
     suspended := false; network_suspended := false; online := false;
     crashed := false; enable_shared_directory := false;
     enable_floppyio := false; enable_remotedesktop := false;
     register_only := false; enable_network := false;
     pf_guest_port := 0; pf_host_port := 0; rd_host_port := indeterminate;
     headless := true; vm_pid := 0; pFloppy := false |}.

(** An object fresh from the constructor, in memory that held 0. *)
Definition new_VBOX_VM : VBOX_VM := VBOX_VM_new 0.

(** A world at time 0 in which nothing has happened yet. *)
Definition new_World (children : list child) : World :=
  {| clock := 0; script := children; sockets := []; floppy_ready := true;
     trace := []; stderr := [];
     floppy_error := 0; floppy_errorStr := EmptyString |}.

(** * The vocabulary of the properties *)

(** ** Children, traces and logs *)

(** A child that ran to its end. *)
Definition exited (code : Z) (output : string) (ms : N) : child :=
  {| spawned := true; timed_out := false; exit_code := code;
     child_output := output; elapsed := ms;
     launch_error := 0; pipe_created := true; vboxsvc_error := None |}.

(** The output of a command that found the session locked. *)
Definition locked_output : string :=
  "VBoxManage: error: The machine is locked (0x80bb0007)" ++ nl.

(** A script of [n] commands that all succeed, printing nothing. *)
Definition all_succeed (n : nat) : list child :=
  repeat (exited 0 EmptyString 10) n.

(** The output of [showvminfo --machinereadable] for a VM in the
    state [token]. *)
Definition vminfo (token : string) : string :=
  "name=" ++ quoted "vm" ++ nl ++ "VMState=" ++ quoted token ++ nl.

(** The trace of [n] failed attempts at [command], each followed by a
    sleep, the first sleep being [interval] and each next one twice
    the one before. *)
Fixpoint backoff_trace (command : string) (interval : Z) (n : nat)
    : list event :=
  match n with
  | O => []
  | S n => Exec command :: Sleep interval ::
           backoff_trace command (interval * 2) n
  end.


(** The number of launches in a piece of trace. *)
Fixpoint launches (l : list event) : nat :=
  match l with
  | Exec _ :: l => S (launches l)
  | _ :: l => launches l
  | [] => O
  end.

(** The sleeps of a piece of trace, in order. *)
Fixpoint sleeps (l : list event) : list Z :=
  match l with
  | Sleep ms :: l => ms :: sleeps l
  | _ :: l => sleeps l
  | [] => []
  end.

(** The time spent in the sleeps of a piece of trace, in
    milliseconds. *)
Definition slept (l : list event) : Z := fold_right Z.add 0 (sleeps l).

(** A message of the log mentions the session lock. *)
Definition logs_lock_note (w : World) : Prop :=
  exists msg, In msg (stderr w) /\
              contains msg "Another VirtualBox management application" = true.

(** What a world has gained since an earlier one: the trace has grown
    by [l], the log by [m], and the clock has not gone back. *)
Definition gained (w w' : World) (l : list event) (m : list string) : Prop :=
  trace w' = (trace w ++ l)%list /\
  stderr w' = (stderr w ++ m)%list /\
  clock w <= clock w'.

(** The lines that the invoker writes to stderr for the child [c]: the
    line of [launch_vboxsvc] first, then the line of a launch that
    failed. *)
Definition raw_messages (p : platform) (c : child) : list string :=
  List.app
    match p, vboxsvc_error c with
    | Win32, Some e => ["Creating VBoxSVC.exe failed! (" ++ dec e ++ ")."]
    | _, _ => []
    end
    (if spawned c then [] else [launch_failure p c]).

(** A line that the invoker writes: the service daemon, the pipe or
    the child could not be created. *)
Definition invoker_line (line : string) : Prop :=
  exists e,
    line = "Creating VBoxSVC.exe failed! (" ++ dec e ++ ")." \/
    line = "CreatePipe failed! (" ++ dec e ++ ")." \/
    line = "CreateProcess failed! (" ++ dec e ++ ")." \/
    line = "vbm_popen popen failed! errno = " ++ dec e.

(** The child makes the invoker return the session lock error. *)
Definition lock_child (p : platform) (c : child) : Prop :=
  is_session_lock (fst (raw_result p c)) = true.

(** The text that [vbm_popen] hands back for the output [s] of the
    last child. *)
Definition normalized (p : platform) (s : string) : string :=
  match p with Win32 => remove_cr s | Posix => s end.

(** ** Judgments on member functions *)

(** [m] keeps the property [P] of the object. *)
Definition preserves {A : Type} (P : VBOX_VM -> Prop) (m : M A) : Prop :=
  forall vm w, P vm -> P (object_of (m vm w)).


(** [m] adds to the trace and removes nothing from it. *)
Definition extends {A : Type} (m : M A) : Prop :=
  forall vm w, exists l, trace (world_of (m vm w)) = (trace w ++ l)%list.


(** [m], run on an object with [P], returns a value and leaves an
    object that are related by [Q]. *)
Definition returns {A : Type} (P : VBOX_VM -> Prop) (m : M A)
    (Q : A -> VBOX_VM -> Prop) : Prop :=
  forall vm w, P vm -> Q (value_of (m vm w)) (object_of (m vm w)).

(** [m] leaves the answer of [FloppyIO::ready] as it was. *)
Definition steady {A : Type} (m : M A) : Prop :=
  forall vm w, floppy_ready (world_of (m vm w)) = floppy_ready w.

(** [m], run on an object and in a world with [P], returns a value and
    leaves an object and a world that are related by [Q]. *)
Definition triple {A : Type} (P : VBOX_VM -> World -> Prop) (m : M A)
    (Q : A -> VBOX_VM -> World -> Prop) : Prop :=
  forall vm w, P vm w ->
    Q (value_of (m vm w)) (object_of (m vm w)) (world_of (m vm w)).

(** [P] survives the three assignments of a branch of [poll] that
    leaves [suspended] set only together with [online]. *)
Definition power_safe (P : VBOX_VM -> Prop) : Prop :=
  forall vm o s c, (s = true -> o = true) -> P vm ->
    P (set_crashed c (set_suspended s (set_online o vm))).

(** [P] does not depend on the three flags that [poll] writes. *)
Definition power_blind (P : VBOX_VM -> Prop) : Prop :=
  forall vm b, P vm ->
    P (set_online b vm) /\ P (set_suspended b vm) /\ P (set_crashed b vm).

(** [P] does not depend on the other members that the supervisor
    writes. *)
Definition config_blind (P : VBOX_VM -> Prop) : Prop :=
  (forall vm v, P vm -> P (set_vm_name v vm)) /\
  (forall vm v, P vm -> P (set_network_suspended v vm)) /\
  (forall vm v, P vm -> P (set_pf_host_port v vm)) /\
  (forall vm v, P vm -> P (set_rd_host_port v vm)) /\
  (forall vm v, P vm -> P (set_pFloppy v vm)).

(** [P] depends on no member that the supervisor writes. *)
Definition write_blind (P : VBOX_VM -> Prop) : Prop :=
  power_blind P /\ config_blind P.

(** ** The poller, the invariant and the operations *)

(** The state token that a call of [poll] reads, if the command
    succeeds and its output has one. *)
Definition poll_observes (host : Host) (vm : VBOX_VM) (w : World)
    : option string :=
  let r := vbm_popen (host_platform host) (poll_command vm) "VM state"
             false false default_timeout w in
  if value_of r =? 0 then vmstate_token (output_of r) else None.

(** The tokens of [VMState] for which [poll] marks the VM as online,
    and those for which it marks it as crashed. *)
Definition online_tokens : list string :=
  ["running"; "paused"; "starting"; "stopping"; "saving"; "restoring";
   "livesnapshotting"; "deletingsnapshotlive"; "deletingsnapshotlivepaused"].

Definition crashed_tokens : list string := ["aborted"; "gurumeditation"].

(** [token] is one of [tokens]. *)
Definition one_of (tokens : list string) (token : string) : bool :=
  existsb (String.eqb token) tokens.



(** The flags [online], [suspended] and [crashed]. *)
Definition power_flags (vm : VBOX_VM) : bool * bool * bool :=
  (online vm, suspended vm, crashed vm).

Definition power_invariant (vm : VBOX_VM) : Prop :=
  suspended vm = true -> online vm = true.

(** The operations of the supervisor that write the object. *)
Inductive operation : Type :=
| Poll (log_state : bool)
| Start
| Stop
| Poweroff
| Pause
| Resume
| CreateSnapshot (elapsed_time : Z)
| CleanupSnapshots (delete_active : bool)
| RestoreSnapshot
| SetNetworkAccess (enabled : bool)
| RegisterVm
| DeregisterVm (delete_media : bool)
| DeregisterStaleVm
| Run (elapsed_time : Z)
| Cleanup.

(** The state after the operation; its return value is dropped. *)
Definition perform (host : Host) (op : operation) (vm : VBOX_VM) (w : World)
    : VBOX_VM * World :=
  let drop {A : Type} (r : A * VBOX_VM * World) := (object_of r, world_of r) in
  match op with
  | Poll log_state => drop (poll host log_state vm w)
  | Start => drop (start host vm w)
  | Stop => drop (stop host vm w)
  | Poweroff => drop (poweroff host vm w)
  | Pause => drop (pause host vm w)
  | Resume => drop (resume host vm w)
  | CreateSnapshot elapsed_time => drop (createsnapshot host elapsed_time vm w)
  | CleanupSnapshots delete_active =>
      drop (cleanupsnapshots host delete_active vm w)
  | RestoreSnapshot => drop (restoresnapshot host vm w)
  | SetNetworkAccess enabled => drop (set_network_access host enabled vm w)
  | RegisterVm => drop (register_vm host vm w)
  | DeregisterVm delete_media => drop (deregister_vm host delete_media vm w)
  | DeregisterStaleVm => drop (deregister_stale_vm host vm w)
  | Run elapsed_time => drop (run host elapsed_time vm w)
  | Cleanup => drop (cleanup host vm w)
  end.

(** The two operations that set [suspended] without a poll are used
    on a VM that is online. *)
Definition pauses_online (op : operation) (vm : VBOX_VM) : Prop :=
  match op with
  | Pause | CreateSnapshot _ => online vm = true
  | _ => True
  end.

(** The states that a sequence of operations reaches from [(vm0, w0)]
    when it pauses only a VM that is online. *)
Inductive reaches (host : Host) (vm0 : VBOX_VM) (w0 : World)
    : VBOX_VM -> World -> Prop :=
| reaches_start : reaches host vm0 w0 vm0 w0
| reaches_step op vm w :
    reaches host vm0 w0 vm w ->
    pauses_online op vm ->
    reaches host vm0 w0 (fst (perform host op vm w)) (snd (perform host op vm w)).

(** [P] survives the three assignments of every branch of [poll]:
    none of them leaves [suspended] or [crashed] set together with
    the wrong value of [online]. *)
Definition poll_safe (P : VBOX_VM -> Prop) : Prop :=
  forall vm o s c, (s = true -> o = true) -> (c = true -> o = false) -> P vm ->
    P (set_crashed c (set_suspended s (set_online o vm))).

(** A VM that is marked as crashed is not marked as online. *)
Definition crash_invariant (vm : VBOX_VM) : Prop :=
  crashed vm = true -> online vm = false.

(** The state after a sequence of operations. *)
Fixpoint perform_all (host : Host) (ops : list operation) (vm : VBOX_VM)
    (w : World) : VBOX_VM * World :=
  match ops with
  | [] => (vm, w)
  | op :: ops =>
      perform_all host ops (fst (perform host op vm w))
        (snd (perform host op vm w))
  end.

(** The first statement of [run]: the VM is registered if it is not
    yet.  The result is 0 or the error of [deregister_stale_vm] or of
    [register_vm]. *)
Definition run_registration (host : Host) : M Z :=
  registered <- is_registered host ;;
  if negb registered then
    hdd_registered <- is_hdd_registered host ;;
    check (if hdd_registered then deregister_stale_vm host else ret 0) ;;
    register_vm host
  else ret 0.

(** ** Command lines *)

(** The command that deletes the snapshot [uuid] of the VM [name]. *)
Definition delete_snapshot_line (name uuid : string) : string :=
  command_line ("snapshot " ++ quoted name ++ " " ++
                "delete " ++ quoted uuid ++ " ").

(** The [storagectl] command that adds or removes the controller
    [controller] of the VM [name]. *)
Definition storagectl_line (name controller rest : string) : string :=
  command_line ("storagectl " ++ quoted name ++ " " ++
                "--name " ++ quoted controller ++ " " ++ rest).

(** ** Statistics *)

(** The text of a list of counters: each is written [c="value"] and
    followed by some text that leads to the next one. *)
Definition counters_text (items : list (string * string)) : string :=
  fold_right
    (fun item text => "c=" ++ dq ++ fst item ++ dq ++ snd item ++ text)
    EmptyString items.

(** The values of the counters, added to [total] in the order of the
    text. *)
Definition counters_sum {double : Type} (dadd : double -> double -> double)
    (atof : string -> double) (items : list (string * string))
    (total : double) : double :=
  fold_left (fun total item => dadd total (atof (fst item))) items total.

(** The value of a counter holds no double quote, and neither the
    value nor the text that follows it looks like the start of a
    counter. *)
Definition counter_item (item : string * string) : Prop :=
  contains (fst item) dq = false /\
  contains (fst item ++ dq ++ snd item) ("c=" ++ dq) = false.

(** ** Hosts, machines and worlds of the examples *)

(** A host for the examples. *)
Definition posix_host : Host :=
  {| host_platform := Posix;
     host_aid := {| major_version := 7; minor_version := 0; release := 28;
                    p_features := "fpu vme de pse tsc msr pae";
                    vm_extensions_disabled := false |};
     host_cwd := "/slot" |}.


(** A VM description for the examples. *)
Definition example_vm (only_register : bool) : VBOX_VM :=
  {| vm_master_name := "boinc_vm"; vm_master_description := "test";
     vm_name := EmptyString; vm_cpu_count := "1";
     vm_disk_controller_type := "ide"; vm_disk_controller_model := "PIIX4";
     os_name := "Linux26"; memory_size_mb := "256";
     image_filename := "vm_image.vdi"; floppy_image_filename := EmptyString;
     suspended := false; network_suspended := false; online := false;
     crashed := false; enable_shared_directory := false;
     enable_floppyio := false; enable_remotedesktop := false;
     register_only := only_register; enable_network := false;
     pf_guest_port := 0; pf_host_port := 0; rd_host_port := 0;
     headless := true; vm_pid := 0; pFloppy := false |}.

(** A 64-bit VM that uses the floppy channel. *)
Definition floppy_vm : VBOX_VM :=
  {| vm_master_name := "boinc_vm"; vm_master_description := "test";
     vm_name := EmptyString; vm_cpu_count := "1";
     vm_disk_controller_type := "ide"; vm_disk_controller_model := "PIIX4";
     os_name := "Linux26_64"; memory_size_mb := "256";
     image_filename := "vm_image.vdi";
     floppy_image_filename := "vm_floppy.img";
     suspended := false; network_suspended := false; online := false;
     crashed := false; enable_shared_directory := false;
     enable_floppyio := true; enable_remotedesktop := false;
     register_only := false; enable_network := false;
     pf_guest_port := 0; pf_host_port := 0; rd_host_port := 0;
     headless := true; vm_pid := 0; pFloppy := false |}.


(** A world in which the VM is registered already and no further
    command can be launched. *)
Definition registered_world : World :=
  new_World [exited 0 (vminfo "poweroff") 100].


(** A log of [n] lines of sixteen characters each, line feed
    included. *)
Fixpoint log_lines (n : nat) : string :=
  match n with
  | O => EmptyString
  | S n => "00:00:06.015 ok" ++ nl ++ log_lines n
  end.

(** A listing of two snapshots, neither of them the active one. *)
Definition two_snapshots : string :=
  "   Name: boinc_60 (UUID: 1751e9a6-49e7-4dcc-ab23-08428b665ddf)" ++ nl ++
  "      Name: boinc_120 (UUID: 92fa8b35-873a-4197-9d54-7b6b746b2c58)" ++ nl.

(** ** Texts *)

(** A proper, non-empty end of [tail] is a start of [pat]. *)
Fixpoint overlaps (tail pat : string) : bool :=
  match tail with
  | EmptyString => false
  | String _ tail' =>
      (negb (tail' =? EmptyString)%string && String.prefix tail' pat) ||
      overlaps tail' pat
  end.

(** The pattern can overlap a shifted copy of itself.  None of the
    markers that the supervisor looks for can. *)
Definition bordered (pat : string) : bool := overlaps pat pat.


(** Every character of [s] is a hexadecimal digit. *)
Fixpoint all_hex (s : string) : bool :=
  match s with
  | EmptyString => true
  | String c s' =>
      match hex_digit c with Some _ => all_hex s' | None => false end
  end.

(** * Properties *)

Unset Implicit Arguments.

(** ** Texts *)

Lemma append_assoc (a b c : string) : (a ++ b) ++ c = a ++ b ++ c.
Proof. induction a as [|x a IH]; cbn; [reflexivity|]. now rewrite IH. Qed.

Lemma append_nil_r (a : string) : a ++ EmptyString = a.
Proof. induction a as [|x a IH]; cbn; [reflexivity|]. now rewrite IH. Qed.


(** ** The world only grows *)

Lemma trace_say msg w : trace (say msg w) = trace w.
Proof. reflexivity. Qed.

Lemma trace_advance ms w : trace (advance ms w) = trace w.
Proof. reflexivity. Qed.

Lemma trace_emit e w : trace (emit e w) = (trace w ++ [e])%list.
Proof. reflexivity. Qed.

Lemma trace_boinc_sleep ms w :
  trace (boinc_sleep ms w) = (trace w ++ [Sleep ms])%list.
Proof. reflexivity. Qed.

Lemma spawn_cons command w {c rest} :
  script w = c :: rest ->
  exists w', spawn command w = (c, w') /\
    script w' = rest /\
    trace w' = (trace w ++ [Exec command])%list /\
    clock w' = clock w + Z.of_N (elapsed c) /\
    stderr w' = stderr w.
Proof.
  intros H. unfold spawn. cbn [script emit]. rewrite H.
  eexists. split; [reflexivity|]. cbn. auto.
Qed.

Lemma spawn_trace command w :
  trace (snd (spawn command w)) = (trace w ++ [Exec command])%list.
Proof.
  unfold spawn. cbn [script emit]. destruct (script w); reflexivity.
Qed.

Lemma spawn_stderr command w : stderr (snd (spawn command w)) = stderr w.
Proof.
  unfold spawn. cbn [script emit]. destruct (script w); reflexivity.
Qed.

Lemma spawn_clock command w : clock w <= clock (snd (spawn command w)).
Proof.
  unfold spawn. cbn [script emit]. destruct (script w); cbn; lia.
Qed.

(** [launch_vboxsvc] writes its line, if any, and changes nothing
    else. *)
Lemma launch_vboxsvc_spec p w :
  launch_vboxsvc p w = w \/ exists msg, launch_vboxsvc p w = say msg w.
Proof.
  unfold launch_vboxsvc.
  destruct p; [|left; reflexivity].
  destruct (script w) as [|c rest]; [left; reflexivity|].
  destruct (vboxsvc_error c); [right; eexists; reflexivity | left; reflexivity].
Qed.

Lemma spawn_say command msg w :
  spawn command (say msg w) =
  (fst (spawn command w), say msg (snd (spawn command w))).
Proof.
  unfold spawn. cbn [script emit say trace stderr clock sockets floppy_ready].
  destruct (script w); reflexivity.
Qed.

(** The child that the invoker launches is the next one of the
    script, whatever [launch_vboxsvc] wrote. *)
Lemma spawn_launch_vboxsvc p command w :
  fst (spawn command (launch_vboxsvc p w)) = fst (spawn command w).
Proof.
  destruct (launch_vboxsvc_spec p w) as [-> | (msg & ->)]; [reflexivity|].
  rewrite spawn_say. reflexivity.
Qed.

(** The value and the output of [vbm_popen_raw] are those of the next
    child of the script. *)
Lemma vbm_popen_raw_eq p arguments timeout w :
  vbm_popen_raw p arguments timeout w =
  (raw_result p (fst (spawn (command_line arguments) w)),
   snd (vbm_popen_raw p arguments timeout w)).
Proof.
  unfold vbm_popen_raw.
  rewrite <- (spawn_launch_vboxsvc p (command_line arguments) w).
  destruct (spawn _ (launch_vboxsvc p w)); reflexivity.
Qed.

(** The world that [vbm_popen_raw] leaves: one launch more in the
    trace, the lines of the invoker in the log, and for the rest the
    world that the launch leaves. *)
Lemma vbm_popen_raw_world p arguments timeout w :
  let w1 := snd (spawn (command_line arguments) w) in
  let w' := snd (vbm_popen_raw p arguments timeout w) in
  trace w' = (trace w ++ [Exec (command_line arguments)])%list /\
  stderr w' =
    (stderr w ++
     raw_messages p (fst (spawn (command_line arguments) w)))%list /\
  clock w' = clock w1 /\ script w' = script w1 /\
  sockets w' = sockets w /\ floppy_ready w' = floppy_ready w.
Proof.
  unfold vbm_popen_raw, launch_vboxsvc, raw_messages, spawn.
  generalize (command_line arguments) as command. intros command.
  destruct p; destruct (script w) as [|c rest] eqn:E;
    try destruct (vboxsvc_error c) eqn:V;
    cbn [script emit say]; rewrite ?E; cbn [fst snd]; rewrite ?V;
    try destruct (spawned c);
    cbn [script emit say advance trace stderr clock sockets floppy_ready
         spawned no_child vboxsvc_error app];
    rewrite ?app_nil_r, <- ?app_assoc; repeat split; reflexivity.
Qed.

Lemma vbm_popen_raw_trace p arguments timeout w :
  trace (snd (vbm_popen_raw p arguments timeout w)) =
  (trace w ++ [Exec (command_line arguments)])%list.
Proof. apply vbm_popen_raw_world. Qed.

Lemma vbm_popen_raw_floppy_ready p arguments timeout w :
  floppy_ready (snd (vbm_popen_raw p arguments timeout w)) = floppy_ready w.
Proof. apply vbm_popen_raw_world. Qed.

(** One turn of the loop of [vbm_popen]. *)
Lemma vbm_popen_loop_unfold fuel p arguments retry_failures timeout
    retry_count sleep_interval retry_notes w :
  vbm_popen_loop fuel p arguments retry_failures timeout
    retry_count sleep_interval retry_notes w =
  let '(retval, output, w) := vbm_popen_raw p arguments timeout w in
  if retval =? 0 then (retval, output, retry_notes, w)
  else
    let is_lock := is_session_lock retval in
    let retry_notes :=
      if is_lock && negb (contains retry_notes "Another VirtualBox management")
      then retry_notes ++ lock_note else retry_notes in
    let sleep_interval :=
      if is_lock && negb (retry_count =? 0)
      then sleep_interval * 2 else sleep_interval in
    if negb retry_failures then (retval, output, retry_notes, w)
    else if retry_count >=? 5 then (retval, output, retry_notes, w)
    else
      match fuel with
      | O => (retval, output, retry_notes, w)
      | S fuel =>
          vbm_popen_loop fuel p arguments retry_failures timeout
            (retry_count + 1) sleep_interval retry_notes
            (boinc_sleep sleep_interval w)
      end.
Proof. destruct fuel; reflexivity. Qed.

Lemma gained_refl w : gained w w [] [].
Proof. unfold gained. rewrite !app_nil_r. repeat split; lia. Qed.

Lemma gained_trans {w1 w2 w3 l1 l2 m1 m2} :
  gained w1 w2 l1 m1 -> gained w2 w3 l2 m2 ->
  gained w1 w3 (l1 ++ l2)%list (m1 ++ m2)%list.
Proof.
  unfold gained. intros (T1 & S1 & C1) (T2 & S2 & C2).
  rewrite T2, T1, S2, S1, !app_assoc. repeat split; lia.
Qed.

Lemma gained_raw p arguments timeout w :
  gained w (snd (vbm_popen_raw p arguments timeout w))
    [Exec (command_line arguments)]
    (raw_messages p (fst (spawn (command_line arguments) w))).
Proof.
  destruct (vbm_popen_raw_world p arguments timeout w)
    as (T & S & C & _).
  unfold gained. rewrite T, S, C. repeat split. apply spawn_clock.
Qed.

Lemma gained_sleep ms w :
  0 <= ms -> gained w (boinc_sleep ms w) [Sleep ms] [].
Proof.
  intros H. unfold gained. cbn. rewrite app_nil_r. repeat split; lia.
Qed.

Lemma gained_say msg w : gained w (say msg w) [] [msg].
Proof.
  unfold gained. cbn. rewrite app_nil_r. repeat split; lia.
Qed.

Lemma raw_messages_invoker p c : Forall invoker_line (raw_messages p c).
Proof.
  unfold raw_messages, launch_failure. apply Forall_app. split.
  - destruct p; [|constructor].
    destruct (vboxsvc_error c) as [e|]; constructor; [|constructor].
    exists e. auto.
  - destruct (spawned c); constructor; [|constructor].
    exists (launch_error c).
    destruct p; [destruct (pipe_created c)|]; auto.
Qed.

(** The loop of [vbm_popen] launches the command at least once, and
    exactly once when failures are not retried; the lines that it
    adds to the log are those of the invoker. *)
Lemma vbm_popen_loop_gained fuel : forall p arguments retry_failures timeout
    retry_count sleep_interval retry_notes w,
  0 <= sleep_interval ->
  exists l m,
    gained w
      (snd (vbm_popen_loop fuel p arguments retry_failures timeout
              retry_count sleep_interval retry_notes w))
      (Exec (command_line arguments) :: l) m /\
    (retry_failures = false -> l = []) /\
    Forall invoker_line m.
Proof.
  induction fuel as [|fuel IH]; intros p arguments rf timeout k s notes w Hs;
    rewrite vbm_popen_loop_unfold, vbm_popen_raw_eq;
    pose proof (gained_raw p arguments timeout w) as G;
    pose proof (raw_messages_invoker p
                  (fst (spawn (command_line arguments) w))) as F;
    destruct (raw_result p _) as [retval output];
    set (w1 := snd (vbm_popen_raw _ _ _ w)) in *;
    cbv zeta;
    destruct (retval =? 0);
    try (exists []; eexists; split; [exact G|split; [reflexivity|exact F]]);
    destruct rf; cbn [negb];
    try (exists []; eexists; split; [exact G|split; [reflexivity|exact F]]);
    destruct (k >=? 5);
    try (exists []; eexists; split; [exact G|split; [reflexivity|exact F]]).
  match goal with
  | |- context [vbm_popen_loop fuel p arguments true timeout ?k' ?s' ?n' ?w'] =>
      destruct (IH p arguments true timeout k' s' n' w')
        as (l & m2 & G2 & _ & F2);
      [ destruct (is_session_lock retval && negb (k =? 0)); lia | ];
      assert (G1 : gained w1 w' [Sleep s'] [])
        by (apply gained_sleep;
            destruct (is_session_lock retval && negb (k =? 0)); lia);
      pose proof (gained_trans (gained_trans G G1) G2) as G3
  end.
  rewrite app_nil_r in G3.
  do 2 eexists. split; [exact G3 | split; [discriminate|]].
  apply Forall_app. split; assumption.
Qed.

(** [vbm_popen] launches the command at least once, and exactly once
    when failures are not retried.  Besides the lines of the invoker
    it writes one message to the log, at the end, when it fails with
    [log_error] set. *)
Lemma vbm_popen_gained p arguments item log_error retry_failures timeout w :
  let r := vbm_popen p arguments item log_error retry_failures timeout w in
  exists l m,
    gained w (snd r) (Exec (command_line arguments) :: l)
      (m ++ if negb (fst (fst r) =? 0) && log_error
            then [error_message item (fst (fst r)) arguments (snd (fst r))]
            else [])%list /\
    (retry_failures = false -> l = []) /\
    Forall invoker_line m.
Proof.
  unfold vbm_popen.
  destruct (vbm_popen_loop_gained 5 p arguments retry_failures timeout
              0 1000 EmptyString w) as (l & m & G & Hl & F); [lia|].
  destruct (vbm_popen_loop 5 p arguments retry_failures timeout 0 1000
              EmptyString w) as [[[retval output] notes] w1].
  cbn [snd] in G. cbv zeta.
  exists l, m.
  destruct (negb (retval =? 0) && log_error) eqn:E; cbn [fst snd]; rewrite E.
  - split; [|split; [exact Hl|exact F]].
    match goal with
    | |- gained _ (say ?msg _) _ _ =>
        pose proof (gained_trans G (gained_say msg w1)) as G'
    end.
    rewrite app_nil_r in G'. exact G'.
  - rewrite app_nil_r. split; [exact G|split; [exact Hl|exact F]].
Qed.

(** ** The command line invoker *)

(** On POSIX the invoker returns 0 for every child that [popen] could
    launch, whatever the child printed and however it ended. *)
Lemma raw_result_posix c :
  spawned c = true -> raw_result Posix c = (0, child_output c).
Proof. intros H. unfold raw_result. rewrite H. reflexivity. Qed.

(** C1, at the input where it fails.  The invoker is compiled for
    POSIX and the child prints a message that carries the hypervisor
    error (0x80bb0007) before it exits with status 1: the invoker
    returns 0 and not the code of the message.  The value that
    [sscanf] reads from the output is overwritten by the assignment
    [retval = 0] that follows it.  The Windows branch returns the code
    for the same child. *)
Theorem vbm_popen_raw_posix_loses_error_code :
  let c := exited 1 locked_output 100 in
  contains (child_output c) "(0x80bb0007)" = true /\
  parse_errcode (child_output c) 0 = int_of_uint 0x80bb0007 /\
  fst (vbm_popen_raw Posix "snapshot vm take boinc_1" 0 (new_World [c]))
  = (0, locked_output) /\
  fst (vbm_popen_raw Win32 "snapshot vm take boinc_1" 0 (new_World [c]))
  = (int_of_uint 0x80bb0007, locked_output).
Proof. vm_compute. repeat split. Qed.

(** ** The retry controller *)

Lemma is_session_lock_nonzero {retval} :
  is_session_lock retval = true -> (retval =? 0) = false.
Proof.
  intros H. apply Z.eqb_neq. intros ->. discriminate H.
Qed.

Lemma vbm_popen_raw_cons p arguments timeout w {c rest} :
  script w = c :: rest ->
  exists w', vbm_popen_raw p arguments timeout w = (raw_result p c, w') /\
    script w' = rest /\
    trace w' = (trace w ++ [Exec (command_line arguments)])%list /\
    stderr w' = (stderr w ++ raw_messages p c)%list.
Proof.
  intros H. rewrite vbm_popen_raw_eq.
  destruct (vbm_popen_raw_world p arguments timeout w)
    as (T & S & _ & R & _).
  destruct (spawn_cons (command_line arguments) w H)
    as (w' & E & S' & _).
  rewrite E in *. cbn [fst snd] in *.
  eexists. split; [reflexivity|].
  split; [rewrite R; exact S'|]. split; [exact T|exact S].
Qed.


(** Where the loop stops is decided by [retry_count], not by the
    fuel: more fuel than [5 - retry_count] changes nothing. *)
Lemma vbm_popen_loop_fuel p arguments retry_failures timeout :
  forall fuel retry_count sleep_interval retry_notes w,
  5 - retry_count <= Z.of_nat fuel ->
  vbm_popen_loop (S fuel) p arguments retry_failures timeout
    retry_count sleep_interval retry_notes w =
  vbm_popen_loop fuel p arguments retry_failures timeout
    retry_count sleep_interval retry_notes w.
Proof.
  induction fuel as [|fuel IH]; intros k s notes w Hk;
    rewrite (vbm_popen_loop_unfold (S _)), (vbm_popen_loop_unfold _);
    destruct (vbm_popen_raw p arguments timeout w) as [[retval output] w1];
    cbv zeta;
    destruct (retval =? 0); try reflexivity;
    destruct (negb retry_failures); try reflexivity;
    destruct (k >=? 5) eqn:E; try reflexivity.
  - rewrite Z.geb_leb in E. apply Z.leb_gt in E. lia.
  - apply IH. lia.
Qed.

Lemma launches_app l1 l2 :
  launches (l1 ++ l2) = (launches l1 + launches l2)%nat.
Proof.
  induction l1 as [|[] l1 IH]; cbn; auto.
Qed.

Lemma sleeps_app l1 l2 : sleeps (l1 ++ l2) = (sleeps l1 ++ sleeps l2)%list.
Proof.
  induction l1 as [|[] l1 IH]; cbn; auto. now rewrite IH.
Qed.


Lemma prefix_app pat : forall a c,
  String.prefix pat a = true -> String.prefix pat (a ++ c) = true.
Proof.
  induction pat as [|x pat IH]; intros [|y a] c; cbn; auto; try discriminate.
  - intros _. destruct c; reflexivity.
  - destruct (ascii_dec x y); auto.
Qed.

Lemma contains_app_l pat a c :
  contains a pat = true -> contains (a ++ c) pat = true.
Proof.
  unfold contains. induction a as [|y a IH].
  - cbn. destruct pat; [intros _; destruct c; reflexivity | discriminate].
  - change (String y a ++ c) with (String y (a ++ c)).
    cbn [String.index]. intros H.
    destruct (String.prefix pat (String y (a ++ c))) eqn:Q; [reflexivity|].
    destruct (String.prefix pat (String y a)) eqn:P.
    + pose proof (prefix_app pat (String y a) c P) as P'.
      cbn [append] in P'. congruence.
    + destruct (String.index 0 pat a); [|discriminate].
      specialize (IH eq_refl).
      destruct (String.index 0 pat (a ++ c)); [reflexivity|discriminate].
Qed.

Lemma contains_app_r pat a b :
  contains b pat = true -> contains (a ++ b) pat = true.
Proof.
  unfold contains. intros H. induction a as [|y a IH]; [exact H|].
  change (String y a ++ b) with (String y (a ++ b)).
  cbn [String.index].
  destruct (String.prefix pat (String y (a ++ b))); [reflexivity|].
  destruct (String.index 0 pat (a ++ b)); [reflexivity|discriminate].
Qed.

Lemma lock_note_added {retval retry_notes} :
  is_session_lock retval = true ->
  retry_notes = EmptyString \/ retry_notes = lock_note ->
  (if is_session_lock retval &&
      negb (contains retry_notes "Another VirtualBox management")
   then retry_notes ++ lock_note else retry_notes) = lock_note.
Proof.
  intros -> [-> | ->]; reflexivity.
Qed.

(** Session lock errors on every attempt: after the sixth the loop
    gives up, with the note in [retry_notes]. *)
Lemma vbm_popen_loop_exhausted p arguments timeout rest :
  forall locks fuel retry_count sleep_interval retry_notes w,
  script w = (locks ++ rest)%list ->
  Forall (lock_child p) locks ->
  0 <= retry_count <= 5 ->
  retry_count + Z.of_nat (List.length locks) = 6 ->
  (List.length locks <= S fuel)%nat ->
  retry_notes = EmptyString \/ retry_notes = lock_note ->
  exists retval output w',
    vbm_popen_loop fuel p arguments true timeout
      retry_count sleep_interval retry_notes w
    = (retval, output, lock_note, w') /\
    is_session_lock retval = true /\
    trace w' =
      (trace w ++
       backoff_trace (command_line arguments)
         (if retry_count =? 0 then sleep_interval else sleep_interval * 2)
         (List.length locks - 1) ++
       [Exec (command_line arguments)])%list /\
    stderr w' = (stderr w ++ flat_map (raw_messages p) locks)%list.
Proof.
  induction locks as [|c locks IH];
    intros fuel k s notes w Hscript Hlocks Hk Hbound Hfuel Hnotes;
    cbn [List.length] in *; [lia|].
  rewrite vbm_popen_loop_unfold.
  destruct (vbm_popen_raw_cons p arguments timeout w Hscript)
    as (w1 & -> & S1 & T1 & E1).
  inversion Hlocks as [|? ? Hc Hrest]; subst.
  unfold lock_child in Hc.
  destruct (raw_result p c) as [retval output]. cbn [fst] in Hc.
  cbv zeta. rewrite (is_session_lock_nonzero Hc).
  rewrite (lock_note_added Hc Hnotes). rewrite Hc. cbn [negb andb].
  destruct (k >=? 5) eqn:E; rewrite Z.geb_leb in E.
  - apply Z.leb_le in E. assert (locks = []) by (destruct locks; cbn in *; [auto|lia]).
    subst locks. exists retval, output, w1.
    cbn [List.length Nat.sub backoff_trace app flat_map].
    rewrite app_nil_r. auto.
  - apply Z.leb_gt in E. destruct fuel as [|fuel]; [lia|].
    match goal with
    | |- context [vbm_popen_loop fuel p arguments true timeout ?k' ?s' ?n' ?w2] =>
        destruct (IH fuel k' s' n' w2)
          as (retval' & output' & w3 & -> & L' & T' & E');
        [ exact S1 | exact Hrest | lia | lia | lia | auto | ]
    end.
    exists retval', output', w3. split; [reflexivity|]. split; [exact L'|].
    split;
      [|rewrite E'; cbn [boinc_sleep stderr advance emit]; rewrite E1;
        cbn [flat_map]; rewrite <- app_assoc; reflexivity].
    rewrite T'. cbn [boinc_sleep trace advance emit]. rewrite T1.
    replace (k + 1 =? 0) with false by (symmetry; apply Z.eqb_neq; lia).
    destruct locks as [|c2 locks]; [cbn [List.length] in *; lia|].
    cbn [List.length Nat.sub backoff_trace]. rewrite Nat.sub_0_r.
    rewrite <- !app_assoc. cbn [app].
    destruct (k =? 0); cbn [negb]; reflexivity.
Qed.

(** After six session lock errors in a row [vbm_popen] fails, and it
    is then that the note reaches the output, and the log when
    [log_error] is set. *)
Lemma vbm_popen_gives_up_with_note p arguments item timeout w locks rest :
  script w = (locks ++ rest)%list ->
  Forall (lock_child p) locks ->
  List.length locks = 6%nat ->
  exists retval output w',
    vbm_popen p arguments item true true timeout w = (retval, output, w') /\
    is_session_lock retval = true /\
    trace w' =
      (trace w ++ backoff_trace (command_line arguments) 1000 5 ++
       [Exec (command_line arguments)])%list /\
    contains output "Another VirtualBox management application" = true /\
    stderr w' =
      (stderr w ++ flat_map (raw_messages p) locks ++
       [error_message item retval arguments output])%list /\
    logs_lock_note w'.
Proof.
  intros Hscript Hlocks Hlen. unfold vbm_popen.
  destruct (@vbm_popen_loop_exhausted p arguments timeout rest locks
              5%nat 0 1000 EmptyString w Hscript Hlocks)
    as (retval & output & w1 & -> & L & T & E); try lia; auto.
  rewrite (is_session_lock_nonzero L). cbn [negb andb].
  replace (negb (lock_note =? EmptyString)%string) with true by reflexivity.
  rewrite Hlen in T. cbn [Nat.sub Z.eqb] in T.
  assert (C : contains (normalized p output ++ nl ++ "Notes:" ++ nl ++ nl ++
                        lock_note)
                "Another VirtualBox management application" = true).
  { apply contains_app_r. reflexivity. }
  do 3 eexists. split; [reflexivity|]. split; [exact L|]. split; [exact T|].
  split; [exact C|]. cbn [stderr say]. rewrite E.
  split; [symmetry; apply app_assoc|].
  eexists. split; [apply in_or_app; right; left; reflexivity|].
  unfold error_message. do 11 apply contains_app_r. exact C.
Qed.











(** ** What the member functions leave alone *)

Lemma preserves_ret {A : Type} P (a : A) : preserves P (ret a).
Proof. intros vm w H. exact H. Qed.

Lemma preserves_bind {A B : Type} P (m : M A) (k : A -> M B) :
  preserves P m -> (forall a, preserves P (k a)) -> preserves P (bind m k).
Proof.
  intros Hm Hk vm w H. unfold bind. specialize (Hm vm w H).
  destruct (m vm w) as [[a vm1] w1]. apply Hk. exact Hm.
Qed.

Lemma preserves_this P : preserves P this.
Proof. intros vm w H. exact H. Qed.

Lemma preserves_call {A : Type} P (f : World -> A * World) :
  preserves P (call f).
Proof. intros vm w H. unfold call. destruct (f w). exact H. Qed.

Lemma preserves_effect P f : preserves P (effect f).
Proof. intros vm w H. exact H. Qed.

Lemma preserves_ask {A : Type} P (f : World -> A) : preserves P (ask f).
Proof. intros vm w H. exact H. Qed.

Lemma preserves_assign P f :
  (forall vm, P vm -> P (f vm)) -> preserves P (assign f).
Proof. intros Hf vm w H. apply Hf. exact H. Qed.

(** After [vm <- this] the value read has the property too. *)
Lemma preserves_read {B : Type} P (k : VBOX_VM -> M B) :
  (forall vm, P vm -> preserves P (k vm)) -> preserves P (bind this k).
Proof. intros Hk vm w H. exact (Hk vm H vm w H). Qed.

Create HintDb vbox discriminated.

(** Structural steps of a proof of [preserves]: the sequence, the
    conditional, and the primitives.  A member function that is not a
    hint of the database [vbox] is unfolded. *)
Ltac preserves_step :=
  lazymatch goal with
  | |- preserves _ (ret _) => apply preserves_ret
  | |- preserves _ (bind this _) => apply preserves_read; intros ? ?
  | |- preserves _ (bind _ _) => apply preserves_bind; [|intros ?]
  | |- preserves _ this => apply preserves_this
  | |- preserves _ (call _) => apply preserves_call
  | |- preserves _ (effect _) => apply preserves_effect
  | |- preserves _ (ask _) => apply preserves_ask
  | |- preserves _ (assign _) => apply preserves_assign
  | |- preserves _ (if ?b then _ else _) => destruct b
  | |- preserves _ (match ?x with _ => _ end) => destruct x
  | |- preserves _ (let _ := _ in _) => cbv zeta
  | |- preserves _ ?m =>
      first [ solve [eauto 3 with vbox]
            | let h := head m in unfold h ]
  end
with head t :=
  lazymatch t with
  | ?f _ => head f
  | _ => t
  end.

Ltac preserves_auto := repeat preserves_step.

Section Frames.

Variable host : Host.
Variable P : VBOX_VM -> Prop.

Ltac blind H :=
  let vm := fresh "vm" in
  let HP := fresh "HP" in
  intros vm HP;
  first [ apply H; exact HP
        | apply (proj1 H); exact HP
        | apply (proj1 (proj2 H)); exact HP
        | apply (proj1 (proj2 (proj2 H))); exact HP
        | apply (proj1 (proj2 (proj2 (proj2 H)))); exact HP
        | apply (proj2 (proj2 (proj2 (proj2 H)))); exact HP ].

Lemma power_blind_safe : power_blind P -> power_safe P.
Proof.
  intros H vm o s c _ HP. apply H. apply H. apply H. exact HP.
Qed.

Lemma write_blind_power : write_blind P -> power_blind P.
Proof. intros H. exact (proj1 H). Qed.

Lemma write_blind_config : write_blind P -> config_blind P.
Proof. intros H. exact (proj2 H). Qed.

Lemma set_power_state_preserves o s c :
  power_safe P -> (s = true -> o = true) ->
  preserves P (set_power_state o s c).
Proof. intros HP Hso vm w H. apply HP; assumption. Qed.

Lemma classify_preserves log_state vmstate :
  power_safe P -> preserves P (classify log_state vmstate).
Proof.
  intros HP. unfold classify.
  repeat (match goal with
          | |- preserves _ (if (_ =? _)%string then _ else _) =>
              destruct (_ =? _)%string
          end;
          [apply set_power_state_preserves; [exact HP | auto] |]).
  apply preserves_bind;
    [apply set_power_state_preserves; [exact HP | auto] | intros ?].
  destruct log_state; [apply preserves_effect | apply preserves_ret].
Qed.

Hint Resolve classify_preserves power_blind_safe write_blind_power
  write_blind_config : vbox.

Lemma poll_preserves log_state :
  power_safe P -> preserves P (poll host log_state).
Proof. intros HP. preserves_auto. Qed.

Hint Resolve poll_preserves : vbox.

Lemma start_wait_preserves fuel timeout :
  power_safe P -> preserves P (start_wait host fuel timeout).
Proof.
  intros HP. induction fuel as [|fuel IH]; cbn [start_wait];
    preserves_auto; exact IH.
Qed.

Hint Resolve start_wait_preserves : vbox.

Lemma start_preserves : power_safe P -> preserves P (start host).
Proof. intros HP. preserves_auto. Qed.

Lemma stop_preserves : power_safe P -> preserves P (stop host).
Proof. intros HP. preserves_auto. Qed.

Lemma poweroff_preserves : power_safe P -> preserves P (poweroff host).
Proof. intros HP. preserves_auto. Qed.

Lemma pause_preserves : power_blind P -> preserves P (pause host).
Proof. intros HP. preserves_auto; blind HP. Qed.

Lemma resume_preserves :
  (forall vm, P vm -> P (set_suspended false vm)) ->
  preserves P (resume host).
Proof. intros HP. preserves_auto; blind HP. Qed.

Lemma restoresnapshot_preserves : preserves P (restoresnapshot host).
Proof. preserves_auto. Qed.

Lemma cleanupsnapshots_loop_preserves fuel :
  forall delete_active output eol_prev_pos eol_pos,
  preserves P
    (cleanupsnapshots_loop host fuel delete_active output eol_prev_pos eol_pos).
Proof.
  induction fuel as [|fuel IH]; intros; cbn [cleanupsnapshots_loop];
    preserves_auto; apply IH.
Qed.

Hint Resolve start_preserves stop_preserves poweroff_preserves
  pause_preserves restoresnapshot_preserves
  cleanupsnapshots_loop_preserves : vbox.

Lemma cleanupsnapshots_preserves delete_active :
  preserves P (cleanupsnapshots host delete_active).
Proof. preserves_auto. Qed.

Hint Resolve cleanupsnapshots_preserves : vbox.

Lemma createsnapshot_preserves elapsed_time :
  power_blind P -> preserves P (createsnapshot host elapsed_time).
Proof.
  intros HP. pose proof (power_blind_safe HP).
  assert (forall vm, P vm -> P (set_suspended false vm)) by (blind HP).
  pose proof resume_preserves. preserves_auto.
Qed.

Lemma set_network_access_preserves enabled :
  config_blind P -> preserves P (set_network_access host enabled).
Proof. intros HP. preserves_auto; blind HP. Qed.

Lemma deregister_vm_preserves delete_media :
  preserves P (deregister_vm host delete_media).
Proof. preserves_auto. Qed.

Hint Resolve set_network_access_preserves : vbox.

Lemma register_vm_preserves : config_blind P -> preserves P (register_vm host).
Proof. intros HP. preserves_auto; blind HP. Qed.

Hint Resolve createsnapshot_preserves deregister_vm_preserves
  register_vm_preserves : vbox.

Lemma deregister_stale_vm_preserves :
  config_blind P -> preserves P (deregister_stale_vm host).
Proof. intros HP. preserves_auto; blind HP. Qed.

Lemma is_registered_preserves : preserves P (is_registered host).
Proof. preserves_auto. Qed.

Lemma is_hdd_registered_preserves : preserves P (is_hdd_registered host).
Proof. preserves_auto. Qed.

Hint Resolve deregister_stale_vm_preserves is_registered_preserves
  is_hdd_registered_preserves : vbox.

Lemma run_preserves elapsed_time :
  config_blind P -> power_safe P -> preserves P (run host elapsed_time).
Proof. intros HP HS. preserves_auto; blind HP. Qed.

Lemma cleanup_preserves : power_safe P -> preserves P (cleanup host).
Proof. intros HP. preserves_auto. Qed.

End Frames.

#[export] Hint Resolve classify_preserves power_blind_safe write_blind_power
  write_blind_config poll_preserves start_wait_preserves start_preserves
  stop_preserves poweroff_preserves pause_preserves restoresnapshot_preserves
  cleanupsnapshots_loop_preserves cleanupsnapshots_preserves
  createsnapshot_preserves set_network_access_preserves
  deregister_vm_preserves register_vm_preserves
  deregister_stale_vm_preserves is_registered_preserves
  is_hdd_registered_preserves run_preserves cleanup_preserves : vbox.

(** ** The poller *)

Lemma poll_unfold host log_state vm w :
  poll host log_state vm w =
  let r := vbm_popen (host_platform host) (poll_command vm) "VM state"
             false false default_timeout w in
  match poll_observes host vm w with
  | Some vmstate => classify log_state vmstate vm (world_of r)
  | None => (tt, vm, world_of r)
  end.
Proof.
  unfold poll, poll_observes, popen, bind, this, call, value_of, output_of,
    world_of.
  destruct (vbm_popen _ _ _ _ _ _ w) as [[retval output] w1]. cbn [fst snd].
  destruct (retval =? 0); [|reflexivity].
  destruct (vmstate_token output); reflexivity.
Qed.

(** The flags that the chain of comparisons of [poll] sets. *)
Lemma classify_table log_state token vm w :
  power_flags (object_of (classify log_state token vm w)) =
  (one_of online_tokens token, (token =? "paused")%string,
   one_of crashed_tokens token).
Proof.
  unfold classify, one_of, online_tokens, crashed_tokens.
  cbn [existsb].
  repeat match goal with
         | |- context [if (token =? ?b)%string then _ else _] =>
             let E := fresh "E" in
             destruct (String.eqb_spec token b) as [E|E];
             [subst token; reflexivity|]
         end.
  repeat match goal with
         | N : token <> ?b |- _ =>
             replace (token =? b)%string with false
               by (symmetry; apply String.eqb_neq; exact N);
             clear N
         end.
  destruct log_state; reflexivity.
Qed.


(** C3, as amended.  A poll that reads the token [paused] leaves
    online = true, suspended = true, crashed = false; one that reads
    [deletingsnapshotlivepaused] leaves online = true,
    suspended = false, crashed = false. *)
Theorem poll_paused_tokens host log_state vm w :
  (poll_observes host vm w = Some "paused" ->
   power_flags (object_of (poll host log_state vm w)) = (true, true, false)) /\
  (poll_observes host vm w = Some "deletingsnapshotlivepaused" ->
   power_flags (object_of (poll host log_state vm w)) = (true, false, false)).
Proof.
  split; intros H; rewrite poll_unfold; cbv zeta; rewrite H; reflexivity.
Qed.

Lemma poll_paused_tokens_witness :
  let w1 := new_World [exited 0 (vminfo "paused") 100] in
  let w2 := new_World [exited 0 (vminfo "deletingsnapshotlivepaused") 100] in
  (poll_observes posix_host new_VBOX_VM w1 = Some "paused" /\
   poll_observes posix_host new_VBOX_VM w2 = Some "deletingsnapshotlivepaused") /\
  power_flags (object_of (poll posix_host false new_VBOX_VM w1))
    = (true, true, false) /\
  power_flags (object_of (poll posix_host false new_VBOX_VM w2))
    = (true, false, false).
Proof.
  intros w1 w2.
  assert (H1 : poll_observes posix_host new_VBOX_VM w1 = Some "paused")
    by (vm_compute; reflexivity).
  assert (H2 : poll_observes posix_host new_VBOX_VM w2
               = Some "deletingsnapshotlivepaused")
    by (vm_compute; reflexivity).
  split; [split; [exact H1|exact H2]|]. split.
  - exact (proj1 (poll_paused_tokens posix_host false new_VBOX_VM w1) H1).
  - exact (proj2 (poll_paused_tokens posix_host false new_VBOX_VM w2) H2).
Defined.

(** C3, as stated, fails for the second token: a poll that reads
    [deletingsnapshotlivepaused] leaves [suspended] false. *)
Lemma poll_deletingsnapshotlivepaused_not_suspended :
  let w := new_World [exited 0 (vminfo "deletingsnapshotlivepaused") 100] in
  poll_observes posix_host new_VBOX_VM w = Some "deletingsnapshotlivepaused" /\
  suspended (object_of (poll posix_host false new_VBOX_VM w)) = false /\
  online (object_of (poll posix_host false new_VBOX_VM w)) = true.
Proof. vm_compute. repeat split. Qed.

(** ** Stopping a VM that is not running *)

(** C10.  With [online] false on entry, [stop] and [poweroff] return 0,
    leave the object as it is (so none of the flags online, suspended,
    crashed, network_suspended changes) and launch no command: the
    world gains one line of log and nothing else. *)
Theorem stop_poweroff_when_offline host vm w :
  online vm = false ->
  (value_of (stop host vm w) = 0 /\
   object_of (stop host vm w) = vm /\
   world_of (stop host vm w) = say "Stopping VM." w /\
   trace (world_of (stop host vm w)) = trace w) /\
  (value_of (poweroff host vm w) = 0 /\
   object_of (poweroff host vm w) = vm /\
   world_of (poweroff host vm w) = say "Powering off VM." w /\
   trace (world_of (poweroff host vm w)) = trace w).
Proof.
  intros H.
  unfold stop, poweroff, bind, effect, this, ret, value_of, object_of, world_of.
  rewrite H. cbn [fst snd]. repeat split.
Qed.

Lemma stop_poweroff_when_offline_witness :
  online new_VBOX_VM = false /\
  (value_of (stop posix_host new_VBOX_VM (new_World [])) = 0 /\
   object_of (stop posix_host new_VBOX_VM (new_World [])) = new_VBOX_VM /\
   world_of (stop posix_host new_VBOX_VM (new_World []))
     = say "Stopping VM." (new_World []) /\
   trace (world_of (stop posix_host new_VBOX_VM (new_World [])))
     = trace (new_World [])) /\
  (value_of (poweroff posix_host new_VBOX_VM (new_World [])) = 0 /\
   object_of (poweroff posix_host new_VBOX_VM (new_World [])) = new_VBOX_VM /\
   world_of (poweroff posix_host new_VBOX_VM (new_World []))
     = say "Powering off VM." (new_World []) /\
   trace (world_of (poweroff posix_host new_VBOX_VM (new_World [])))
     = trace (new_World [])).
Proof.
  split; [reflexivity|].
  exact (stop_poweroff_when_offline posix_host new_VBOX_VM (new_World [])
           eq_refl).
Defined.

(** ** The invariant suspended => online *)

Lemma power_invariant_safe : power_safe power_invariant.
Proof. intros vm o s c Hso _. exact Hso. Qed.

Lemma power_invariant_config : config_blind power_invariant.
Proof. repeat split; intros vm v H; exact H. Qed.

Lemma online_blind_suspended :
  forall b vm, online vm = true -> online (set_suspended b vm) = true.
Proof. intros b vm H. exact H. Qed.

Lemma online_config : config_blind (fun vm => online vm = true).
Proof. repeat split; intros vm v H; exact H. Qed.

(** [pause] and [resume] do not change [online]. *)
Lemma pause_keeps_online host :
  preserves (fun vm => online vm = true) (pause host).
Proof. preserves_auto. intros ? ?; assumption. Qed.

Lemma resume_keeps_online host :
  preserves (fun vm => online vm = true) (resume host).
Proof. preserves_auto. intros ? ?; assumption. Qed.

Lemma resume_keeps_invariant host : preserves power_invariant (resume host).
Proof. apply resume_preserves. intros vm _ H. discriminate H. Qed.

Lemma preserves_at {A : Type} {P} {m : M A} {vm w a vm' w'} :
  preserves P m -> m vm w = (a, vm', w') -> P vm -> P vm'.
Proof.
  intros Hm E H. specialize (Hm vm w H). rewrite E in Hm. exact Hm.
Qed.

Lemma createsnapshot_keeps_invariant host elapsed_time vm w :
  online vm = true ->
  power_invariant (object_of (createsnapshot host elapsed_time vm w)).
Proof.
  intros H. unfold createsnapshot, bind, effect, this, ret, object_of.
  destruct (pause host vm _) as [[r1 vm1] w1] eqn:E1.
  assert (O1 : online vm1 = true)
    by exact (preserves_at (pause_keeps_online host) E1 H).
  destruct (popen_rc host _ _ _ _ _ vm1 w1) as [[rc vm2] w2] eqn:E2.
  assert (O2 : online vm2 = true).
  { refine (preserves_at (P := fun vm => online vm = true) _ E2 O1).
    preserves_auto. }
  destruct (rc =? 0); cbn [fst snd]; [|intros _; exact O2].
  destruct (resume host vm2 w2) as [[r3 vm3] w3] eqn:E3.
  assert (O3 : online vm3 = true)
    by exact (preserves_at (resume_keeps_online host) E3 O2).
  destruct (poll host false vm3 w3) as [[r4 vm4] w4] eqn:E4.
  assert (I4 : power_invariant vm4).
  { refine (preserves_at
               (poll_preserves host _ false power_invariant_safe) E4 _).
    intros _. exact O3. }
  destruct (cleanupsnapshots host false vm4 w4) as [[r5 vm5] w5] eqn:E5.
  cbn [fst snd].
  exact (preserves_at (cleanupsnapshots_preserves host power_invariant false)
           E5 I4).
Qed.

(** One operation keeps the invariant. *)
Lemma perform_keeps_invariant host op vm w :
  power_invariant vm -> pauses_online op vm ->
  power_invariant (fst (perform host op vm w)).
Proof.
  intros I G.
  pose proof power_invariant_safe as HS.
  pose proof power_invariant_config as HC.
  destruct op; cbn [perform fst pauses_online] in *.
  - apply poll_preserves; assumption.
  - apply start_preserves; assumption.
  - apply stop_preserves; assumption.
  - apply poweroff_preserves; assumption.
  - intros _. apply pause_keeps_online. exact G.
  - apply resume_keeps_invariant. exact I.
  - apply createsnapshot_keeps_invariant. exact G.
  - apply cleanupsnapshots_preserves. exact I.
  - apply restoresnapshot_preserves. exact I.
  - apply set_network_access_preserves; assumption.
  - apply register_vm_preserves; assumption.
  - apply deregister_vm_preserves. exact I.
  - apply deregister_stale_vm_preserves; assumption.
  - apply run_preserves; assumption.
  - apply cleanup_preserves; assumption.
Qed.

(** C4, as amended.  Every operation of the supervisor keeps the
    invariant suspended => online, provided [pause] and
    [createsnapshot] are used on a VM that is online: then no state
    reached from one that has the invariant has suspended true and
    online false. *)
Theorem suspended_implies_online host vm0 w0 vm w :
  power_invariant vm0 ->
  reaches host vm0 w0 vm w ->
  power_invariant vm.
Proof.
  intros I R. induction R as [|op vm w R IH G]; [exact I|].
  apply perform_keeps_invariant; assumption.
Qed.

Lemma suspended_implies_online_witness :
  let w0 := new_World [exited 0 (vminfo "running") 100; exited 0 EmptyString 100] in
  let s1 := perform posix_host (Poll false) new_VBOX_VM w0 in
  let s2 := perform posix_host Pause (fst s1) (snd s1) in
  (power_invariant new_VBOX_VM /\
   reaches posix_host new_VBOX_VM w0 (fst s2) (snd s2)) /\
  power_invariant (fst s2).
Proof.
  intros w0 s1 s2.
  assert (I : power_invariant new_VBOX_VM) by (intros H; discriminate H).
  assert (R : reaches posix_host new_VBOX_VM w0 (fst s2) (snd s2)).
  { apply reaches_step; [apply reaches_step; [apply reaches_start|exact Logic.I]|].
    vm_compute. reflexivity. }
  split; [split; [exact I|exact R]|].
  exact (suspended_implies_online posix_host new_VBOX_VM w0 (fst s2) (snd s2)
           I R).
Defined.

(** C4, as stated, fails: [pause] on the object that the constructor
    built, with a command that succeeds, leaves suspended true and
    online false. *)
Lemma pause_offline_breaks_invariant :
  let w := new_World [exited 0 EmptyString 100] in
  let vm := fst (perform posix_host Pause new_VBOX_VM w) in
  power_invariant new_VBOX_VM /\
  suspended vm = true /\ online vm = false /\
  ~ power_invariant vm.
Proof.
  vm_compute. repeat split; try discriminate.
  intros H. specialize (H eq_refl). discriminate H.
Qed.

(** ** The registration-only exit *)

Lemma register_only_blind :
  write_blind (fun vm => register_only vm = true).
Proof.
  repeat split; intros; assumption.
Qed.

Lemma run_registration_preserves host P :
  write_blind P -> preserves P (run_registration host).
Proof.
  intros HP. pose proof (write_blind_config P HP).
  unfold run_registration. preserves_auto.
Qed.

(** A child that cannot be launched makes the invoker return
    [ERR_FOPEN], on both platforms. *)
Lemma raw_result_not_spawned p c :
  spawned c = false -> fst (raw_result p c) = ERR_FOPEN.
Proof.
  intros H. unfold raw_result. rewrite H. destruct p; reflexivity.
Qed.

(** C7, as amended.  With [register_only] set, [run] does the
    registration and nothing more (no poll, no start), and returns a
    code other than 0: the error of the registration if that fails,
    [ERR_FOPEN] otherwise.  [ERR_FOPEN] is not a code of its own: it
    is what the invoker returns for a command that cannot be
    launched. *)
Theorem run_register_only host elapsed_time vm w :
  register_only vm = true ->
  let r := run_registration host vm w in
  run host elapsed_time vm w =
    (if value_of r =? 0 then ERR_FOPEN else value_of r,
     object_of r, world_of r) /\
  value_of (run host elapsed_time vm w) <> 0 /\
  (forall p c, spawned c = false -> fst (raw_result p c) = ERR_FOPEN).
Proof.
  intros H r.
  assert (E : run host elapsed_time vm w =
              (if value_of r =? 0 then ERR_FOPEN else value_of r,
               object_of r, world_of r)).
  { pose proof (run_registration_preserves host _ register_only_blind vm w H)
      as Hr.
    subst r. unfold run, run_registration, bind, value_of, object_of, world_of
      in *.
    destruct (is_registered host vm w) as [[registered vm1] w1].
    destruct (negb registered).
    - destruct (is_hdd_registered host vm1 w1) as [[hdd vm2] w2].
      destruct ((if hdd then deregister_stale_vm host else ret 0) vm2 w2)
        as [[rc vm3] w3].
      destruct (rc =? 0) eqn:Erc.
      + destruct (register_vm host vm3 w3) as [[rc' vm4] w4]. cbn [fst snd] in *.
        destruct (rc' =? 0); [|reflexivity].
        unfold this. rewrite Hr. reflexivity.
      + unfold ret in *. cbn [fst snd] in *. rewrite Erc. reflexivity.
    - unfold ret, this in *. cbn [fst snd Z.eqb] in *. rewrite Hr.
      reflexivity. }
  split; [exact E|]. split; [|exact raw_result_not_spawned].
  rewrite E. unfold value_of at 1. cbn [fst].
  destruct (value_of r =? 0) eqn:Er; [discriminate|].
  apply Z.eqb_neq. exact Er.
Qed.

Lemma run_register_only_witness :
  register_only (example_vm true) = true /\
  (let r := run_registration posix_host (example_vm true) registered_world in
   run posix_host 0 (example_vm true) registered_world =
     (if value_of r =? 0 then ERR_FOPEN else value_of r,
      object_of r, world_of r) /\
   value_of (run posix_host 0 (example_vm true) registered_world) <> 0 /\
   (forall p c, spawned c = false -> fst (raw_result p c) = ERR_FOPEN)).
Proof.
  split; [reflexivity|].
  exact (run_register_only posix_host 0 (example_vm true) registered_world
           eq_refl).
Defined.

(** C7, as stated, fails: the code that [run] returns for the
    registration-only exit is the code that it returns, without
    [register_only], when the command that starts the VM cannot be
    launched, and the code of the invoker for that failure. *)
Lemma register_only_code_not_distinguished :
  value_of (run posix_host 0 (example_vm true) registered_world) = ERR_FOPEN /\
  value_of (run posix_host 0 (example_vm false) registered_world) = ERR_FOPEN /\
  value_of (start posix_host (example_vm false) (new_World [])) = ERR_FOPEN /\
  value_of (vbm_popen_raw Posix (start_command (example_vm false))
              default_timeout (new_World [])) = ERR_FOPEN.
Proof. vm_compute. repeat split. Qed.

(** ** The trace only grows *)

Lemma extends_ret {A : Type} (a : A) : extends (ret a).
Proof. intros vm w. exists []. symmetry. apply app_nil_r. Qed.

Lemma extends_bind {A B : Type} (m : M A) (k : A -> M B) :
  extends m -> (forall a, extends (k a)) -> extends (bind m k).
Proof.
  intros Hm Hk vm w.
  destruct (Hm vm w) as (l1 & E1). unfold bind, world_of in *.
  destruct (m vm w) as [[a vm1] w1]. cbn [snd] in E1.
  destruct (Hk a vm1 w1) as (l2 & E2). unfold world_of in E2.
  exists (l1 ++ l2)%list. rewrite E2, E1. symmetry. apply app_assoc.
Qed.

Lemma extends_this : extends this.
Proof. intros vm w. exists []. symmetry. apply app_nil_r. Qed.

Lemma extends_assign f : extends (assign f).
Proof. intros vm w. exists []. symmetry. apply app_nil_r. Qed.

Lemma extends_ask {A : Type} (f : World -> A) : extends (ask f).
Proof. intros vm w. exists []. symmetry. apply app_nil_r. Qed.

Lemma extends_say msg : extends (effect (say msg)).
Proof. intros vm w. exists []. symmetry. apply app_nil_r. Qed.

Lemma extends_sleep ms : extends (effect (boinc_sleep ms)).
Proof. intros vm w. exists [Sleep ms]. reflexivity. Qed.

Lemma extends_emit e : extends (effect (emit e)).
Proof. intros vm w. exists [e]. reflexivity. Qed.

Lemma extends_vbm_popen p arguments item log_error retry_failures timeout :
  extends (call (vbm_popen p arguments item log_error retry_failures timeout)).
Proof.
  intros vm w. unfold call, world_of.
  destruct (vbm_popen_gained p arguments item log_error retry_failures
              timeout w) as (l & m & (T & _) & _).
  destruct (vbm_popen _ _ _ _ _ _ w) as [[retval output] w1].
  cbn [snd] in *. eexists. exact T.
Qed.

Lemma extends_next_socket : extends (call next_socket).
Proof.
  intros vm w. unfold call, next_socket, world_of.
  exists []. destruct (sockets w); cbn; symmetry; apply app_nil_r.
Qed.

Ltac extends_step :=
  lazymatch goal with
  | |- extends (ret _) => apply extends_ret
  | |- extends (bind _ _) => apply extends_bind; [|intros ?]
  | |- extends this => apply extends_this
  | |- extends (assign _) => apply extends_assign
  | |- extends (ask _) => apply extends_ask
  | |- extends (effect (say _)) => apply extends_say
  | |- extends (effect (boinc_sleep _)) => apply extends_sleep
  | |- extends (effect (emit _)) => apply extends_emit
  | |- extends (call (vbm_popen _ _ _ _ _ _)) => apply extends_vbm_popen
  | |- extends (call next_socket) => apply extends_next_socket
  | |- extends (if ?b then _ else _) => destruct b
  | |- extends (match ?x with _ => _ end) => destruct x
  | |- extends (let _ := _ in _) => cbv zeta
  | |- extends ?m =>
      first [ solve [eauto 3 with vbox]
            | let h := head m in unfold h ]
  end.

Ltac extends_auto := repeat extends_step.


(** ** Hardware virtualization at registration *)
















(** *** Where the command can come from

    No other command of [register_vm] is the one that turns hardware
    virtualization off: the judgment [avoids] follows the commands of
    a member function and checks each of them against it. *)

















(** ** Starting the VM *)

Lemma vm_name_power_blind name : power_blind (fun vm => vm_name vm = name).
Proof. intros vm b H. repeat split; exact H. Qed.

(** A poll launches its command once and keeps the name of the VM. *)
Lemma poll_trace host vm w :
  let r := poll host false vm w in
  vm_name (object_of r) = vm_name vm /\
  trace (world_of r) =
    (trace w ++ [Exec (command_line (poll_command vm))])%list /\
  clock w <= clock (world_of r).
Proof.
  intros r. split.
  - exact (@poll_preserves host _ false
             (@power_blind_safe _ (vm_name_power_blind (vm_name vm)))
             vm w eq_refl).
  - subst r. rewrite poll_unfold. cbv zeta.
    destruct (vbm_popen_gained (host_platform host) (poll_command vm)
                "VM state" false false default_timeout w)
      as (l & m & (T & _ & C) & L & _).
    rewrite (L eq_refl) in T.
    assert (Q : forall t, world_of (classify false t vm
                  (world_of (vbm_popen (host_platform host) (poll_command vm)
                     "VM state" false false default_timeout w)))
                = world_of (vbm_popen (host_platform host) (poll_command vm)
                     "VM state" false false default_timeout w)).
    { intros t. unfold classify.
      repeat (match goal with
              | |- context [if (?a =? ?b)%string then _ else _] =>
                  destruct (a =? b)%string
              end; [reflexivity|]).
      reflexivity. }
    destruct (poll_observes host vm w) as [t|].
    + rewrite Q. unfold world_of. auto.
    + unfold world_of. cbn [snd]. auto.
Qed.

Lemma start_wait_unfold host fuel timeout vm w :
  start_wait host fuel timeout vm w =
  let r := poll host false vm w in
  if online (object_of r) then (tt, object_of r, world_of r)
  else
    let w2 := boinc_sleep 1000 (world_of r) in
    if timeout >=? clock w2 then
      match fuel with
      | O => (tt, object_of r, w2)
      | S fuel => start_wait host fuel timeout (object_of r) w2
      end
    else (tt, object_of r, w2).
Proof.
  destruct fuel; cbn [start_wait];
    unfold bind, this, effect, dtime, ask, ret, object_of, world_of;
    destruct (poll host false vm w) as [[[] vm1] w1]; cbn [fst snd];
    destruct (online vm1); try reflexivity;
    destruct (timeout >=? _); reflexivity.
Qed.

(** The waiting loop, entered with less than [fuel + 1] seconds left:
    it polls, sleeps one second after each poll that does not see the
    VM online, stops at the first poll that does, and otherwise goes
    on until the clock has passed [timeout]. *)
Lemma object_of_triple {A B C : Type} (a : A) (b : B) (c : C) :
  object_of (a, b, c) = b.
Proof. reflexivity. Qed.

Lemma world_of_triple {A B C : Type} (a : A) (b : B) (c : C) :
  world_of (a, b, c) = c.
Proof. reflexivity. Qed.

Lemma value_of_triple {A B C : Type} (a : A) (b : B) (c : C) :
  value_of (a, b, c) = a.
Proof. reflexivity. Qed.


(** With less than [fuel + 1] seconds left, more fuel changes
    nothing: the loop of [start] ends because the clock passes
    [timeout]. *)
Lemma start_wait_fuel host : forall fuel timeout vm w,
  timeout - clock w < 1000 * (Z.of_nat fuel + 1) ->
  start_wait host (S fuel) timeout vm w = start_wait host fuel timeout vm w.
Proof.
  induction fuel as [|fuel IH]; intros timeout vm w Hfuel;
    rewrite (start_wait_unfold host (S _)), (start_wait_unfold host _);
    cbv zeta;
    destruct (poll_trace host vm w) as (_ & _ & C);
    set (r1 := poll host false vm w) in *;
    destruct (online (object_of r1)); try reflexivity;
    destruct (timeout >=? clock (boinc_sleep 1000 (world_of r1))) eqn:G;
    try reflexivity;
    rewrite Z.geb_leb in G; apply Z.leb_le in G;
    cbn [boinc_sleep clock advance emit] in G.
  - lia.
  - apply IH. cbn [boinc_sleep clock advance emit]. lia.
Qed.


Lemma start_unfold host vm w :
  let r0 := vbm_popen (host_platform host) (start_command vm) "start VM"
              default_log_error default_retry_failures default_timeout
              (say "Starting VM." w) in
  let r1 := start_wait host 300 (clock (world_of r0) + 300 * 1000) vm
              (world_of r0) in
  start host vm w =
  if value_of r0 =? 0 then
    if online (object_of r1)
    then (BOINC_SUCCESS, object_of r1,
          say "Successfully started VM." (world_of r1))
    else (ERR_EXEC, object_of r1,
          say "VM did not start within 5 minutes, aborting job." (world_of r1))
  else (value_of r0, vm, world_of r0).
Proof.
  intros r0 r1. subst r0 r1.
  unfold start, popen_default_rc, popen_rc, popen, bind, effect, this, call,
    dtime, ask, ret, value_of, object_of, world_of.
  destruct (vbm_popen _ _ _ _ _ _ _) as [[retval output] w1]. cbn [fst snd].
  destruct (retval =? 0); [|reflexivity].
  destruct (start_wait host 300 _ vm w1) as [[u vm2] w2]. cbn [fst snd].
  destruct (online vm2); reflexivity.
Qed.




(** ** Deleting snapshots *)

(** C5, at an input where the code fails it.  The listing has two
    snapshots and [delete_active] is true, so both are to be deleted;
    [cleanupsnapshots] deletes the first and stops.  The call that
    deletes a snapshot writes its own output into the variable that
    holds the listing, and the next end of line is looked up in that
    text, past its end. *)
Theorem cleanupsnapshots_stops_after_first_delete :
  let w := new_World [exited 0 two_snapshots 100;
                      exited 0 ("0%...100%" ++ nl) 100;
                      exited 0 ("0%...100%" ++ nl) 100] in
  let r := cleanupsnapshots posix_host true (example_vm false) w in
  value_of r = 0 /\
  trace (world_of r) =
    [Exec (command_line ("snapshot " ++ quoted EmptyString ++ " " ++ "list "));
     Exec (delete_snapshot_line EmptyString
             "1751e9a6-49e7-4dcc-ab23-08428b665ddf")] /\
  ~ In (Exec (delete_snapshot_line EmptyString
                "92fa8b35-873a-4197-9d54-7b6b746b2c58"))
       (trace (world_of r)) /\
  List.length (script (world_of r)) = 1%nat.
Proof.
  vm_compute. repeat split. intros [H|[H|[]]]; discriminate H.
Qed.

(** ** Deregistration *)

(** C6, at an input where the code fails it.  [register_vm] adds a
    controller named "Hard Disk Controller"; [deregister_vm] asks for
    the removal of one named "IDE Controller" and never names the
    controller that [register_vm] added.  The rest is as the claim
    has it: [unregistervm --delete], then [closemedium disk] with
    [--delete] because [delete_media] is set. *)
Theorem deregister_vm_removes_other_controller :
  let vm := example_vm false in
  let r1 := register_vm posix_host vm (new_World (all_succeed 40)) in
  let r2 := deregister_vm posix_host true (object_of r1) (world_of r1) in
  value_of r1 = 0 /\
  In (Exec (storagectl_line "boinc_vm" "Hard Disk Controller"
              ("--add " ++ quoted "ide" ++ " " ++
               "--controller " ++ quoted "PIIX4" ++ " " ++
               "--hostiocache off ")))
     (trace (world_of r1)) /\
  trace (world_of r2) =
    (trace (world_of r1) ++
     [Exec (command_line ("snapshot " ++ quoted "boinc_vm" ++ " " ++ "list "));
      Exec (storagectl_line "boinc_vm" "IDE Controller" "--remove ");
      Exec (command_line ("unregistervm " ++ quoted "boinc_vm" ++ " " ++
                          "--delete "));
      Exec (command_line ("closemedium disk " ++
                          quoted "/slot/vm_image.vdi" ++ " " ++
                          "--delete "))])%list /\
  ~ In (Exec (storagectl_line "boinc_vm" "Hard Disk Controller" "--remove "))
       (trace (world_of r2)).
Proof.
  vm_compute. repeat split.
  - do 14 right. left. reflexivity.
  - intros H. repeat (destruct H as [H|H]; [discriminate H|]). exact H.
Qed.

(** ** Bounds on positions and on the fuel of the loops *)

Lemma prefix_length pat : forall s,
  String.prefix pat s = true -> (String.length pat <= String.length s)%nat.
Proof.
  induction pat as [|x pat IH]; intros [|y s]; cbn; try lia; try discriminate.
  destruct (ascii_dec x y); [|discriminate].
  intros H. specialize (IH s H). lia.
Qed.

Lemma index_bound pat : forall s n i,
  String.index n pat s = Some i ->
  (n <= i /\ i + String.length pat <= String.length s)%nat.
Proof.
  induction s as [|b s IH]; intros [|n] i; cbn [String.index].
  - destruct pat; [intros [= <-]; cbn; lia | discriminate].
  - discriminate.
  - destruct (String.prefix pat (String b s)) eqn:P.
    + intros [= <-]. apply prefix_length in P. lia.
    + destruct (String.index 0 pat s) as [m|] eqn:E; [|discriminate].
      intros [= <-]. destruct (IH _ _ E). cbn [String.length]. lia.
  - destruct (String.index n pat s) as [m|] eqn:E; [|discriminate].
    intros [= <-]. destruct (IH _ _ E). cbn [String.length]. lia.
Qed.

(** A position that [find] returns is [npos] or that of a whole
    occurrence at or after [pos]. *)
Lemma find_bound s pat pos :
  0 <= pos ->
  find s pat pos = npos \/
  (pos <= find s pat pos /\ find s pat pos + size pat <= size s).
Proof.
  intros Hpos. unfold find, size.
  destruct (Z.of_nat (String.length s) <? pos); [left; reflexivity|].
  destruct (String.index (Z.to_nat pos) pat s) as [i|] eqn:E;
    [|left; reflexivity].
  right. apply index_bound in E. lia.
Qed.

Lemma find_found_bound s pat pos :
  0 <= pos -> find s pat pos <> npos ->
  find s pat pos + size pat <= size s.
Proof.
  intros Hpos H. destruct (find_bound s pat pos Hpos) as [E|[_ B]];
    [contradiction | exact B].
Qed.

Lemma find_past_end s pat pos :
  size s <= pos -> 0 < size pat -> find s pat pos = npos.
Proof.
  intros H Hp. unfold find.
  destruct (size s <? pos) eqn:E; [reflexivity|].
  destruct (String.index (Z.to_nat pos) pat s) as [i|] eqn:I; [|reflexivity].
  apply index_bound in I. destruct I as (I1 & I2).
  unfold size in *. lia.
Qed.

Lemma remove_cr_length s :
  (String.length (remove_cr s) <= String.length s)%nat.
Proof.
  induction s as [|c s IH]; cbn [remove_cr String.length]; [lia|].
  destruct (Ascii.eqb c CR); cbn [String.length]; lia.
Qed.

Lemma raw_result_output_length p c :
  (String.length (snd (raw_result p c)) <= String.length (child_output c))%nat.
Proof.
  unfold raw_result.
  destruct p, (spawned c); cbn [negb orb andb];
    repeat match goal with
           | |- context [if ?b then _ else _] => destruct b
           end; cbn [snd String.length]; lia.
Qed.

Lemma raw_result_no_child p : raw_result p no_child = (ERR_FOPEN, EmptyString).
Proof. destruct p; reflexivity. Qed.

Lemma length_append s1 s2 :
  String.length (s1 ++ s2) = (String.length s1 + String.length s2)%nat.
Proof. induction s1 as [|c s1 IH]; cbn; [reflexivity|]. now rewrite IH. Qed.

Lemma normalized_length p s :
  (String.length (normalized p s) <= String.length s)%nat.
Proof. destruct p; cbn [normalized]; [apply remove_cr_length | lia]. Qed.

Lemma output_bound_say msg w : output_bound (say msg w) = output_bound w.
Proof. reflexivity. Qed.

(** A call that does not retry leaves a text that fits the bound of
    the world before it. *)
Lemma vbm_popen_output_bound p arguments item log_error timeout w :
  let r := vbm_popen p arguments item log_error false timeout w in
  (String.length (output_of r) + output_bound (world_of r) <= output_bound w)%nat.
Proof.
  intros r. subst r. unfold vbm_popen.
  rewrite vbm_popen_loop_unfold, vbm_popen_raw_eq.
  destruct (vbm_popen_raw_world p arguments timeout w) as (_ & _ & _ & Sc & _).
  set (w1 := snd (vbm_popen_raw p arguments timeout w)) in *.
  destruct (script w) as [|c rest] eqn:S.
  - assert (E1 : fst (spawn (command_line arguments) w) = no_child)
      by (unfold spawn; cbn [script emit]; rewrite S; reflexivity).
    assert (E2 : script (snd (spawn (command_line arguments) w)) = [])
      by (unfold spawn; cbn [script emit]; rewrite S; exact S).
    rewrite E2 in Sc.
    rewrite E1, raw_result_no_child. cbv zeta.
    replace (ERR_FOPEN =? 0) with false by reflexivity.
    replace (is_session_lock ERR_FOPEN) with false by reflexivity.
    cbn [negb andb]. fold (normalized p EmptyString).
    assert (N : normalized p EmptyString = EmptyString) by (destruct p; reflexivity).
    rewrite N. unfold output_of, world_of.
    destruct log_error; replace (ERR_FOPEN =? 0) with false by reflexivity;
      cbn [negb andb fst snd String.length String.eqb];
      rewrite ?output_bound_say; unfold output_bound; rewrite Sc, S;
      cbn [fold_right]; lia.
  - destruct (spawn_cons (command_line arguments) w S) as (w' & E & S' & _).
    rewrite E in *. cbn [fst snd] in *.
    pose proof (raw_result_output_length p c) as L.
    destruct (raw_result p c) as [retval output]. cbn [snd] in L. cbv zeta.
    fold (normalized p output).
    pose proof (normalized_length p output) as N.
    assert (B : output_bound w =
                (String.length (child_output c) + notes_size +
                 output_bound w1)%nat).
    { unfold output_bound. rewrite S, Sc, S'. reflexivity. }
    destruct (retval =? 0) eqn:R.
    + rewrite ?R. cbn [negb andb]. unfold output_of, world_of. cbn [fst snd].
      change (match p with Win32 => remove_cr output | Posix => output end)
        with (normalized p output).
      lia.
    + cbn [negb andb].
      destruct (is_session_lock retval); cbn [andb negb].
      * replace (contains EmptyString "Another VirtualBox management")
          with false by reflexivity.
        cbn [negb]. change (EmptyString ++ lock_note) with lock_note.
        rewrite ?R. cbn [negb andb].
        replace (negb (lock_note =? EmptyString)%string) with true by reflexivity.
        change (match p with Win32 => remove_cr output | Posix => output end)
          with (normalized p output).
        destruct log_error; unfold output_of, world_of; cbn [fst snd].
        -- rewrite output_bound_say, length_append. fold notes_size. lia.
        -- lia.
      * rewrite ?R. cbn [String.eqb negb andb].
        change (match p with Win32 => remove_cr output | Posix => output end)
          with (normalized p output).
        destruct log_error; unfold output_of, world_of; cbn [fst snd];
          rewrite ?output_bound_say; lia.
Qed.

Lemma cleanupsnapshots_loop_unfold host fuel delete_active output
    eol_prev_pos eol_pos :
  cleanupsnapshots_loop host fuel delete_active output eol_prev_pos eol_pos =
  if eol_pos =? npos then ret tt
  else
    let line := substr output eol_prev_pos (size_sub eol_pos eol_prev_pos) in
    if contains line "does not have any snapshots" then ret tt
    else if negb delete_active && contains line "*" then ret tt
    else
      bind (delete_listed host line output)
        (fun output =>
           let eol_prev_pos := size_add eol_pos 1 in
           let eol_pos := find output nl eol_prev_pos in
           match fuel with
           | O => ret tt
           | S fuel =>
               cleanupsnapshots_loop host fuel delete_active output
                 eol_prev_pos eol_pos
           end).
Proof. destruct fuel; reflexivity. Qed.

Lemma delete_listed_bound host line output vm w :
  let r := delete_listed host line output vm w in
  (String.length (value_of r) + output_bound (world_of r)
   <= String.length output + output_bound w)%nat.
Proof.
  intros r. subst r. unfold delete_listed.
  destruct (negb (find line "(UUID: " 0 =? npos)).
  - cbv zeta. unfold bind, effect, this, popen, call, ret.
    match goal with
    | |- context [vbm_popen ?p ?a ?i ?l false ?t ?w0] =>
        pose proof (vbm_popen_output_bound p a i l t w0) as B;
        cbv zeta in B; unfold output_of, world_of in B;
        destruct (vbm_popen p a i l false t w0) as [[retval output'] w1]
    end.
    unfold value_of, world_of. cbn [fst snd] in *.
    unfold output_bound in *. cbn [script say] in B. lia.
  - unfold ret, value_of, world_of. cbn [fst snd]. lia.
Qed.

(** With enough fuel to reach the end of the longest text, more fuel
    changes nothing: the loop of [cleanupsnapshots] ends because no
    end of line is left. *)
Lemma cleanupsnapshots_loop_fuel host delete_active :
  forall fuel output eol_prev_pos eol_pos vm w,
  (eol_pos = npos \/ 0 <= eol_pos < size output) ->
  size output + Z.of_nat (output_bound w) < size_modulus ->
  (eol_pos <> npos ->
   size output + Z.of_nat (output_bound w) <= eol_pos + 1 + Z.of_nat fuel) ->
  cleanupsnapshots_loop host (S fuel) delete_active output eol_prev_pos
    eol_pos vm w =
  cleanupsnapshots_loop host fuel delete_active output eol_prev_pos
    eol_pos vm w.
Proof.
  induction fuel as [|fuel IH]; intros output prev pos vm w Hpos Hfit Hfuel;
    rewrite (cleanupsnapshots_loop_unfold host (S _)),
            (cleanupsnapshots_loop_unfold host _);
    destruct (pos =? npos) eqn:E; try reflexivity;
    apply Z.eqb_neq in E; destruct Hpos as [Hpos|Hpos]; try contradiction;
    specialize (Hfuel E); cbv zeta;
    destruct (contains _ "does not have any snapshots"); try reflexivity;
    destruct (negb delete_active && contains _ "*"); try reflexivity;
    unfold bind;
    match goal with
    | |- context [delete_listed host ?l output vm w] =>
        pose proof (delete_listed_bound host l output vm w) as B;
        cbv zeta in B;
        destruct (delete_listed host l output vm w) as [[output' vm'] w']
    end;
    unfold value_of, world_of, size in *; cbn [fst snd] in B;
    assert (A : size_add pos 1 = pos + 1)
      by (unfold size_add; apply Z.mod_small; lia).
  - rewrite cleanupsnapshots_loop_unfold, A.
    rewrite (find_past_end output' nl (pos + 1));
      [reflexivity | unfold size; lia | reflexivity].
  - rewrite A. apply IH.
    + destruct (find_bound output' nl (pos + 1)) as [F|[F1 F2]];
        [lia | left; exact F | right].
      change (size nl) with 1 in F2. unfold size in *. lia.
    + unfold size. lia.
    + intros F. destruct (find_bound output' nl (pos + 1)) as [F'|[F1 F2]];
        [lia | contradiction | ].
      unfold size. lia.
Qed.

(** The fuel that [cleanupsnapshots] gives to its loop is enough. *)
Lemma cleanupsnapshots_fuel host delete_active output vm w extra :
  size output + Z.of_nat (output_bound w) < size_modulus ->
  cleanupsnapshots_loop host (String.length output + output_bound w + extra)
    delete_active output 0 (find output nl 0) vm w =
  cleanupsnapshots_loop host (String.length output + output_bound w)
    delete_active output 0 (find output nl 0) vm w.
Proof.
  intros Hfit. induction extra as [|extra IH].
  - rewrite Nat.add_0_r. reflexivity.
  - rewrite Nat.add_succ_r, <- IH. apply cleanupsnapshots_loop_fuel.
    + destruct (find_bound output nl 0) as [F|[F1 F2]];
        [lia | left; exact F | right].
      change (size nl) with 1 in F2. lia.
    + exact Hfit.
    + intros _. destruct (find_bound output nl 0) as [F|[F1 F2]];
        [lia | rewrite F; unfold npos, size in *; lia | unfold size in *; lia].
Qed.

(** ** Searching in texts *)

Lemma size_append a b : size (a ++ b) = size a + size b.
Proof. unfold size. rewrite length_append. lia. Qed.

Lemma size_nonneg s : 0 <= size s.
Proof. unfold size. lia. Qed.

Lemma size_add_small a b :
  0 <= a + b < size_modulus -> size_add a b = a + b.
Proof. intros H. unfold size_add. apply Z.mod_small. exact H. Qed.

Lemma size_sub_small a b :
  0 <= a - b < size_modulus -> size_sub a b = a - b.
Proof. intros H. unfold size_sub. apply Z.mod_small. exact H. Qed.

Lemma contains_false s pat :
  contains s pat = false -> String.index 0 pat s = None.
Proof.
  unfold contains. destruct (String.index 0 pat s); [discriminate|reflexivity].
Qed.

Lemma contains_true s pat i :
  String.index 0 pat s = Some i -> contains s pat = true.
Proof. unfold contains. intros ->. reflexivity. Qed.

(** A text without the pattern: [find] answers [npos]. *)
Lemma find_absent s pat : contains s pat = false -> find s pat 0 = npos.
Proof.
  intros H. unfold find. pose proof (size_nonneg s).
  replace (size s <? 0) with false by (symmetry; apply Z.ltb_ge; lia).
  cbn [Z.to_nat]. rewrite (contains_false _ _ H). reflexivity.
Qed.

(** A text with the pattern: [find] answers a position inside it. *)
Lemma find_present s pat :
  contains s pat = true -> size s < size_modulus -> 0 < size pat ->
  find s pat 0 <> npos /\ 0 <= find s pat 0 /\ find s pat 0 + size pat <= size s.
Proof.
  intros H Hs Hp. unfold find, contains in *. pose proof (size_nonneg s).
  replace (size s <? 0) with false by (symmetry; apply Z.ltb_ge; lia).
  cbn [Z.to_nat]. destruct (String.index 0 pat s) as [i|] eqn:E; [|discriminate].
  apply index_bound in E. unfold npos, size in *. lia.
Qed.

(** A search that starts right after a head [a] is a search in what
    follows [a]. *)
Lemma index_skip pat a : forall s,
  String.index (String.length a) pat (a ++ s) =
  option_map (Nat.add (String.length a)) (String.index 0 pat s).
Proof.
  induction a as [|x a IH]; intros s.
  - cbn. destruct (String.index 0 pat s); reflexivity.
  - cbn [append String.length String.index]. rewrite IH.
    destruct (String.index 0 pat s); reflexivity.
Qed.

Lemma prefix_head pat rest : String.prefix pat (pat ++ rest) = true.
Proof.
  induction pat as [|y pat IH]; cbn.
  - destruct rest; reflexivity.
  - destruct (ascii_dec y y); [exact IH | contradiction].
Qed.

Lemma prefix_short pat : forall t s,
  String.prefix pat (t ++ s) = true ->
  (String.length pat <= String.length t)%nat ->
  String.prefix pat t = true.
Proof.
  induction pat as [|y pat IH]; intros [|x t] s; cbn; intros H L;
    try reflexivity; try lia.
  destruct (ascii_dec y x); [|destruct s; discriminate H || exact H].
  apply (IH t s); [exact H | lia].
Qed.

Lemma prefix_split t : forall pat s,
  String.prefix pat (t ++ s) = true ->
  (String.length t < String.length pat)%nat ->
  exists u, pat = t ++ u /\ String.prefix u s = true.
Proof.
  induction t as [|x t IH]; intros pat s H L.
  - exists pat. split; [reflexivity | exact H].
  - destruct pat as [|y pat]; cbn in L; [lia|].
    cbn in H. destruct (ascii_dec y x) as [->|]; [|discriminate].
    destruct (IH pat s H) as (u & -> & Hu); [lia|].
    exists u. split; [reflexivity | exact Hu].
Qed.

Lemma no_overlap t : forall u pat,
  overlaps (t ++ u) pat = false ->
  t <> EmptyString -> u <> EmptyString ->
  String.prefix u pat = false.
Proof.
  induction t as [|x t IH]; intros u pat H Ht Hu; [contradiction|].
  cbn [append overlaps] in H. apply orb_false_iff in H. destruct H as (H1 & H2).
  destruct t as [|x' t].
  - cbn [append] in H1. destruct u as [|y u]; [contradiction|].
    cbn [String.eqb negb andb] in H1. exact H1.
  - apply (IH u pat H2); [discriminate | exact Hu].
Qed.

(** The first occurrence of a pattern that cannot overlap itself,
    after a head that does not hold it, is right after the head. *)
Lemma index_first pat rest : forall a,
  pat <> EmptyString -> bordered pat = false ->
  String.index 0 pat a = None ->
  String.index 0 pat (a ++ pat ++ rest) = Some (String.length a).
Proof.
  intros a Hp Hb. induction a as [|x a IH]; intros Ha.
  - cbn [append String.length]. destruct pat as [|y pat]; [contradiction|].
    cbn [append String.index].
    change (String y (pat ++ rest)) with (String y pat ++ rest).
    rewrite prefix_head. reflexivity.
  - cbn [String.index] in Ha.
    destruct (String.prefix pat (String x a)) eqn:P; [discriminate|].
    destruct (String.index 0 pat a) eqn:I; [discriminate|].
    cbn [append String.length String.index].
    rewrite (IH eq_refl).
    destruct (String.prefix pat (String x (a ++ pat ++ rest))) eqn:Q;
      [|reflexivity].
    exfalso.
    destruct (Nat.le_gt_cases (String.length pat) (String.length (String x a)))
      as [L|L].
    + pose proof (prefix_short pat (String x a) (pat ++ rest) Q L). congruence.
    + destruct (prefix_split (String x a) pat (pat ++ rest) Q L) as (u & E & U).
      assert (Hu : u <> EmptyString).
      { intros ->. rewrite E, append_nil_r in L. lia. }
      assert (Lu : (String.length u <= String.length pat)%nat).
      { rewrite E, length_append. lia. }
      pose proof (prefix_short u pat rest U Lu) as U'.
      unfold bordered in Hb. rewrite E in Hb at 1.
      rewrite (no_overlap (String x a) u pat Hb) in U'; [discriminate| |exact Hu].
      discriminate.
Qed.

Lemma find_first a pat rest :
  pat <> EmptyString -> bordered pat = false -> contains a pat = false ->
  find (a ++ pat ++ rest) pat 0 = size a.
Proof.
  intros Hp Hb Ha. unfold find.
  pose proof (size_nonneg (a ++ pat ++ rest)).
  replace (size (a ++ pat ++ rest) <? 0) with false
    by (symmetry; apply Z.ltb_ge; lia).
  cbn [Z.to_nat]. rewrite (index_first pat rest a Hp Hb (contains_false _ _ Ha)).
  reflexivity.
Qed.

Lemma find_from a v pat rest :
  pat <> EmptyString -> bordered pat = false -> contains v pat = false ->
  find (a ++ v ++ pat ++ rest) pat (size a) = size a + size v.
Proof.
  intros Hp Hb Hv. unfold find.
  rewrite size_append. pose proof (size_nonneg (v ++ pat ++ rest)).
  replace (size a + size (v ++ pat ++ rest) <? size a) with false
    by (symmetry; apply Z.ltb_ge; lia).
  unfold size at 1. rewrite Nat2Z.id, index_skip.
  rewrite (index_first pat rest v Hp Hb (contains_false _ _ Hv)).
  cbn [option_map]. unfold size. lia.
Qed.

(** A search from after a head, in a rest that does not hold the
    pattern, finds nothing. *)
Lemma find_from_absent a s pat :
  contains s pat = false -> find (a ++ s) pat (size a) = npos.
Proof.
  intros Hs. unfold find.
  rewrite size_append. pose proof (size_nonneg s).
  replace (size a + size s <? size a) with false
    by (symmetry; apply Z.ltb_ge; lia).
  unfold size at 1. rewrite Nat2Z.id, index_skip.
  rewrite (contains_false _ _ Hs). reflexivity.
Qed.

Lemma substring_skip a : forall n s,
  String.substring (String.length a) n (a ++ s) = String.substring 0 n s.
Proof.
  induction a as [|x a IH]; intros n s; [reflexivity|].
  cbn [append String.length String.substring]. apply IH.
Qed.

Lemma substring_head v : forall rest,
  String.substring 0 (String.length v) (v ++ rest) = v.
Proof.
  induction v as [|x v IH]; intros rest.
  - cbn. destruct rest; reflexivity.
  - cbn [append String.length String.substring]. now rewrite IH.
Qed.

Lemma substr_mid a v rest : substr (a ++ v ++ rest) (size a) (size v) = v.
Proof.
  unfold substr. rewrite !size_append.
  pose proof (size_nonneg v). pose proof (size_nonneg rest).
  replace (size a + (size v + size rest) <? size a) with false
    by (symmetry; apply Z.ltb_ge; lia).
  replace (Z.min (size v) (size a + (size v + size rest) - size a))
    with (size v) by lia.
  unfold size. rewrite !Nat2Z.id, substring_skip. apply substring_head.
Qed.

(** ** The command line invoker on Windows *)

Lemma fopen_unless_code x : (if x =? 0 then ERR_FOPEN else x) <> 0.
Proof.
  destruct (Z.eqb_spec x 0) as [_|H]; [discriminate | exact H].
Qed.

Lemma raw_result_win32_zero c :
  fst (raw_result Win32 c) = 0 <->
  spawned c = true /\ exit_code c = 0 /\ timed_out c = false.
Proof.
  unfold raw_result.
  destruct (spawned c), (timed_out c); cbn [andb negb orb];
    destruct (Z.eqb_spec (exit_code c) 0) as [E|E]; cbn [negb orb fst];
    (split; [intros H | intros (H1 & H2 & H3)]);
    try discriminate; try contradiction; auto;
    exfalso; revert H; apply fopen_unless_code.
Qed.

(** X1.  On Windows the invoker returns 0 exactly for a child that was
    launched, ended with exit code 0 and was not stopped by the time
    limit: a failure is never reported as 0, whatever the child
    printed, and the output of a successful child is not searched for
    an error code. *)
Theorem vbm_popen_raw_win32_success arguments timeout w :
  let c := fst (spawn (command_line arguments) w) in
  value_of (vbm_popen_raw Win32 arguments timeout w) = 0 <->
  spawned c = true /\ exit_code c = 0 /\ timed_out c = false.
Proof.
  intros c. rewrite vbm_popen_raw_eq. fold c.
  unfold value_of. cbn [fst]. apply raw_result_win32_zero.
Qed.

Lemma all_hex_no_paren s : all_hex s = true -> contains s ")" = false.
Proof.
  unfold contains. induction s as [|c s IH]; [reflexivity|].
  cbn [all_hex]. destruct (hex_digit c) eqn:D; [|discriminate].
  intros H. specialize (IH H).
  cbn [String.index String.prefix].
  destruct (ascii_dec ")" c) as [<-|_]; [discriminate D|].
  destruct (String.index 0 ")" s); [discriminate IH | reflexivity].
Qed.

Lemma starts_with_hex_all digits :
  all_hex digits = true -> digits <> EmptyString ->
  starts_with_hex digits = true.
Proof.
  destruct digits as [|c s]; [contradiction|].
  cbn [all_hex starts_with_hex]. destruct (hex_digit c); [reflexivity|discriminate].
Qed.

Lemma scan_hex_0x digits :
  all_hex digits = true -> digits <> EmptyString ->
  scan_hex ("0x" ++ digits) = Some (hex_run 0 digits mod uint_modulus).
Proof.
  intros H N. pose proof (starts_with_hex_all digits H N) as S.
  unfold scan_hex. cbn [append skip_space]. 
  change (is_space "0") with false. cbv iota beta.
  cbn [strip_0x]. change (Ascii.eqb "x" "x") with true. cbn [orb andb].
  rewrite S. cbv iota beta. rewrite S. reflexivity.
Qed.

Lemma int_of_uint_mod v : int_of_uint (v mod uint_modulus) = int_of_uint v.
Proof.
  unfold int_of_uint. rewrite Z.mod_mod; [reflexivity | discriminate].
Qed.

(** The block that reads the error code, on a text whose first
    [(0x] is followed by hexadecimal digits and a closing
    parenthesis: the code is read, unless the text starts with the
    parenthesis. *)
Lemma parse_errcode_found pre digits post retval :
  contains pre "(0x" = false ->
  all_hex digits = true -> digits <> EmptyString ->
  size (pre ++ "(0x" ++ digits ++ ")" ++ post) < size_modulus ->
  parse_errcode (pre ++ "(0x" ++ digits ++ ")" ++ post) retval =
  if (pre =? EmptyString)%string then retval
  else int_of_uint (hex_run 0 digits).
Proof.
  intros Hpre Hd Hn Hsize.
  set (out := pre ++ "(0x" ++ digits ++ ")" ++ post) in *.
  assert (F : find out "(0x" 0 = size pre)
    by (apply find_first; [discriminate | reflexivity | exact Hpre]).
  unfold parse_errcode. rewrite F.
  destruct pre as [|x pre]; [reflexivity|].
  replace ((String x pre =? EmptyString)%string) with false by reflexivity.
  set (pre' := String x pre) in *.
  assert (Hp : 0 < size pre') by (unfold size, pre'; cbn [String.length]; lia).
  replace (size pre' =? 0) with false by (symmetry; apply Z.eqb_neq; lia).
  assert (E : out = (pre' ++ "(") ++ ("0x" ++ digits) ++ ")" ++ post)
    by (rewrite append_assoc; reflexivity).
  assert (Sz : size out = size pre' + 1 + (2 + size digits) + (1 + size post)).
  { rewrite E, !size_append. unfold size. cbn [String.length]. lia. }
  pose proof (size_nonneg digits). pose proof (size_nonneg post).
  rewrite size_add_small by lia.
  assert (A : size (pre' ++ "(") = size pre' + 1)
    by (rewrite size_append; reflexivity).
  assert (V : size ("0x" ++ digits) = 2 + size digits)
    by (rewrite size_append; reflexivity).
  assert (C : contains ("0x" ++ digits) ")" = false).
  { pose proof (all_hex_no_paren digits Hd) as Q. unfold contains in *.
    cbn [append String.index String.prefix].
    destruct (ascii_dec ")" "0"); [discriminate|].
    destruct (ascii_dec ")" "x"); [discriminate|].
    destruct (String.index 0 ")" digits); [discriminate Q | reflexivity]. }
  assert (F2 : find out ")" (size pre' + 1) = size pre' + 1 + (2 + size digits)).
  { rewrite E, <- A, <- V. apply find_from; [discriminate | reflexivity | exact C]. }
  rewrite F2. rewrite size_sub_small by lia.
  replace (size pre' + 1 + (2 + size digits) - (size pre' + 1))
    with (size ("0x" ++ digits)) by lia.
  rewrite <- A. rewrite E at 1. rewrite substr_mid.
  rewrite (scan_hex_0x digits Hd Hn). apply int_of_uint_mod.
Qed.

Lemma uint_of_int_of_uint v : uint_of_int (int_of_uint v) = v mod uint_modulus.
Proof.
  unfold uint_of_int, int_of_uint.
  assert (B : 0 <= v mod uint_modulus < uint_modulus)
    by (apply Z.mod_pos_bound; reflexivity).
  destruct (v mod uint_modulus <? 2 ^ 31).
  - apply Z.mod_small. exact B.
  - replace (v mod uint_modulus - uint_modulus)
      with (v mod uint_modulus + (-1) * uint_modulus) by ring.
    rewrite Z.mod_add by discriminate. apply Z.mod_small. exact B.
Qed.

(** X2.  A child that fails on Windows and whose output carries an error
    code, [(0x] followed by hexadecimal digits and a closing
    parenthesis, the first [(0x] of the output: the invoker returns
    the [int] that has the bits of that number ([ERR_FOPEN] if that
    is 0), and the code 0x80bb0007 is the one that the retry
    controller takes for the session lock.  The code is not read when
    the output starts with the parenthesis: the invoker then returns
    [ERR_TIMEOUT] or [ERR_FOPEN]. *)
Theorem vbm_popen_raw_win32_error_code c pre digits post :
  spawned c = true -> exit_code c <> 0 ->
  child_output c = pre ++ "(0x" ++ digits ++ ")" ++ post ->
  contains pre "(0x" = false ->
  all_hex digits = true -> digits <> EmptyString ->
  size (child_output c) < size_modulus ->
  let code := int_of_uint (hex_run 0 digits) in
  raw_result Win32 c =
    (if (pre =? EmptyString)%string
     then (if timed_out c then ERR_TIMEOUT else ERR_FOPEN)
     else (if code =? 0 then ERR_FOPEN else code),
     child_output c) /\
  (pre <> EmptyString ->
   hex_run 0 digits mod uint_modulus = VBOX_E_INVALID_OBJECT_STATE ->
   lock_child Win32 c).
Proof.
  intros Hs He Ho Hpre Hd Hn Hsize code.
  assert (R : raw_result Win32 c =
    (if (pre =? EmptyString)%string
     then (if timed_out c then ERR_TIMEOUT else ERR_FOPEN)
     else (if code =? 0 then ERR_FOPEN else code),
     child_output c)).
  { unfold raw_result. rewrite Hs. cbn [andb negb orb].
    replace (exit_code c =? 0) with false by (symmetry; apply Z.eqb_neq; exact He).
    cbn [negb orb]. rewrite Ho in *.
    rewrite (parse_errcode_found pre digits post _ Hpre Hd Hn Hsize).
    fold code. destruct (pre =? EmptyString)%string; [|reflexivity].
    destruct (timed_out c); reflexivity. }
  split; [exact R|].
  intros Hne Hcode. unfold lock_child. rewrite R. cbn [fst].
  replace ((pre =? EmptyString)%string) with false
    by (symmetry; apply String.eqb_neq; exact Hne).
  assert (U : uint_of_int code = VBOX_E_INVALID_OBJECT_STATE)
    by (unfold code; rewrite uint_of_int_of_uint; exact Hcode).
  unfold is_session_lock.
  destruct (Z.eqb_spec code 0) as [Z|_].
  - rewrite Z in U. discriminate U.
  - rewrite U. reflexivity.
Qed.

Lemma vbm_popen_raw_win32_error_code_witness :
  let c := exited 1 locked_output 100 in
  let pre := "VBoxManage: error: The machine is locked " in
  (spawned c = true /\ exit_code c <> 0 /\
   child_output c = pre ++ "(0x" ++ "80bb0007" ++ ")" ++ nl /\
   contains pre "(0x" = false /\
   all_hex "80bb0007" = true /\ "80bb0007" <> EmptyString /\
   size (child_output c) < size_modulus) /\
  raw_result Win32 c =
    (if (pre =? EmptyString)%string
     then (if timed_out c then ERR_TIMEOUT else ERR_FOPEN)
     else (if int_of_uint (hex_run 0 "80bb0007") =? 0 then ERR_FOPEN
           else int_of_uint (hex_run 0 "80bb0007")),
     child_output c) /\
  lock_child Win32 c.
Proof.
  intros c pre.
  assert (H1 : spawned c = true) by reflexivity.
  assert (H2 : exit_code c <> 0) by discriminate.
  assert (H3 : child_output c = pre ++ "(0x" ++ "80bb0007" ++ ")" ++ nl)
    by reflexivity.
  assert (H4 : contains pre "(0x" = false) by reflexivity.
  assert (H5 : all_hex "80bb0007" = true) by reflexivity.
  assert (H6 : "80bb0007" <> EmptyString) by discriminate.
  assert (H7 : size (child_output c) < size_modulus) by reflexivity.
  split; [repeat split; assumption|].
  destruct (vbm_popen_raw_win32_error_code c pre "80bb0007" nl
              H1 H2 H3 H4 H5 H6 H7) as (R & L).
  split; [exact R|]. apply L; [discriminate | reflexivity].
Defined.

(** ** The retry controller: attempts and sleeps *)

(** X3.  A call that does not retry launches the command once, never
    sleeps, and returns what the invoker returned for that one
    child. *)
Theorem vbm_popen_without_retry p arguments item log_error timeout w :
  let r := vbm_popen p arguments item log_error false timeout w in
  value_of r = value_of (vbm_popen_raw p arguments timeout w) /\
  trace (world_of r) = (trace w ++ [Exec (command_line arguments)])%list /\
  clock (world_of r) = clock (world_of (vbm_popen_raw p arguments timeout w)).
Proof.
  intros r. subst r. unfold vbm_popen.
  rewrite vbm_popen_loop_unfold, vbm_popen_raw_eq.
  pose proof (vbm_popen_raw_trace p arguments timeout w) as T.
  destruct (raw_result p _) as [retval output].
  set (w1 := snd (vbm_popen_raw _ _ _ w)) in *. cbv zeta.
  unfold value_of, world_of.
  destruct (retval =? 0) eqn:R; cbn [negb andb fst snd]; rewrite ?R;
    cbn [negb andb fst snd]; [auto|].
  destruct log_error; cbn [fst snd trace clock say]; auto.
Qed.

Lemma slept_app l1 l2 : slept (l1 ++ l2) = slept l1 + slept l2.
Proof.
  unfold slept. rewrite sleeps_app.
  induction (sleeps l1) as [|x l IH]; cbn [app fold_right]; lia.
Qed.

(** The case of a turn of the loop after which nothing follows. *)
Ltac one_launch T :=
  eexists [Exec _];
  cbn [snd launches sleeps List.length slept fold_right];
  split; [exact T|split; [nia|split; [constructor|reflexivity]]].

(** From the second attempt on, the sleeps still to come add up to
    less than the present interval times [2^(n+1) - 2], where [n]
    attempts may still follow; none is shorter than the interval, and
    each is followed by a launch. *)
Lemma vbm_popen_loop_sleeps p arguments retry_failures timeout :
  forall n fuel retry_count sleep_interval retry_notes w,
  1 <= retry_count -> retry_count + Z.of_nat n = 5 -> 0 <= sleep_interval ->
  exists l,
    trace (snd (vbm_popen_loop fuel p arguments retry_failures timeout
                  retry_count sleep_interval retry_notes w))
    = (trace w ++ l)%list /\
    slept l <= sleep_interval * (2 ^ (Z.of_nat n + 1) - 2) /\
    Forall (fun ms => sleep_interval <= ms) (sleeps l) /\
    launches l = S (List.length (sleeps l)).
Proof.
  assert (P : forall n : nat, 2 <= 2 ^ (Z.of_nat n + 1)).
  { intros n. rewrite Z.pow_add_r by lia.
    pose proof (Z.pow_pos_nonneg 2 (Z.of_nat n)). lia. }
  induction n as [|n IH]; intros fuel k s notes w Hk Hn Hs;
    [pose proof (P 0%nat) as Pn | pose proof (P n) as Pn; pose proof (P (S n))];
    rewrite vbm_popen_loop_unfold, vbm_popen_raw_eq;
    pose proof (vbm_popen_raw_trace p arguments timeout w) as T;
    destruct (raw_result p _) as [retval output];
    set (w1 := snd (vbm_popen_raw _ _ _ w)) in *;
    cbv zeta;
    (destruct (retval =? 0); [one_launch T|]);
    (destruct (negb retry_failures); [one_launch T|]);
    (destruct (k >=? 5) eqn:E; [one_launch T|]);
    rewrite Z.geb_leb in E; apply Z.leb_gt in E; [lia|].
  destruct fuel as [|fuel]; [one_launch T|].
  set (s' := if is_session_lock retval && negb (k =? 0) then s * 2 else s).
  assert (S' : s <= s' <= 2 * s)
    by (unfold s'; destruct (is_session_lock retval && negb (k =? 0)); lia).
  match goal with
  | |- context [vbm_popen_loop fuel p arguments ?rf timeout ?k' s' ?n' ?w2] =>
      destruct (IH fuel k' s' n' w2) as (l & T2 & B2 & F2 & L2); [lia|lia|lia|];
      exists (Exec (command_line arguments) :: Sleep s' :: l)
  end.
  rewrite T2. cbn [boinc_sleep trace advance emit]. rewrite T.
  rewrite <- !app_assoc. cbn [app launches sleeps List.length].
  split; [reflexivity|].
  replace (Z.of_nat (S n) + 1) with (Z.succ (Z.of_nat n + 1)) by lia.
  rewrite Z.pow_succ_r by lia.
  unfold slept in *. cbn [sleeps fold_right].
  split; [nia|]. split; [|lia].
  constructor; [lia|].
  eapply Forall_impl; [|exact F2]. cbv beta. intros; lia.
Qed.

(** X4.  Whatever the children answer, one call of [vbm_popen] sleeps at
    most 31 seconds in all (1 + 2 + 4 + 8 + 16), never less than one
    second at a time, and launches the command again after every
    sleep. *)
Theorem vbm_popen_sleep_budget p arguments item log_error retry_failures
    timeout w :
  let r := vbm_popen p arguments item log_error retry_failures timeout w in
  exists l,
    trace (world_of r) = (trace w ++ l)%list /\
    slept l <= 31000 /\
    Forall (fun ms => 1000 <= ms) (sleeps l) /\
    launches l = S (List.length (sleeps l)).
Proof.
  intros r.
  assert (L : exists l,
    trace (snd (vbm_popen_loop 5 p arguments retry_failures timeout 0 1000
                  EmptyString w)) = (trace w ++ l)%list /\
    slept l <= 31000 /\
    Forall (fun ms => 1000 <= ms) (sleeps l) /\
    launches l = S (List.length (sleeps l))).
  { rewrite vbm_popen_loop_unfold, vbm_popen_raw_eq.
    pose proof (vbm_popen_raw_trace p arguments timeout w) as T.
    destruct (raw_result p _) as [retval output].
    set (w1 := snd (vbm_popen_raw _ _ _ w)) in *. cbv zeta.
    replace (0 =? 0) with true by reflexivity.
    rewrite andb_false_r. cbn [Z.geb Z.compare].
    destruct (retval =? 0);
      [exists [Exec (command_line arguments)];
       cbn [snd launches sleeps List.length slept fold_right];
       split; [exact T|split; [lia|split; [constructor|reflexivity]]]|].
    destruct (negb retry_failures);
      [exists [Exec (command_line arguments)];
       cbn [snd launches sleeps List.length slept fold_right];
       split; [exact T|split; [lia|split; [constructor|reflexivity]]]|].
    match goal with
    | |- context [vbm_popen_loop 4 p arguments ?rf timeout ?k' ?s' ?n' ?w2] =>
        destruct (vbm_popen_loop_sleeps p arguments rf timeout 4%nat 4%nat
                    k' s' n' w2) as (l & T2 & B2 & F2 & L2); [lia|lia|lia|];
        exists (Exec (command_line arguments) :: Sleep 1000 :: l)
    end.
    rewrite T2. cbn [boinc_sleep trace advance emit]. rewrite T.
    rewrite <- !app_assoc. cbn [app launches sleeps List.length].
    split; [reflexivity|].
    unfold slept in *. cbn [sleeps fold_right].
    change (2 ^ (Z.of_nat 4 + 1) - 2) with 30 in B2.
    split; [lia|]. split; [|lia].
    constructor; [lia | exact F2]. }
  destruct L as (l & T & B & F & N). exists l.
  split; [|auto]. subst r. unfold vbm_popen, world_of.
  destruct (vbm_popen_loop 5 p arguments retry_failures timeout 0 1000
              EmptyString w) as [[[retval output] notes] w1].
  cbn [snd] in T.
  destruct (negb (retval =? 0) && log_error); cbn [snd trace say]; exact T.
Qed.

(** ** Line ends on Windows *)

Lemma contains_char_cons c x s :
  contains (String x s) (String c EmptyString) =
  (Ascii.eqb c x || contains s (String c EmptyString))%bool.
Proof.
  unfold contains. cbn [String.index String.prefix].
  destruct (ascii_dec c x) as [->|N].
  - rewrite Ascii.eqb_refl. destruct s; reflexivity.
  - replace (Ascii.eqb c x) with false
      by (symmetry; apply Ascii.eqb_neq; exact N).
    cbn [orb]. destruct (String.index 0 (String c EmptyString) s); reflexivity.
Qed.

Lemma contains_char_app c a b :
  contains (a ++ b) (String c EmptyString) =
  (contains a (String c EmptyString) || contains b (String c EmptyString))%bool.
Proof.
  induction a as [|x a IH]; [reflexivity|].
  cbn [append]. rewrite !contains_char_cons, IH. apply orb_assoc.
Qed.

Lemma remove_cr_clean s : contains (remove_cr s) (String CR EmptyString) = false.
Proof.
  induction s as [|x s IH]; [reflexivity|].
  cbn [remove_cr]. destruct (Ascii.eqb x CR) eqn:E; [exact IH|].
  rewrite contains_char_cons, IH, Ascii.eqb_sym, E. reflexivity.
Qed.

(** The notes that the loop of [vbm_popen] collects hold no carriage
    return. *)
Lemma vbm_popen_loop_notes_clean p arguments retry_failures timeout :
  forall fuel retry_count sleep_interval retry_notes w,
  contains retry_notes (String CR EmptyString) = false ->
  contains
    (snd (fst (vbm_popen_loop fuel p arguments retry_failures timeout
                 retry_count sleep_interval retry_notes w)))
    (String CR EmptyString) = false.
Proof.
  induction fuel as [|fuel IH]; intros k s notes w H;
    rewrite vbm_popen_loop_unfold;
    destruct (vbm_popen_raw p arguments timeout w) as [[retval output] w1];
    cbv zeta;
    assert (N : contains
              (if is_session_lock retval &&
                  negb (contains notes "Another VirtualBox management")
               then notes ++ lock_note else notes)
              (String CR EmptyString) = false)
      by (destruct (is_session_lock retval &&
                    negb (contains notes "Another VirtualBox management"));
          [rewrite contains_char_app, H; reflexivity | exact H]);
    destruct (retval =? 0); try exact H;
    destruct (negb retry_failures); try exact N;
    destruct (k >=? 5); try exact N.
  apply IH. exact N.
Qed.

(** X5.  On Windows the text that [vbm_popen] hands back holds no carriage
    return, whether the call succeeds or fails and whether or not the
    notes are added: every line of it ends with a line feed alone. *)
Theorem vbm_popen_win32_no_carriage_return arguments item log_error
    retry_failures timeout w :
  contains
    (output_of (vbm_popen Win32 arguments item log_error retry_failures
                  timeout w))
    (String CR EmptyString) = false.
Proof.
  unfold vbm_popen.
  pose proof (vbm_popen_loop_notes_clean Win32 arguments retry_failures timeout
                5%nat 0 1000 EmptyString w eq_refl) as N.
  destruct (vbm_popen_loop 5 Win32 arguments retry_failures timeout 0 1000
              EmptyString w) as [[[retval output] notes] w1].
  cbn [fst snd] in N. unfold output_of.
  destruct (negb (retval =? 0) && log_error); cbn [fst snd];
    [|apply remove_cr_clean].
  destruct (negb (notes =? EmptyString)%string); [|apply remove_cr_clean].
  rewrite !contains_char_app, remove_cr_clean, N. reflexivity.
Qed.

(** ** What a poll can change *)

Lemma power_state_eta vm :
  set_crashed (crashed vm) (set_suspended (suspended vm)
    (set_online (online vm) vm)) = vm.
Proof. destruct vm; reflexivity. Qed.

(** Whatever the token, [classify] writes the three power flags and
    nothing else, with one of the combinations of [poll]. *)
Lemma classify_object log_state vmstate vm w :
  exists o s c,
    object_of (classify log_state vmstate vm w) =
      set_crashed c (set_suspended s (set_online o vm)) /\
    (s = true -> o = true) /\ (c = true -> o = false).
Proof.
  unfold classify.
  repeat (match goal with
          | |- context [if (?a =? ?b)%string then _ else _] =>
              destruct (a =? b)%string
          end;
          [do 3 eexists; split; [reflexivity|split; intros H; auto; discriminate H]|]).
  exists false, false, false.
  split; [destruct log_state; reflexivity | split; intros H; discriminate H].
Qed.

(** X6.  A poll whose command fails, or whose output has no [VMState]
    entry, leaves the object as it was, with the flags of the poll
    before; any other poll changes the three power flags only, and
    sets neither [suspended] nor [crashed] against [online]. *)
Theorem poll_writes_power_flags host log_state vm w :
  let r := vbm_popen (host_platform host) (poll_command vm) "VM state"
             false false default_timeout w in
  let vm' := object_of (poll host log_state vm w) in
  (value_of r <> 0 \/ contains (output_of r) ("VMState=" ++ dq) = false ->
   vm' = vm) /\
  (vm' = vm \/
   exists o s c,
     vm' = set_crashed c (set_suspended s (set_online o vm)) /\
     (s = true -> o = true) /\ (c = true -> o = false)).
Proof.
  intros r vm'. subst vm'. rewrite poll_unfold. cbv zeta. fold r.
  unfold poll_observes. fold r. split.
  - intros [H|H].
    + apply Z.eqb_neq in H. rewrite H. reflexivity.
    + destruct (value_of r =? 0); [|reflexivity].
      unfold vmstate_token. rewrite (find_absent _ _ H). reflexivity.
  - destruct (value_of r =? 0); [|left; reflexivity].
    destruct (vmstate_token (output_of r)) as [t|]; [|left; reflexivity].
    right. apply classify_object.
Qed.

Lemma poll_writes_power_flags_witness :
  let vm := example_vm false in
  let w := new_World [] in
  let r := vbm_popen Posix (poll_command vm) "VM state" false false
             default_timeout w in
  (value_of r <> 0 \/ contains (output_of r) ("VMState=" ++ dq) = false) /\
  object_of (poll posix_host true vm w) = vm.
Proof.
  intros vm w r.
  assert (H : value_of r <> 0 \/
              contains (output_of r) ("VMState=" ++ dq) = false)
    by (left; vm_compute; discriminate).
  split; [exact H|].
  exact (proj1 (poll_writes_power_flags posix_host true vm w) H).
Defined.

(** ** The invariant crashed => not online *)

Section PollSafe.

Variable host : Host.
Variable P : VBOX_VM -> Prop.
Hypothesis HP : poll_safe P.
Hypothesis HS : forall b vm, P vm -> P (set_suspended b vm).
Hypothesis HC : config_blind P.

Lemma classify_poll_safe log_state vmstate :
  preserves P (classify log_state vmstate).
Proof.
  intros vm w H.
  destruct (classify_object log_state vmstate vm w) as (o & s & c & -> & A & B).
  apply HP; assumption.
Qed.

Hint Resolve classify_poll_safe : vbox.

Lemma poll_poll_safe log_state : preserves P (poll host log_state).
Proof. preserves_auto. Qed.

Hint Resolve poll_poll_safe : vbox.

Lemma start_wait_poll_safe fuel timeout :
  preserves P (start_wait host fuel timeout).
Proof.
  induction fuel as [|fuel IH]; cbn [start_wait]; preserves_auto; exact IH.
Qed.

Hint Resolve start_wait_poll_safe : vbox.

Lemma start_poll_safe : preserves P (start host).
Proof. preserves_auto. Qed.

Lemma stop_poll_safe : preserves P (stop host).
Proof. preserves_auto. Qed.

Lemma poweroff_poll_safe : preserves P (poweroff host).
Proof. preserves_auto. Qed.

Lemma pause_poll_safe : preserves P (pause host).
Proof. preserves_auto. apply HS. Qed.

Lemma resume_poll_safe : preserves P (resume host).
Proof. preserves_auto. apply HS. Qed.

Hint Resolve start_poll_safe stop_poll_safe poweroff_poll_safe
  pause_poll_safe resume_poll_safe : vbox.

Lemma createsnapshot_poll_safe elapsed_time :
  preserves P (createsnapshot host elapsed_time).
Proof. preserves_auto. Qed.

Lemma run_poll_safe elapsed_time : preserves P (run host elapsed_time).
Proof. preserves_auto. intros v Hv. apply (proj1 HC). exact Hv. Qed.

Lemma cleanup_poll_safe : preserves P (cleanup host).
Proof. preserves_auto. Qed.

(** One operation keeps a property that the branches of [poll] keep
    and that does not depend on [suspended] or on the configuration
    members. *)
Lemma perform_poll_safe op vm w : P vm -> P (fst (perform host op vm w)).
Proof.
  intros H. destruct op; cbn [perform fst].
  - apply poll_poll_safe. exact H.
  - apply start_poll_safe. exact H.
  - apply stop_poll_safe. exact H.
  - apply poweroff_poll_safe. exact H.
  - apply pause_poll_safe. exact H.
  - apply resume_poll_safe. exact H.
  - apply createsnapshot_poll_safe. exact H.
  - apply cleanupsnapshots_preserves. exact H.
  - apply restoresnapshot_preserves. exact H.
  - apply set_network_access_preserves; assumption.
  - apply register_vm_preserves; assumption.
  - apply deregister_vm_preserves. exact H.
  - apply deregister_stale_vm_preserves; assumption.
  - apply run_poll_safe. exact H.
  - apply cleanup_poll_safe. exact H.
Qed.

End PollSafe.

Lemma crash_invariant_poll_safe : poll_safe crash_invariant.
Proof. intros vm o s c _ H _. exact H. Qed.

Lemma crash_invariant_config : config_blind crash_invariant.
Proof. repeat split; intros vm v H; exact H. Qed.

(** X7.  Every operation of the supervisor, [pause] and [createsnapshot]
    included and whatever the commands answer, keeps the invariant
    crashed => not online: after any sequence of operations from a
    state that has it, no VM is marked both as crashed and as
    online. *)
Theorem crashed_implies_offline host ops : forall vm w,
  crash_invariant vm ->
  crash_invariant (fst (perform_all host ops vm w)).
Proof.
  induction ops as [|op ops IH]; intros vm w H; cbn [perform_all fst];
    [exact H|].
  apply IH.
  apply (perform_poll_safe host crash_invariant crash_invariant_poll_safe);
    [intros b v Hv; exact Hv | exact crash_invariant_config | exact H].
Qed.

Lemma crashed_implies_offline_witness :
  let w := new_World [exited 0 (vminfo "running") 100;
                      exited 0 EmptyString 100;
                      exited 0 (vminfo "aborted") 100] in
  let ops := [Poll false; Pause; Poll true] in
  crash_invariant new_VBOX_VM /\
  crash_invariant (fst (perform_all posix_host ops new_VBOX_VM w)).
Proof.
  intros w ops.
  assert (H : crash_invariant new_VBOX_VM) by (intros C; discriminate C).
  split; [exact H|].
  exact (crashed_implies_offline posix_host ops new_VBOX_VM w H).
Defined.

(** ** Stopping a VM that is running *)

Lemma stop_unfold host vm w :
  let command := "controlvm " ++ quoted (vm_name vm) ++ " savestate" in
  let r0 := vbm_popen (host_platform host) command "stop VM" true false
              default_timeout (say "Stopping VM." w) in
  let r1 := poll host false vm (world_of r0) in
  stop host vm w =
  if online vm then
    if negb (online (object_of r1))
    then (BOINC_SUCCESS, object_of r1,
          say "Successfully stopped VM." (world_of r1))
    else (ERR_EXEC, object_of r1,
          say "VM did not stop when requested." (world_of r1))
  else (0, vm, say "Stopping VM." w).
Proof.
  intros command r0 r1. subst command r0 r1.
  unfold stop, popen, bind, effect, this, call, ret, object_of, world_of.
  destruct (online vm); [|reflexivity].
  destruct (vbm_popen _ _ _ _ _ _ _) as [[retval output] w1]. cbn [fst snd].
  destruct (poll host false vm w1) as [[u vm2] w2]. cbn [fst snd].
  destruct (online vm2); reflexivity.
Qed.

Lemma poweroff_unfold host vm w :
  let command := "controlvm " ++ quoted (vm_name vm) ++ " poweroff" in
  let r0 := vbm_popen (host_platform host) command "poweroff VM" true false
              default_timeout (say "Powering off VM." w) in
  let r1 := poll host false vm (world_of r0) in
  poweroff host vm w =
  if online vm then
    if negb (online (object_of r1))
    then (BOINC_SUCCESS, object_of r1,
          say "Successfully powered off VM." (world_of r1))
    else (ERR_EXEC, object_of r1,
          say "VM did not power off when requested." (world_of r1))
  else (0, vm, say "Powering off VM." w).
Proof.
  intros command r0 r1. subst command r0 r1.
  unfold poweroff, popen, bind, effect, this, call, ret, object_of, world_of.
  destruct (online vm); [|reflexivity].
  destruct (vbm_popen _ _ _ _ _ _ _) as [[retval output] w1]. cbn [fst snd].
  destruct (poll host false vm w1) as [[u vm2] w2]. cbn [fst snd].
  destruct (online vm2); reflexivity.
Qed.

Lemma verdict_shape (vm1 : VBOX_VM) (w1 w2 : World) :
  let r := if negb (online vm1) then (BOINC_SUCCESS, vm1, w1)
           else (ERR_EXEC, vm1, w2) in
  (value_of r = 0 <-> online (object_of r) = false) /\
  (value_of r = 0 \/ value_of r = ERR_EXEC).
Proof.
  destruct (online vm1) eqn:O; cbn [negb]; cbv zeta;
    rewrite value_of_triple, object_of_triple, O; split; auto;
    split; intros H; try reflexivity; discriminate H.
Qed.

(** X8.  [stop] and [poweroff] return 0 exactly when they leave the object
    marked as not online, and [ERR_EXEC] otherwise: the return code of
    the command itself plays no part, so a command that failed on a
    VM that the poll then finds stopped is a success, and a poll that
    could not read the state is a failure. *)
Theorem stop_poweroff_verdict host vm w :
  (value_of (stop host vm w) = 0 <->
   online (object_of (stop host vm w)) = false) /\
  (value_of (stop host vm w) = 0 \/ value_of (stop host vm w) = ERR_EXEC) /\
  (value_of (poweroff host vm w) = 0 <->
   online (object_of (poweroff host vm w)) = false) /\
  (value_of (poweroff host vm w) = 0 \/
   value_of (poweroff host vm w) = ERR_EXEC).
Proof.
  assert (S : (value_of (stop host vm w) = 0 <->
               online (object_of (stop host vm w)) = false) /\
              (value_of (stop host vm w) = 0 \/
               value_of (stop host vm w) = ERR_EXEC)).
  { rewrite stop_unfold. cbv zeta. destruct (online vm) eqn:O.
    - apply verdict_shape.
    - rewrite value_of_triple, object_of_triple, O. tauto. }
  assert (Q : (value_of (poweroff host vm w) = 0 <->
               online (object_of (poweroff host vm w)) = false) /\
              (value_of (poweroff host vm w) = 0 \/
               value_of (poweroff host vm w) = ERR_EXEC)).
  { rewrite poweroff_unfold. cbv zeta. destruct (online vm) eqn:O.
    - apply verdict_shape.
    - rewrite value_of_triple, object_of_triple, O. tauto. }
  tauto.
Qed.

(** X9.  On a VM that is marked as online, [stop] and [poweroff] launch
    their command once, without any retry or sleep, then poll once,
    and launch nothing else; the name of the VM stays as it was. *)
Theorem stop_poweroff_when_online host vm w :
  online vm = true ->
  trace (world_of (stop host vm w)) =
    (trace w ++
     [Exec (command_line ("controlvm " ++ quoted (vm_name vm) ++ " savestate"));
      Exec (command_line (poll_command vm))])%list /\
  trace (world_of (poweroff host vm w)) =
    (trace w ++
     [Exec (command_line ("controlvm " ++ quoted (vm_name vm) ++ " poweroff"));
      Exec (command_line (poll_command vm))])%list /\
  vm_name (object_of (stop host vm w)) = vm_name vm /\
  vm_name (object_of (poweroff host vm w)) = vm_name vm.
Proof.
  intros O.
  assert (T : forall command item msg,
    let r0 := vbm_popen (host_platform host) command item true false
                default_timeout (say msg w) in
    let r1 := poll host false vm (world_of r0) in
    trace (world_of r1) =
      (trace w ++ [Exec (command_line command);
                   Exec (command_line (poll_command vm))])%list /\
    vm_name (object_of r1) = vm_name vm).
  { intros command item msg r0 r1.
    destruct (poll_trace host vm (world_of r0)) as (N & T & _).
    destruct (vbm_popen_gained (host_platform host) command item true false
                default_timeout (say msg w))
      as (l & m & (T0 & _) & L & _).
    rewrite (L eq_refl) in T0. cbn [trace say] in T0.
    split; [|exact N]. subst r1. rewrite T. unfold world_of at 1. subst r0.
    rewrite T0, <- app_assoc. reflexivity. }
  assert (V : forall (b : bool) (a1 a2 : Z) (v : VBOX_VM) m1 m2 w1,
    trace (world_of (if b then (a1, v, say m1 w1) else (a2, v, say m2 w1)))
      = trace w1 /\
    object_of (if b then (a1, v, say m1 w1) else (a2, v, say m2 w1)) = v)
    by (intros [] ? ? ? ? ? ?; split; reflexivity).
  split; [|split; [|split]].
  - rewrite stop_unfold. cbv zeta. rewrite O.
    rewrite (proj1 (V _ _ _ _ _ _ _)). apply T.
  - rewrite poweroff_unfold. cbv zeta. rewrite O.
    rewrite (proj1 (V _ _ _ _ _ _ _)). apply T.
  - rewrite stop_unfold. cbv zeta. rewrite O.
    rewrite (proj2 (V _ _ _ _ _ _ _)). apply T.
  - rewrite poweroff_unfold. cbv zeta. rewrite O.
    rewrite (proj2 (V _ _ _ _ _ _ _)). apply T.
Qed.

Lemma stop_poweroff_when_online_witness :
  let vm := set_online true (example_vm false) in
  let w := new_World [exited 0 EmptyString 100; exited 0 (vminfo "saved") 100] in
  online vm = true /\
  trace (world_of (stop posix_host vm w)) =
    (trace w ++
     [Exec (command_line ("controlvm " ++ quoted (vm_name vm) ++ " savestate"));
      Exec (command_line (poll_command vm))])%list.
Proof.
  intros vm w. split; [reflexivity|].
  exact (proj1 (stop_poweroff_when_online posix_host vm w eq_refl)).
Defined.

(** ** What the member functions return *)

Lemma returns_ret {A : Type} (P : VBOX_VM -> Prop) (Q : A -> VBOX_VM -> Prop)
    (a : A) :
  (forall vm, P vm -> Q a vm) -> returns P (ret a) Q.
Proof. intros H vm w HP. apply H. exact HP. Qed.

Lemma returns_bind {A B : Type} (P : VBOX_VM -> Prop)
    (R : A -> VBOX_VM -> Prop) (Q : B -> VBOX_VM -> Prop)
    (m : M A) (k : A -> M B) :
  returns P m R -> (forall a, returns (R a) (k a) Q) -> returns P (bind m k) Q.
Proof.
  intros Hm Hk vm w HP. specialize (Hm vm w HP).
  unfold bind, value_of, object_of in *.
  destruct (m vm w) as [[a vm1] w1]. apply (Hk a vm1 w1). exact Hm.
Qed.

Lemma returns_read {B : Type} (P : VBOX_VM -> Prop)
    (Q : B -> VBOX_VM -> Prop) (k : VBOX_VM -> M B) :
  (forall vm0, P vm0 -> returns (fun vm => vm = vm0) (k vm0) Q) ->
  returns P (bind this k) Q.
Proof. intros H vm w HP. exact (H vm HP vm w eq_refl). Qed.

Lemma returns_weaken {A : Type} (P P' : VBOX_VM -> Prop)
    (Q Q' : A -> VBOX_VM -> Prop) (m : M A) :
  returns P' m Q' -> (forall vm, P vm -> P' vm) ->
  (forall a vm, Q' a vm -> Q a vm) -> returns P m Q.
Proof. intros H HP HQ vm w Hvm. apply HQ, H, HP, Hvm. Qed.

(** A function that keeps the property [P] returns with it. *)
Lemma returns_preserves {A : Type} (P : VBOX_VM -> Prop) (m : M A) :
  preserves P m -> returns P m (fun _ vm => P vm).
Proof. intros H vm w HP. apply H. exact HP. Qed.

Lemma returns_assign vm0 f :
  returns (fun vm => vm = vm0) (assign f) (fun _ vm => vm = f vm0).
Proof. intros vm w ->. reflexivity. Qed.

(** [retval = m; if (retval) return retval;]: what follows is run
    only after a 0. *)
Lemma returns_check (P : VBOX_VM -> Prop) (R : Z -> VBOX_VM -> Prop)
    (Q : Z -> VBOX_VM -> Prop) (m : M Z) (k : M Z) :
  returns P m R ->
  returns (R 0) k Q ->
  (forall retval vm, retval <> 0 -> R retval vm -> Q retval vm) ->
  returns P (bind m (fun retval => if retval =? 0 then k else ret retval)) Q.
Proof.
  intros Hm Hk Hf. apply (returns_bind P R Q); [exact Hm|].
  intros retval. destruct (Z.eqb_spec retval 0) as [->|N]; [exact Hk|].
  apply returns_ret. intros vm. apply Hf. exact N.
Qed.

(** ** A run that succeeds *)

Lemma start_success host vm w :
  value_of (start host vm w) = 0 ->
  online (object_of (start host vm w)) = true.
Proof.
  rewrite start_unfold. cbv zeta.
  destruct (value_of (vbm_popen _ _ _ _ _ _ _) =? 0) eqn:V.
  - match goal with
    | |- context [online (object_of ?r)] =>
        destruct (online (object_of r)) eqn:O
    end; rewrite value_of_triple, object_of_triple; [auto | discriminate].
  - rewrite value_of_triple. intros H. rewrite H in V. discriminate V.
Qed.

(** The name under which the VM is run, and the fact that it is not
    registered only, do not depend on the power flags. *)
Lemma running_as_power_blind name :
  power_blind (fun vm => vm_name vm = name /\ vm_master_name vm = name /\
                         register_only vm = false).
Proof. intros vm b H. repeat split; apply H. Qed.

(** X10.  When [run] returns 0 the VM has been seen online by the last
    poll of [start], it is run under its master name, and the object
    was not set up for registration only. *)
Theorem run_success host elapsed_time vm w :
  value_of (run host elapsed_time vm w) = 0 ->
  let vm' := object_of (run host elapsed_time vm w) in
  online vm' = true /\
  vm_name vm' = vm_master_name vm' /\
  register_only vm' = false.
Proof.
  set (Q := fun (rc : Z) (v : VBOX_VM) =>
              rc = 0 ->
              online v = true /\ vm_name v = vm_master_name v /\
              register_only v = false).
  assert (H : returns (fun _ => True) (run host elapsed_time) Q).
  { unfold run.
    apply (returns_bind _ (fun _ _ => True)); [intros ? ? ?; exact I|].
    intros registered.
    apply (returns_check _ (fun _ _ => True));
      [intros ? ? ?; exact I | | intros rc v N _ Z; contradiction].
    apply returns_read. intros vm2 _.
    destruct (register_only vm2) eqn:RO;
      [apply returns_ret; intros ? _ Z; discriminate Z|].
    set (P := fun v : VBOX_VM =>
                vm_name v = vm_master_name vm2 /\
                vm_master_name v = vm_master_name vm2 /\
                register_only v = false).
    assert (S : power_safe P)
      by (apply power_blind_safe, running_as_power_blind).
    apply (returns_bind _ (fun _ v => P v)).
    { intros v w0 ->. repeat split; try reflexivity. exact RO. }
    intros _.
    apply (returns_bind _ (fun _ v => P v));
      [apply returns_preserves, poll_preserves; exact S|].
    intros _.
    apply returns_read. intros v4 P4.
    apply (returns_bind _ (fun _ v => P v)).
    { intros v w0 E. rewrite E. clear E v.
      assert (K : preserves P
                (if online v4 then poweroff host ;; ret tt else ret tt)).
      { destruct (online v4); [|apply preserves_ret].
        apply preserves_bind; [apply poweroff_preserves; exact S|].
        intros ?. apply preserves_ret. }
      apply K. exact P4. }
    intros _.
    apply (returns_bind _ (fun _ v => P v)).
    { apply returns_preserves.
      destruct (negb (elapsed_time =? 0)); [|apply preserves_ret].
      apply preserves_bind; [apply restoresnapshot_preserves|].
      intros ?. apply preserves_ret. }
    intros _.
    apply (returns_check _ (fun rc v => P v /\ (rc = 0 -> online v = true))).
    - intros v w0 Pv. split; [apply start_preserves; assumption|].
      apply start_success.
    - apply returns_ret. intros v ((A & B & C) & On) _.
      split; [apply On; reflexivity|]. split; [congruence | exact C].
    - intros rc v N _ Z. contradiction. }
  intros V. exact (H vm w I V).
Qed.

Lemma run_success_witness :
  let vm := example_vm false in
  let w := new_World [exited 0 (vminfo "poweroff") 100;
                      exited 0 (vminfo "poweroff") 100;
                      exited 0 EmptyString 2000;
                      exited 0 (vminfo "running") 100] in
  value_of (run posix_host 0 vm w) = 0 /\
  online (object_of (run posix_host 0 vm w)) = true /\
  vm_name (object_of (run posix_host 0 vm w)) =
    vm_master_name (object_of (run posix_host 0 vm w)) /\
  register_only (object_of (run posix_host 0 vm w)) = false.
Proof.
  intros vm w.
  assert (H : value_of (run posix_host 0 vm w) = 0) by (vm_compute; reflexivity).
  split; [exact H|].
  exact (run_success posix_host 0 vm w H).
Defined.
(** ** Taking a snapshot *)

Lemma popen_rc_eq host arguments item log_error retry_failures timeout vm w :
  popen_rc host arguments item log_error retry_failures timeout vm w =
  (value_of (vbm_popen (host_platform host) arguments item log_error
               retry_failures timeout w),
   vm,
   world_of (vbm_popen (host_platform host) arguments item log_error
               retry_failures timeout w)).
Proof.
  unfold popen_rc, popen, bind, call, ret, value_of, world_of.
  destruct (vbm_popen _ _ _ _ _ _ w) as [[retval output] w1]. reflexivity.
Qed.

(** [pause] and [resume] write [suspended] when their command
    succeeds and nothing when it fails. *)
Lemma pause_object host vm w :
  object_of (pause host vm w) =
  if value_of (pause host vm w) =? 0 then set_suspended true vm else vm.
Proof.
  unfold pause, reset_vm_process_priority, popen_default_rc, bind, this,
    effect, assign, ret.
  destruct (negb (vm_pid vm =? 0)); cbv beta iota; rewrite popen_rc_eq;
    cbv beta iota;
    match goal with
    | |- context [value_of ?r =? 0] => destruct (value_of r =? 0) eqn:V
    end; rewrite ?object_of_triple, ?value_of_triple, ?V; reflexivity.
Qed.

Lemma resume_object host vm w :
  object_of (resume host vm w) =
  if value_of (resume host vm w) =? 0 then set_suspended false vm else vm.
Proof.
  unfold resume, lower_vm_process_priority, popen_default_rc, bind, this,
    effect, assign, ret.
  destruct (negb (vm_pid vm =? 0)); cbv beta iota; rewrite popen_rc_eq;
    cbv beta iota;
    match goal with
    | |- context [value_of ?r =? 0] => destruct (value_of r =? 0) eqn:V
    end; rewrite ?object_of_triple, ?value_of_triple, ?V; reflexivity.
Qed.

(** X11.  [createsnapshot] returns what the command that takes the
    snapshot returned: a failure of [pause], of [resume] or of the
    removal of the stale snapshots is not reported.  The snapshot is
    named [boinc_] followed by [(int)elapsed_time] in decimal.  When
    the command fails, the function returns at once and the VM is not
    resumed: if [pause] had succeeded, the object is left with
    [suspended] set. *)
Theorem createsnapshot_verdict host elapsed_time vm w :
  let r1 := pause host vm (say "Creating new snapshot for VM." w) in
  let command := "snapshot " ++ quoted (vm_name vm) ++ " " ++
                 "take boinc_" ++
                 dec (int_of_double (Z.quot elapsed_time 1000)) in
  let r2 := vbm_popen (host_platform host) command "create new snapshot"
              true true 0 (world_of r1) in
  let r := createsnapshot host elapsed_time vm w in
  value_of r = value_of r2 /\
  (value_of r2 <> 0 ->
   object_of r = object_of r1 /\ world_of r = world_of r2 /\
   (value_of r1 = 0 -> suspended (object_of r) = true)).
Proof.
  intros r1 command r2 r.
  assert (N : vm_name (object_of r1) = vm_name vm).
  { apply (pause_preserves host (fun v => vm_name v = vm_name vm)
             (vm_name_power_blind (vm_name vm))). reflexivity. }
  pose proof (pause_object host vm (say "Creating new snapshot for VM." w))
    as O1. fold r1 in O1.
  subst r. unfold createsnapshot, bind, effect, this.
  fold r1. unfold value_of, object_of, world_of in *.
  destruct r1 as [[rc1 vm1] w1]. cbn [fst snd] in *.
  rewrite popen_rc_eq. rewrite N. fold command. fold r2.
  unfold value_of, world_of.
  destruct r2 as [[rc2 out2] w2]. cbn [fst snd].
  destruct (Z.eqb_spec rc2 0) as [Z|Z].
  - destruct (resume host vm1 w2) as [[rc3 vm3] w3].
    destruct (poll host false vm3 w3) as [[u4 vm4] w4].
    destruct (cleanupsnapshots host false vm4 w4) as [[rc5 vm5] w5].
    unfold ret. cbn [fst snd]. split; [congruence | contradiction].
  - unfold ret. cbn [fst snd]. split; [reflexivity|]. intros _.
    split; [reflexivity|]. split; [reflexivity|].
    intros ->. rewrite O1. reflexivity.
Qed.

Lemma createsnapshot_verdict_witness :
  let vm := set_online true (example_vm false) in
  let w := new_World [exited 0 EmptyString 100] in
  let r1 := pause posix_host vm (say "Creating new snapshot for VM." w) in
  let command := "snapshot " ++ quoted (vm_name vm) ++ " " ++
                 "take boinc_" ++ dec (int_of_double (Z.quot 60000 1000)) in
  let r2 := vbm_popen Posix command "create new snapshot" true true 0
              (world_of r1) in
  let r := createsnapshot posix_host 60000 vm w in
  (value_of r2 <> 0 /\ value_of r1 = 0) /\
  value_of r = value_of r2 /\
  suspended (object_of r) = true.
Proof.
  intros vm w r1 command r2 r.
  assert (H2 : value_of r2 <> 0) by (vm_compute; discriminate).
  assert (H1 : value_of r1 = 0) by (vm_compute; reflexivity).
  split; [split; assumption|].
  destruct (createsnapshot_verdict posix_host 60000 vm w) as (V & F).
  split; [exact V|].
  exact (proj2 (proj2 (F H2)) H1).
Defined.

(** ** Listing and deleting snapshots *)

Lemma popen_eq host arguments item log_error retry_failures timeout vm w :
  popen host arguments item log_error retry_failures timeout vm w =
  (fst (vbm_popen (host_platform host) arguments item log_error
          retry_failures timeout w),
   vm,
   world_of (vbm_popen (host_platform host) arguments item log_error
               retry_failures timeout w)).
Proof.
  unfold popen, call, world_of.
  destruct (vbm_popen _ _ _ _ _ _ w) as [[retval output] w1]. reflexivity.
Qed.

Lemma cleanupsnapshots_unfold host delete_active vm w :
  let command := "snapshot " ++ quoted (vm_name vm) ++ " " ++ "list " in
  let r0 := vbm_popen (host_platform host) command "enumerate snapshot(s)"
              default_log_error default_retry_failures default_timeout w in
  let loop :=
    cleanupsnapshots_loop host
      (String.length (output_of r0) + output_bound (world_of r0))
      delete_active (output_of r0) 0 (find (output_of r0) nl 0)
      vm (world_of r0) in
  cleanupsnapshots host delete_active vm w =
  if value_of r0 =? 0 then (0, object_of loop, world_of loop)
  else (value_of r0, vm, world_of r0).
Proof.
  intros command r0 loop. subst loop r0 command.
  unfold cleanupsnapshots, popen_default, bind, this, ask, ret.
  rewrite popen_eq. unfold value_of, output_of, object_of, world_of.
  destruct (vbm_popen _ _ _ _ _ _ w) as [[retval output] w1]. cbn [fst snd].
  destruct (retval =? 0); cbn [negb]; [|reflexivity].
  destruct (cleanupsnapshots_loop _ _ _ _ _ _ vm w1) as [[u vm2] w2].
  reflexivity.
Qed.

(** X12.  [cleanupsnapshots] deletes nothing, and launches nothing after
    the listing, when the listing fails, when it has no line end at
    all (a last line without line end is not looked at), when its
    first line says that the VM does not have any snapshots, or when
    that line carries the mark [*] of the active snapshot and
    [delete_active] is false.  It returns the error of the listing in
    the first case and 0 in the others. *)
Theorem cleanupsnapshots_nothing_to_delete host delete_active vm w :
  let command := "snapshot " ++ quoted (vm_name vm) ++ " " ++ "list " in
  let r0 := vbm_popen (host_platform host) command "enumerate snapshot(s)"
              default_log_error default_retry_failures default_timeout w in
  let output := output_of r0 in
  let line := substr output 0 (find output nl 0) in
  size output < size_modulus ->
  (value_of r0 <> 0 ->
   cleanupsnapshots host delete_active vm w = (value_of r0, vm, world_of r0)) /\
  (value_of r0 = 0 ->
   find output nl 0 = npos \/
   contains line "does not have any snapshots" = true \/
   (delete_active = false /\ contains line "*" = true) ->
   cleanupsnapshots host delete_active vm w = (0, vm, world_of r0)).
Proof.
  intros command r0 output line Hsize.
  rewrite cleanupsnapshots_unfold. cbv zeta. fold command. fold r0. fold output.
  split.
  - intros V. apply Z.eqb_neq in V. rewrite V. reflexivity.
  - intros V H. rewrite V. cbn [Z.eqb].
    rewrite cleanupsnapshots_loop_unfold.
    destruct (Z.eqb_spec (find output nl 0) npos) as [E|E]; [reflexivity|].
    destruct H as [H|H]; [contradiction|].
    assert (L : size_sub (find output nl 0) 0 = find output nl 0).
    { destruct (find_bound output nl 0) as [F|[F1 F2]]; [lia|contradiction|].
      change (size nl) with 1 in F2. rewrite size_sub_small; lia. }
    cbv zeta. rewrite L. fold line.
    destruct H as [H|[-> H]]; rewrite H; [reflexivity|].
    cbn [negb andb].
    destruct (contains line "does not have any snapshots"); reflexivity.
Qed.

Lemma cleanupsnapshots_nothing_to_delete_witness :
  let vm := example_vm false in
  let w := new_World [exited 0 ("This VM does not have any snapshots" ++ nl)
                        100] in
  let command := "snapshot " ++ quoted (vm_name vm) ++ " " ++ "list " in
  let r0 := vbm_popen Posix command "enumerate snapshot(s)"
              default_log_error default_retry_failures default_timeout w in
  let output := output_of r0 in
  let line := substr output 0 (find output nl 0) in
  (size output < size_modulus /\ value_of r0 = 0 /\
   contains line "does not have any snapshots" = true) /\
  cleanupsnapshots posix_host true vm w = (0, vm, world_of r0).
Proof.
  intros vm w command r0 output line.
  assert (H1 : size output < size_modulus) by (vm_compute; reflexivity).
  assert (H2 : value_of r0 = 0) by (vm_compute; reflexivity).
  assert (H3 : contains line "does not have any snapshots" = true)
    by (vm_compute; reflexivity).
  split; [repeat split; assumption|].
  exact (proj2 (cleanupsnapshots_nothing_to_delete posix_host true vm w H1) H2
           (or_intror (or_introl H3))).
Defined.

Lemma cleanupsnapshots_loop_extends host fuel :
  forall delete_active output eol_prev_pos eol_pos,
  extends (cleanupsnapshots_loop host fuel delete_active output eol_prev_pos
             eol_pos).
Proof.
  induction fuel as [|fuel IH]; intros; cbn [cleanupsnapshots_loop];
    extends_auto; apply IH.
Qed.

(** On a line that names a snapshot, [delete_listed] launches the
    command that deletes the snapshot of that name, once. *)
Lemma delete_listed_found host pre uuid post output vm w :
  contains pre "(UUID: " = false -> contains uuid ")" = false ->
  size (pre ++ "(UUID: " ++ uuid ++ ")" ++ post) < size_modulus ->
  trace (world_of (delete_listed host (pre ++ "(UUID: " ++ uuid ++ ")" ++ post)
                     output vm w)) =
  (trace w ++ [Exec (delete_snapshot_line (vm_name vm) uuid)])%list.
Proof.
  intros Hpre Hu Hsize.
  set (line := pre ++ "(UUID: " ++ uuid ++ ")" ++ post) in *.
  assert (F : find line "(UUID: " 0 = size pre)
    by (apply find_first; [discriminate | reflexivity | exact Hpre]).
  assert (E : line = (pre ++ "(UUID: ") ++ uuid ++ ")" ++ post)
    by (unfold line; rewrite append_assoc; reflexivity).
  assert (A : size (pre ++ "(UUID: ") = size pre + 7)
    by (rewrite size_append; reflexivity).
  assert (Sz : size line = size pre + 7 + size uuid + (1 + size post)).
  { rewrite E, !size_append. unfold size. cbn [String.length]. lia. }
  pose proof (size_nonneg pre). pose proof (size_nonneg uuid).
  pose proof (size_nonneg post).
  assert (F2 : find line ")" (size pre + 7) = size pre + 7 + size uuid).
  { rewrite E, <- A. apply find_from; [discriminate | reflexivity | exact Hu]. }
  unfold delete_listed. rewrite F.
  replace (size pre =? npos) with false
    by (symmetry; apply Z.eqb_neq; unfold npos; lia).
  cbn [negb]. cbv zeta.
  rewrite size_add_small by lia. rewrite F2.
  rewrite size_sub_small by lia.
  replace (size pre + 7 + size uuid - (size pre + 7)) with (size uuid) by lia.
  rewrite <- A.
  replace (substr line (size (pre ++ "(UUID: ")) (size uuid)) with uuid
    by (rewrite E; symmetry; apply substr_mid).
  unfold bind, effect, this. rewrite popen_eq. unfold ret, world_of.
  cbn [fst snd].
  match goal with
  | |- context [vbm_popen ?p ?a ?i ?le false ?t ?w0] =>
      destruct (vbm_popen_gained p a i le false t w0)
        as (l & m & (T & _) & L & _);
      rewrite (L eq_refl) in T;
      destruct (vbm_popen p a i le false t w0) as [[rv out] w1];
      cbn [fst snd] in *; rewrite T
  end.
  cbn [trace say]. unfold delete_snapshot_line, quoted.
  rewrite !append_assoc. reflexivity.
Qed.

(** X13.  When the first line of the listing names a snapshot, and does not
    stop the loop, the first command after the listing deletes the
    snapshot of that name. *)
Theorem cleanupsnapshots_deletes_first_listed host delete_active vm w
    pre uuid post rest :
  let command := "snapshot " ++ quoted (vm_name vm) ++ " " ++ "list " in
  let r0 := vbm_popen (host_platform host) command "enumerate snapshot(s)"
              default_log_error default_retry_failures default_timeout w in
  let line := pre ++ "(UUID: " ++ uuid ++ ")" ++ post in
  value_of r0 = 0 ->
  output_of r0 = line ++ nl ++ rest ->
  size (output_of r0) < size_modulus ->
  contains line nl = false ->
  contains line "does not have any snapshots" = false ->
  delete_active = true \/ contains line "*" = false ->
  contains pre "(UUID: " = false -> contains uuid ")" = false ->
  value_of (cleanupsnapshots host delete_active vm w) = 0 /\
  exists l,
    trace (world_of (cleanupsnapshots host delete_active vm w)) =
    (trace (world_of r0) ++
     Exec (delete_snapshot_line (vm_name vm) uuid) :: l)%list.
Proof.
  intros command r0 line V O Hsize Hnl Hnone Hact Hpre Hu.
  rewrite cleanupsnapshots_unfold. cbv zeta. fold command. fold r0.
  rewrite V. cbn [Z.eqb]. rewrite value_of_triple, world_of_triple.
  split; [reflexivity|].
  rewrite O in *.
  assert (Sz : size (line ++ nl ++ rest) = size line + (1 + size rest))
    by (rewrite !size_append; reflexivity).
  pose proof (size_nonneg line). pose proof (size_nonneg rest).
  assert (F : find (line ++ nl ++ rest) nl 0 = size line)
    by (apply find_first; [discriminate | reflexivity | exact Hnl]).
  rewrite F. rewrite cleanupsnapshots_loop_unfold.
  replace (size line =? npos) with false
    by (symmetry; apply Z.eqb_neq; unfold npos; lia).
  cbv zeta. rewrite size_sub_small by lia. rewrite Z.sub_0_r.
  change (substr (line ++ nl ++ rest) 0 (size line))
    with (substr (EmptyString ++ line ++ nl ++ rest) (size EmptyString)
            (size line)).
  rewrite substr_mid, Hnone.
  replace (negb delete_active && contains line "*") with false
    by (destruct Hact as [-> | ->];
        [reflexivity | rewrite andb_false_r; reflexivity]).
  unfold bind.
  assert (Hline : size line < size_modulus) by lia.
  pose proof (delete_listed_found host pre uuid post (line ++ nl ++ rest) vm
                (world_of r0) Hpre Hu Hline) as D.
  fold line in D. unfold world_of at 1 in D.
  destruct (delete_listed host line (line ++ nl ++ rest) vm (world_of r0))
    as [[output' vm1] w1].
  cbn [snd] in D. cbv zeta.
  match goal with
  | |- context [match ?n with O => ret tt | S fuel => @?k fuel end vm1 w1] =>
      assert (X : exists l,
                trace (world_of (match n with O => ret tt | S fuel => k fuel end
                                   vm1 w1)) = (trace w1 ++ l)%list)
  end.
  { match goal with
    | |- context [match ?n with O => _ | S _ => _ end] => destruct n
    end; [exists []; symmetry; apply app_nil_r|].
    apply cleanupsnapshots_loop_extends. }
  destruct X as (l & X). exists l. rewrite X, D, <- app_assoc. reflexivity.
Qed.

Lemma cleanupsnapshots_deletes_first_listed_witness :
  let vm := example_vm false in
  let w := new_World [exited 0 two_snapshots 100;
                      exited 0 ("0%...100%" ++ nl) 100] in
  let command := "snapshot " ++ quoted (vm_name vm) ++ " " ++ "list " in
  let r0 := vbm_popen Posix command "enumerate snapshot(s)"
              default_log_error default_retry_failures default_timeout w in
  let pre := "   Name: boinc_60 " in
  let uuid := "1751e9a6-49e7-4dcc-ab23-08428b665ddf" in
  let rest :=
    "      Name: boinc_120 (UUID: 92fa8b35-873a-4197-9d54-7b6b746b2c58)" ++ nl in
  let line := pre ++ "(UUID: " ++ uuid ++ ")" ++ EmptyString in
  (value_of r0 = 0 /\
   output_of r0 = line ++ nl ++ rest /\
   size (output_of r0) < size_modulus /\
   contains line nl = false /\
   contains line "does not have any snapshots" = false /\
   contains line "*" = false /\
   contains pre "(UUID: " = false /\ contains uuid ")" = false) /\
  value_of (cleanupsnapshots posix_host false vm w) = 0 /\
  exists l,
    trace (world_of (cleanupsnapshots posix_host false vm w)) =
    (trace (world_of r0) ++
     Exec (delete_snapshot_line (vm_name vm) uuid) :: l)%list.
Proof.
  intros vm w command r0 pre uuid rest line.
  assert (H1 : value_of r0 = 0) by (vm_compute; reflexivity).
  assert (H2 : output_of r0 = line ++ nl ++ rest) by (vm_compute; reflexivity).
  assert (H3 : size (output_of r0) < size_modulus) by (vm_compute; reflexivity).
  assert (H4 : contains line nl = false) by (vm_compute; reflexivity).
  assert (H5 : contains line "does not have any snapshots" = false)
    by (vm_compute; reflexivity).
  assert (H6 : contains line "*" = false) by (vm_compute; reflexivity).
  assert (H7 : contains pre "(UUID: " = false) by (vm_compute; reflexivity).
  assert (H8 : contains uuid ")" = false) by (vm_compute; reflexivity).
  split; [repeat split; assumption|].
  exact (cleanupsnapshots_deletes_first_listed posix_host false vm w
           pre uuid EmptyString rest H1 H2 H3 H4 H5 (or_intror H6) H7 H8).
Defined.

(** ** Deregistration *)

(** The return value of a function that ends with [return 0] after
    statements whose results it does not look at. *)
Ltac returns_zero :=
  repeat (apply (returns_bind _ (fun _ _ => True));
          [intros ? ? ?; exact I | intros ?]);
  apply returns_ret; intros ? _; reflexivity.

Lemma deregister_vm_returns host delete_media :
  returns (fun _ => True) (deregister_vm host delete_media)
    (fun rc _ => rc = 0).
Proof. unfold deregister_vm. returns_zero. Qed.

Lemma deregister_stale_vm_unfold host vm w :
  let command :=
    "showhdinfo " ++
    quoted (host_cwd host ++ "/" ++ image_filename vm) ++ " " in
  let r0 := vbm_popen (host_platform host) command "get HDD info"
              default_log_error default_retry_failures default_timeout w in
  let output := output_of r0 in
  let uuid_start := find output "(UUID: " 0 in
  let closemedium :=
    (popen host ("closemedium disk " ++
                 quoted (host_cwd host ++ "/" ++ image_filename vm) ++ " ")
       "remove virtual disk" false default_retry_failures default_timeout ;;
     (if enable_floppyio vm then
        popen host ("closemedium floppy " ++
                    quoted (host_cwd host ++ "/" ++
                            floppy_image_filename vm) ++ " ")
          "remove virtual floppy disk" false default_retry_failures
          default_timeout ;;
        ret tt
      else ret tt) ;;
     ret 0)%vbox in
  deregister_stale_vm host vm w =
  if value_of r0 =? 0 then
    if uuid_start =? npos then closemedium vm (world_of r0)
    else
      deregister_vm host false
        (set_vm_name
           (substr output (size_add uuid_start 7)
              (size_sub (find output ")" (size_add uuid_start 7))
                 (size_add uuid_start 7))) vm)
        (world_of r0)
  else (value_of r0, vm, world_of r0).
Proof.
  intros command r0 output uuid_start closemedium.
  subst closemedium uuid_start output r0 command.
  unfold deregister_stale_vm, popen_default. unfold bind at 1 2. unfold this at 1.
  rewrite popen_eq. unfold value_of, output_of, world_of.
  destruct (vbm_popen _ _ _ _ _ _ w) as [[retval output] w1]. cbn [fst snd].
  destruct (retval =? 0); cbn [negb]; [|reflexivity].
  destruct (find output "(UUID: " 0 =? npos); cbn [negb]; reflexivity.
Qed.

(** X14.  Deregistration does not report the failure of a command that
    removes something: [deregister_vm] returns 0 whatever its commands
    answer and leaves the object as it was, and [deregister_stale_vm]
    returns 0 unless the command that asks for the disk information
    fails, in which case it returns the code of that command and does
    nothing else. *)
Theorem deregistration_swallows_errors host delete_media vm w :
  let command :=
    "showhdinfo " ++
    quoted (host_cwd host ++ "/" ++ image_filename vm) ++ " " in
  let r0 := vbm_popen (host_platform host) command "get HDD info"
              default_log_error default_retry_failures default_timeout w in
  (value_of (deregister_vm host delete_media vm w) = 0 /\
   object_of (deregister_vm host delete_media vm w) = vm) /\
  value_of (deregister_stale_vm host vm w) = value_of r0 /\
  (value_of r0 <> 0 ->
   deregister_stale_vm host vm w = (value_of r0, vm, world_of r0)).
Proof.
  intros command r0. split; [split|].
  - exact (deregister_vm_returns host delete_media vm w I).
  - exact (deregister_vm_preserves host (fun v => v = vm) delete_media vm w
             eq_refl).
  - rewrite deregister_stale_vm_unfold. cbv zeta. fold command. fold r0.
    destruct (Z.eqb_spec (value_of r0) 0) as [Z|Z].
    + split; [|contradiction]. rewrite Z.
      destruct (find (output_of r0) "(UUID: " 0 =? npos).
      * match goal with
        | |- value_of (?m vm ?w0) = 0 =>
            assert (R : returns (fun _ => True) m (fun rc _ => rc = 0))
              by returns_zero;
            exact (R vm w0 I)
        end.
      * apply (deregister_vm_returns host false _ _ I).
    + split; [reflexivity|]. intros _. reflexivity.
Qed.

Lemma deregistration_swallows_errors_witness :
  let vm := example_vm false in
  let w := new_World [] in
  let command :=
    "showhdinfo " ++
    quoted (host_cwd posix_host ++ "/" ++ image_filename vm) ++ " " in
  let r0 := vbm_popen Posix command "get HDD info"
              default_log_error default_retry_failures default_timeout w in
  value_of r0 <> 0 /\
  deregister_stale_vm posix_host vm w = (value_of r0, vm, world_of r0).
Proof.
  intros vm w command r0.
  assert (H : value_of r0 <> 0) by (vm_compute; discriminate).
  split; [exact H|].
  exact (proj2 (proj2 (deregistration_swallows_errors posix_host true vm w)) H).
Defined.

(** X15.  When the disk information names the VM that uses the disk, the
    stale VM is deregistered under that name, without deleting the
    media; the name stays in [vm_name]. *)
Theorem deregister_stale_vm_by_uuid host vm w pre uuid post :
  let command :=
    "showhdinfo " ++
    quoted (host_cwd host ++ "/" ++ image_filename vm) ++ " " in
  let r0 := vbm_popen (host_platform host) command "get HDD info"
              default_log_error default_retry_failures default_timeout w in
  value_of r0 = 0 ->
  output_of r0 = pre ++ "(UUID: " ++ uuid ++ ")" ++ post ->
  size (output_of r0) < size_modulus ->
  contains pre "(UUID: " = false -> contains uuid ")" = false ->
  deregister_stale_vm host vm w =
    deregister_vm host false (set_vm_name uuid vm) (world_of r0) /\
  vm_name (object_of (deregister_stale_vm host vm w)) = uuid.
Proof.
  intros command r0 V O Hsize Hpre Hu.
  assert (D : deregister_stale_vm host vm w =
              deregister_vm host false (set_vm_name uuid vm) (world_of r0)).
  { rewrite deregister_stale_vm_unfold. cbv zeta. fold command. fold r0.
    rewrite V. cbn [Z.eqb]. rewrite O in *.
    set (out := pre ++ "(UUID: " ++ uuid ++ ")" ++ post) in *.
    assert (F : find out "(UUID: " 0 = size pre)
      by (apply find_first; [discriminate | reflexivity | exact Hpre]).
    assert (E : out = (pre ++ "(UUID: ") ++ uuid ++ ")" ++ post)
      by (unfold out; rewrite append_assoc; reflexivity).
    assert (A : size (pre ++ "(UUID: ") = size pre + 7)
      by (rewrite size_append; reflexivity).
    assert (Sz : size out = size pre + 7 + size uuid + (1 + size post)).
    { rewrite E, !size_append. unfold size. cbn [String.length]. lia. }
    pose proof (size_nonneg pre). pose proof (size_nonneg uuid).
    pose proof (size_nonneg post).
    assert (F2 : find out ")" (size pre + 7) = size pre + 7 + size uuid).
    { rewrite E, <- A. apply find_from; [discriminate | reflexivity | exact Hu]. }
    rewrite F.
    replace (size pre =? npos) with false
      by (symmetry; apply Z.eqb_neq; unfold npos; lia).
    rewrite size_add_small by lia. rewrite F2.
    rewrite size_sub_small by lia.
    replace (size pre + 7 + size uuid - (size pre + 7)) with (size uuid) by lia.
    rewrite <- A.
    replace (substr out (size (pre ++ "(UUID: ")) (size uuid)) with uuid
      by (rewrite E; symmetry; apply substr_mid).
    reflexivity. }
  split; [exact D|]. rewrite D.
  exact (deregister_vm_preserves host (fun v => vm_name v = uuid) false
           (set_vm_name uuid vm) (world_of r0) eq_refl).
Qed.

Lemma deregister_stale_vm_by_uuid_witness :
  let vm := example_vm false in
  let pre := "UUID: c119acaf" ++ nl ++ "In use by VMs:        test2 " in
  let uuid := "000ab2be-1254-4c6a-9fdc-1536a478f601" in
  let w := new_World [exited 0 (pre ++ "(UUID: " ++ uuid ++ ")" ++ nl) 100] in
  let command :=
    "showhdinfo " ++
    quoted (host_cwd posix_host ++ "/" ++ image_filename vm) ++ " " in
  let r0 := vbm_popen Posix command "get HDD info"
              default_log_error default_retry_failures default_timeout w in
  (value_of r0 = 0 /\
   output_of r0 = pre ++ "(UUID: " ++ uuid ++ ")" ++ nl /\
   size (output_of r0) < size_modulus /\
   contains pre "(UUID: " = false /\ contains uuid ")" = false) /\
  deregister_stale_vm posix_host vm w =
    deregister_vm posix_host false (set_vm_name uuid vm) (world_of r0) /\
  vm_name (object_of (deregister_stale_vm posix_host vm w)) = uuid.
Proof.
  intros vm pre uuid w command r0.
  assert (H1 : value_of r0 = 0) by (vm_compute; reflexivity).
  assert (H2 : output_of r0 = pre ++ "(UUID: " ++ uuid ++ ")" ++ nl)
    by (vm_compute; reflexivity).
  assert (H3 : size (output_of r0) < size_modulus) by (vm_compute; reflexivity).
  assert (H4 : contains pre "(UUID: " = false) by (vm_compute; reflexivity).
  assert (H5 : contains uuid ")" = false) by (vm_compute; reflexivity).
  split; [repeat split; assumption|].
  exact (deregister_stale_vm_by_uuid posix_host vm w pre uuid nl
           H1 H2 H3 H4 H5).
Defined.

(** ** The floppy channel *)

Lemma bind_eq {A B : Type} (m : M A) (k : A -> M B) vm w :
  bind m k vm w =
  k (value_of (m vm w)) (object_of (m vm w)) (world_of (m vm w)).
Proof.
  unfold bind, value_of, object_of, world_of.
  destruct (m vm w) as [[a vm1] w1]. reflexivity.
Qed.

(** The members that tell whether the floppy channel can be used do
    not depend on the power flags. *)
Lemma pFloppy_power_blind b : power_blind (fun vm => pFloppy vm = b).
Proof. intros vm x H. repeat split; exact H. Qed.

Lemma enable_floppyio_config b :
  config_blind (fun vm => enable_floppyio vm = b).
Proof. repeat split; intros vm v H; exact H. Qed.

Ltac same_member :=
  let v := fresh "v" in let Hv := fresh "Hv" in intros v Hv; exact Hv.

(** X16.  After a registration that succeeded with [enable_floppyio] set,
    the floppy channel is allocated, and [read_floppy] and
    [write_floppy] return 0; [read_floppy] hands over what the channel
    received and [write_floppy] passes its argument on. *)
Theorem register_vm_floppy_channel host vm w :
  enable_floppyio vm = true ->
  value_of (register_vm host vm w) = 0 ->
  let vm' := object_of (register_vm host vm w) in
  pFloppy vm' = true /\
  forall received data w',
    value_of (read_floppy received data vm' w') = (0, received) /\
    value_of (write_floppy data vm' w') = (0, Some data).
Proof.
  intros En V vm'.
  assert (C : config_blind (fun v => enable_floppyio v = true))
    by apply enable_floppyio_config.
  assert (H : returns (fun v => enable_floppyio v = true) (register_vm host)
                (fun rc v => rc = 0 ->
                             enable_floppyio v = true /\ pFloppy v = true)).
  { set (P := fun v : VBOX_VM => pFloppy v = true).
    unfold register_vm.
    apply (returns_check _ (fun _ v => enable_floppyio v = true));
      [apply returns_preserves; preserves_auto; same_member
      | | intros rc v N _ Z; contradiction].
    apply (returns_check _ (fun _ v => enable_floppyio v = true));
      [apply returns_preserves; preserves_auto
      | | intros rc v N _ Z; contradiction].
    unfold register_vm_devices.
    apply returns_read. intros vm0 En0. rewrite En0.
    apply (returns_bind _ (fun _ v => v = vm0));
      [apply returns_preserves; preserves_auto|]. intros _.
    apply (returns_check _ (fun _ v => v = vm0));
      [apply returns_preserves; preserves_auto
      | | intros rc v N _ Z; contradiction].
    apply (returns_check _ (fun _ v => v = vm0));
      [apply returns_preserves; preserves_auto
      | | intros rc v N _ Z; contradiction].
    apply (returns_bind _ (fun _ v => v = vm0));
      [apply returns_preserves; preserves_auto|]. intros _.
    apply (returns_check _ (fun _ v => v = vm0));
      [apply returns_preserves; preserves_auto
      | | intros rc v N _ Z; contradiction].
    apply (returns_check _ (fun _ v => enable_floppyio v = true /\ P v)).
    { apply (returns_bind _ (fun _ v => enable_floppyio v = true /\ P v)).
      - intros v w0 ->. split; [exact En0 | reflexivity].
      - intros _. apply returns_preserves. preserves_auto. }
    2: intros rc v N _ Z; contradiction.
    assert (K : forall (m : M Z),
              preserves (fun v => enable_floppyio v = true /\ P v) m ->
              returns (fun v => enable_floppyio v = true /\ P v) m
                (fun rc v => rc = 0 -> enable_floppyio v = true /\ pFloppy v = true)).
    { intros m Hm v w0 Hv _. exact (Hm v w0 Hv). }
    apply K. preserves_auto; same_member. }
  destruct (H vm w En V) as (E' & F'). fold vm' in E', F'.
  split; [exact F'|]. intros received data w'.
  unfold read_floppy, write_floppy, bind, this, ret, value_of.
  rewrite E', F'. split; reflexivity.
Qed.

Lemma register_vm_floppy_channel_witness :
  let vm := floppy_vm in
  let w := new_World (all_succeed 40) in
  (enable_floppyio vm = true /\ value_of (register_vm posix_host vm w) = 0) /\
  pFloppy (object_of (register_vm posix_host vm w)) = true.
Proof.
  intros vm w.
  assert (H1 : enable_floppyio vm = true) by reflexivity.
  assert (H2 : value_of (register_vm posix_host vm w) = 0)
    by (vm_compute; reflexivity).
  split; [split; assumption|].
  exact (proj1 (register_vm_floppy_channel posix_host vm w H1 H2)).
Defined.

(** X17.  [run] allocates the floppy channel only where it registers the
    VM: when the VM is found registered already, the channel is left
    as it was, so on an object that comes from the constructor
    [read_floppy] and [write_floppy] go on returning 1 after [run],
    even with [enable_floppyio] set. *)
Theorem run_registered_keeps_floppy host elapsed_time vm w :
  value_of (is_registered host vm w) = true ->
  let vm' := object_of (run host elapsed_time vm w) in
  pFloppy vm' = pFloppy vm /\
  (pFloppy vm = false ->
   forall received data w',
     value_of (read_floppy received data vm' w') = (1, data) /\
     value_of (write_floppy data vm' w') = (1, None)).
Proof.
  intros R vm'.
  set (P := fun v : VBOX_VM => pFloppy v = pFloppy vm).
  assert (S : power_safe P)
    by (apply power_blind_safe, pFloppy_power_blind).
  assert (F : pFloppy vm' = pFloppy vm).
  { subst vm'. unfold run. rewrite bind_eq, R. cbn [negb].
    pose proof (is_registered_preserves host P vm w eq_refl) as P1.
    revert P1.
    generalize (object_of (is_registered host vm w)),
               (world_of (is_registered host vm w)).
    intros vm1 w1 P1.
    match goal with
    | |- pFloppy (object_of (?m vm1 w1)) = _ =>
        assert (K : preserves P m)
    end.
    { preserves_auto. same_member. }
    exact (K vm1 w1 P1). }
  split; [exact F|]. intros N received data w'.
  unfold read_floppy, write_floppy, bind, this, ret, value_of.
  rewrite F, N, andb_false_r. split; reflexivity.
Qed.

Lemma run_registered_keeps_floppy_witness :
  let vm := example_vm false in
  let w := new_World [exited 0 (vminfo "poweroff") 100;
                      exited 0 (vminfo "poweroff") 100;
                      exited 0 EmptyString 2000;
                      exited 0 (vminfo "running") 100] in
  value_of (is_registered posix_host vm w) = true /\
  pFloppy (object_of (run posix_host 0 vm w)) = pFloppy vm.
Proof.
  intros vm w.
  assert (H : value_of (is_registered posix_host vm w) = true)
    by (vm_compute; reflexivity).
  split; [exact H|].
  exact (proj1 (run_registered_keeps_floppy posix_host 0 vm w H)).
Defined.

(** ** Is the hypervisor ready? *)

Lemma popen_default_eq host arguments item vm w :
  popen_default host arguments item vm w =
  (fst (vbm_popen (host_platform host) arguments item default_log_error
          default_retry_failures default_timeout w),
   vm,
   world_of (vbm_popen (host_platform host) arguments item default_log_error
               default_retry_failures default_timeout w)).
Proof. unfold popen_default. apply popen_eq. Qed.

(** X18.  [is_system_ready] answers "not ready" exactly when the probe
    command succeeded and its output lacks [Processor count:] or
    holds the warning about the kernel module; in particular a probe
    that could not be run at all leaves the answer "ready".  The
    message is written only with the answer "not ready", and the
    warning about the kernel module takes precedence.  The object is
    not changed. *)
Theorem is_system_ready_verdict host message vm w :
  let r0 := vbm_popen (host_platform host) "list hostinfo " "host info"
              default_log_error default_retry_failures default_timeout w in
  let warning := "WARNING: The vboxdrv kernel module is not loaded." in
  let r := is_system_ready host message vm w in
  (fst (value_of r) = false <->
   value_of r0 = 0 /\
   (contains (output_of r0) "Processor count:" = false \/
    contains (output_of r0) warning = true)) /\
  (fst (value_of r) = true -> snd (value_of r) = message) /\
  (fst (value_of r) = false ->
   snd (value_of r) =
     if contains (output_of r0) warning
     then "Please update/recompile VirtualBox kernel drivers."
     else "Communication with VM Hypervisor failed.") /\
  object_of r = vm /\ world_of r = world_of r0.
Proof.
  intros r0 warning r. subst r r0. unfold is_system_ready.
  rewrite bind_eq, popen_default_eq.
  unfold value_of, output_of, object_of, world_of.
  destruct (vbm_popen _ _ _ _ _ _ w) as [[retval output] w1]. cbn [fst snd].
  fold warning.
  destruct (Z.eqb_spec retval 0) as [Z|Z].
  - destruct (contains output "Processor count:");
      destruct (contains output warning); cbn [negb];
      unfold ret; cbn [fst snd];
      (split; [split; [intros H; try discriminate H; auto
                      | intros (_ & [H|H]); try discriminate H; reflexivity]|]);
      (split; [intros H; try discriminate H; reflexivity|]);
      (split; [intros H; try discriminate H; reflexivity|]);
      split; reflexivity.
  - unfold ret; cbn [fst snd].
    split; [split; [discriminate | intros (H & _); contradiction]|].
    split; [reflexivity|]. split; [discriminate|]. split; reflexivity.
Qed.

(** ** Settings *)

(** [sprintf("%d")] writes different numbers differently. *)
Lemma dec_injective n m : dec n = dec m -> n = m.
Proof.
  unfold dec. intros H.
  assert (E : Some (Z.to_int n) = Some (Z.to_int m))
    by (rewrite <- !NilEmpty.isi, H; reflexivity).
  injection E as E.
  rewrite <- (DecimalZ.of_to n), <- (DecimalZ.of_to m), E. reflexivity.
Qed.

(** X19.  [set_cpu_usage] and [set_network_usage] pass the number that they
    are given on to the command line as it is, in decimal and without
    any check of its range, so that different numbers give different
    commands; they return what the command returned and leave the
    object as it was. *)
Theorem set_usage_passes_number host n vm w :
  let cpu := "controlvm " ++ quoted (vm_name vm) ++ " " ++
             "cpuexecutioncap " ++ dec n ++ " " in
  let net := "modifyvm " ++ quoted (vm_name vm) ++ " " ++
             "--nicspeed1 " ++ dec n ++ " " in
  let notice := "Setting cpu throttle for VM. (" ++ dec n ++ "%)" in
  let r1 := vbm_popen (host_platform host) cpu "CPU throttle"
              default_log_error default_retry_failures default_timeout
              (say notice w) in
  let r2 := vbm_popen (host_platform host) net "network throttle"
              default_log_error default_retry_failures default_timeout
              (say "Setting network throttle for VM." w) in
  set_cpu_usage host n vm w = (value_of r1, vm, world_of r1) /\
  set_network_usage host n vm w = (value_of r2, vm, world_of r2) /\
  (forall m, dec m = dec n <-> m = n).
Proof.
  intros cpu net notice r1 r2.
  assert (D : forall m, dec m = dec n <-> m = n)
    by (intros m; split; [apply dec_injective | intros ->; reflexivity]).
  revert D. generalize (forall m, dec m = dec n <-> m = n). intros D HD.
  cut (set_cpu_usage host n vm w = (value_of r1, vm, world_of r1) /\
       set_network_usage host n vm w = (value_of r2, vm, world_of r2));
    [tauto|].
  unfold set_cpu_usage, set_network_usage, popen_default_rc, bind, effect, this.
  rewrite !popen_rc_eq. fold cpu net notice r1 r2.
  destruct (Z.eqb_spec (value_of r1) 0) as [Z1|_];
    destruct (Z.eqb_spec (value_of r2) 0) as [Z2|_];
    unfold ret; rewrite ?Z1, ?Z2; split; reflexivity.
Qed.

(** X20.  [set_network_access] records the new state of the network in
    [network_suspended] before it launches the command: the flag
    tells the state that was asked for even when the command failed
    and the cable of the VM was left as it was. *)
Theorem set_network_access_records_first host (enabled : bool) vm w :
  let command := "modifyvm " ++ quoted (vm_name vm) ++ " " ++
                 (if enabled then "--cableconnected1 on "
                  else "--cableconnected1 off ") in
  let r0 := vbm_popen (host_platform host) command
              (if enabled then "enable network" else "disable network")
              default_log_error default_retry_failures default_timeout
              (say (if enabled then "Enabling network access for VM."
                    else "Disabling network access for VM.") w) in
  set_network_access host enabled vm w =
    (value_of r0, set_network_suspended (negb enabled) vm, world_of r0).
Proof.
  intros command r0. subst r0 command.
  unfold set_network_access, popen_default_rc, bind, assign, effect, this.
  destruct enabled; rewrite popen_rc_eq;
    cbn [vm_name set_network_suspended];
    match goal with
    | |- context [value_of ?r =? 0] =>
        destruct (Z.eqb_spec (value_of r) 0) as [Z|_]
    end; unfold ret; rewrite ?Z; reflexivity.
Qed.

(** ** Pausing and resuming *)

(** X21.  [pause] gives the process of the VM its normal priority back and
    [resume] lowers it, when the process is known; both do so before
    they launch their command, and whether or not the command
    succeeds.  [suspended] is written only after a command that
    succeeded; after one that failed the object is as it was. *)
Theorem pause_resume_effect host vm w :
  let priority idle :=
    if vm_pid vm =? 0 then [] else [SetPriority (vm_pid vm) idle] in
  (exists l,
     trace (world_of (pause host vm w)) =
     (trace w ++ priority false ++
      Exec (command_line ("controlvm " ++ quoted (vm_name vm) ++ " pause"))
      :: l)%list) /\
  (exists l,
     trace (world_of (resume host vm w)) =
     (trace w ++ priority true ++
      Exec (command_line ("controlvm " ++ quoted (vm_name vm) ++ " resume"))
      :: l)%list) /\
  object_of (pause host vm w) =
    (if value_of (pause host vm w) =? 0 then set_suspended true vm else vm) /\
  object_of (resume host vm w) =
    (if value_of (resume host vm w) =? 0 then set_suspended false vm else vm).
Proof.
  intros priority.
  split; [|split; [|split; [apply pause_object | apply resume_object]]].
  - unfold pause, reset_vm_process_priority, popen_default_rc, bind, this,
      effect, assign, ret.
    subst priority. cbv beta.
    destruct (vm_pid vm =? 0); cbn [negb]; cbv beta iota;
      rewrite popen_rc_eq;
      match goal with
      | |- context [vbm_popen ?p ?a ?i ?le ?rf ?t ?w0] =>
          destruct (vbm_popen_gained p a i le rf t w0)
            as (l & m & (T & _) & _);
          exists l;
          destruct (value_of (vbm_popen p a i le rf t w0) =? 0);
          rewrite world_of_triple; unfold world_of; rewrite T
      end; cbn [trace emit app]; rewrite <- ?app_assoc; reflexivity.
  - unfold resume, lower_vm_process_priority, popen_default_rc, bind, this,
      effect, assign, ret.
    subst priority. cbv beta.
    destruct (vm_pid vm =? 0); cbn [negb]; cbv beta iota;
      rewrite popen_rc_eq;
      match goal with
      | |- context [vbm_popen ?p ?a ?i ?le ?rf ?t ?w0] =>
          destruct (vbm_popen_gained p a i le rf t w0)
            as (l & m & (T & _) & _);
          exists l;
          destruct (value_of (vbm_popen p a i le rf t w0) =? 0);
          rewrite world_of_triple; unfold world_of; rewrite T
      end; cbn [trace emit app]; rewrite <- ?app_assoc; reflexivity.
Qed.

(** ** The log of the VM *)

Lemma substring_all s : String.substring 0 (String.length s) s = s.
Proof. induction s as [|c s IH]; cbn; [reflexivity|]. now rewrite IH. Qed.

Lemma substring_split s : forall n, (n <= String.length s)%nat ->
  s = String.substring 0 n s ++ String.substring n (String.length s - n) s.
Proof.
  induction s as [|c s IH]; intros [|n] L; cbn [String.length] in *;
    try lia.
  - reflexivity.
  - cbn [String.substring append Nat.sub]. now rewrite substring_all.
  - cbn [String.substring append Nat.sub]. rewrite <- IH by lia. reflexivity.
Qed.

Lemma substring_length s : forall n, (n <= String.length s)%nat ->
  String.length (String.substring 0 n s) = n.
Proof.
  induction s as [|c s IH]; intros [|n] L; cbn [String.length] in *;
    try lia; try reflexivity.
  cbn [String.substring String.length]. rewrite IH by lia. reflexivity.
Qed.

(** What the loop that looks for the next whole line leaves: nothing
    when the text has no line feed, and otherwise what follows the
    first line feed. *)
Lemma erase_first_line_spec s :
  (contains s nl = false /\ erase_first_line s = EmptyString) \/
  exists pre, s = pre ++ nl ++ erase_first_line s /\ contains pre nl = false.
Proof.
  induction s as [|c s IH]; [left; split; reflexivity|].
  cbn [erase_first_line]. destruct (Ascii.eqb c LF) eqn:E.
  - apply Ascii.eqb_eq in E. subst c. right. exists EmptyString.
    split; reflexivity.
  - destruct IH as [(C & N)|(pre & S & C)].
    + left. split; [|exact N]. unfold nl.
      rewrite contains_char_cons, Ascii.eqb_sym, E. exact C.
    + right. exists (String c pre). split.
      * cbn [append]. rewrite <- S. reflexivity.
      * unfold nl in *. rewrite contains_char_cons, Ascii.eqb_sym, E. exact C.
Qed.

(** The text that [get_vm_log] keeps: an end of the output of at most
    16384 characters; the whole output when that is not longer, and
    otherwise less than the last 16384 characters, starting right
    after a line feed of the output, or nothing when the last 16384
    characters hold no line feed. *)
Lemma last_16k_spec output :
  size output < size_modulus ->
  (exists pre, output = pre ++ last_16k output) /\
  size (last_16k output) <= 16384 /\
  (size output <= 16384 -> last_16k output = output) /\
  (16384 < size output ->
   size (last_16k output) < 16384 /\
   (last_16k output = EmptyString \/
    exists pre, output = pre ++ nl ++ last_16k output)).
Proof.
  intros Hsize. unfold last_16k.
  destruct (size output >? 16384) eqn:G.
  - rewrite Z.gtb_ltb in G. apply Z.ltb_lt in G.
    rewrite size_sub_small by lia.
    set (k := (String.length output - Z.to_nat 16384)%nat).
    assert (K : (k <= String.length output)%nat) by (unfold k; lia).
    assert (Kz : Z.of_nat k = size output - 16384) by (unfold k, size in *; lia).
    assert (T : substr output (size output - 16384) (size output) =
                String.substring k (String.length output - k) output).
    { unfold substr.
      replace (size output <? size output - 16384) with false
        by (symmetry; apply Z.ltb_ge; lia).
      replace (Z.to_nat (size output - 16384)) with k by lia.
      replace (Z.to_nat (Z.min (size output)
                           (size output - (size output - 16384))))
        with (String.length output - k)%nat by (unfold size in *; lia).
      reflexivity. }
    rewrite T. set (tail := String.substring k _ output).
    pose proof (substring_split output k K) as S. fold tail in S.
    pose proof (substring_length output k K) as L.
    assert (Lt : size tail = 16384).
    { apply (f_equal size) in S. rewrite size_append in S.
      unfold size in *. lia. }
    replace (size tail >=? 16384) with true
      by (symmetry; rewrite Z.geb_leb; apply Z.leb_le; lia).
    destruct (erase_first_line_spec tail) as [(C & E)|(pre & E & C)].
    + rewrite E. split; [exists output; symmetry; apply append_nil_r|].
      split; [cbn; lia|]. split; [lia|]. intros _. split; [cbn; lia|].
      left. reflexivity.
    + assert (Le : size tail = size pre + 1 + size (erase_first_line tail)).
      { rewrite E at 1. rewrite !size_append. change (size nl) with 1. lia. }
      pose proof (size_nonneg pre).
      pose proof (size_nonneg (erase_first_line tail)).
      split.
      { exists (String.substring 0 k output ++ pre ++ nl).
        rewrite !append_assoc. rewrite <- E. exact S. }
      split; [lia|]. split; [lia|]. intros _. split; [lia|].
      right. exists (String.substring 0 k output ++ pre).
      rewrite append_assoc. rewrite <- E. exact S.
  - rewrite Z.gtb_ltb in G. apply Z.ltb_ge in G.
    split; [exists EmptyString; reflexivity|].
    split; [exact G|]. split; [reflexivity|]. intros H. lia.
Qed.

(** X22.  [get_vm_log] takes a command that failed for one that succeeded
    when its output holds [Process ID: ]; otherwise it returns the
    code of the command and leaves [log] untouched.  On success it
    returns 0 and [log] is an end of the output of at most 16384
    characters: the whole output when that is not longer, and
    otherwise a text that starts right after a line feed within the
    last 16384 characters (nothing when there is none).  The object is
    not changed. *)
Theorem get_vm_log_tail host log vm w :
  let command := "showvminfo " ++ quoted (vm_name vm) ++ " " ++ "--log 0 " in
  let r0 := vbm_popen (host_platform host) command "get vm log" false false
              default_timeout w in
  let r := get_vm_log host log vm w in
  size (output_of r0) < size_modulus ->
  object_of r = vm /\
  (value_of r0 <> 0 -> contains (output_of r0) "Process ID: " = false ->
   value_of r = (value_of r0, log)) /\
  (value_of r0 = 0 \/ contains (output_of r0) "Process ID: " = true ->
   fst (value_of r) = 0 /\
   (exists pre, output_of r0 = pre ++ snd (value_of r)) /\
   size (snd (value_of r)) <= 16384 /\
   (size (output_of r0) <= 16384 -> snd (value_of r) = output_of r0) /\
   (16384 < size (output_of r0) ->
    size (snd (value_of r)) < 16384 /\
    (snd (value_of r) = EmptyString \/
     exists pre, output_of r0 = pre ++ nl ++ snd (value_of r)))).
Proof.
  intros command r0 r Hsize. subst r. unfold get_vm_log, bind, this.
  rewrite popen_eq. fold command. fold r0.
  assert (X : fst r0 = (value_of r0, output_of r0))
    by (unfold value_of, output_of; destruct r0 as [[a b] c]; reflexivity).
  rewrite X. cbv beta iota.
  destruct (Z.eqb_spec (value_of r0) 0) as [Z|Z]; cbn [negb andb].
  - unfold ret. rewrite value_of_triple, object_of_triple. cbn [fst snd].
    split; [reflexivity|]. split; [contradiction|]. intros _.
    split; [reflexivity|]. apply last_16k_spec. exact Hsize.
  - destruct (contains (output_of r0) "Process ID: ") eqn:C; cbn [negb];
      unfold ret; rewrite value_of_triple, object_of_triple; cbn [fst snd].
    + split; [reflexivity|]. split; [discriminate|]. intros _.
      split; [reflexivity|]. apply last_16k_spec. exact Hsize.
    + split; [reflexivity|]. split; [reflexivity|].
      intros [H|H]; [contradiction | discriminate].
Qed.

Lemma get_vm_log_tail_witness :
  let vm := example_vm false in
  let w := new_World [exited 0 (log_lines 2000) 100] in
  let command := "showvminfo " ++ quoted (vm_name vm) ++ " " ++ "--log 0 " in
  let r0 := vbm_popen Posix command "get vm log" false false
              default_timeout w in
  let r := get_vm_log posix_host EmptyString vm w in
  (size (output_of r0) < size_modulus /\ value_of r0 = 0 /\
   16384 < size (output_of r0)) /\
  fst (value_of r) = 0 /\
  size (snd (value_of r)) < 16384.
Proof.
  intros vm w command r0 r.
  assert (H1 : size (output_of r0) < size_modulus) by (vm_compute; reflexivity).
  assert (H2 : value_of r0 = 0) by (vm_compute; reflexivity).
  assert (H3 : 16384 < size (output_of r0)) by (vm_compute; reflexivity).
  split; [repeat split; assumption|].
  destruct (get_vm_log_tail posix_host EmptyString vm w H1) as (_ & _ & T).
  destruct (T (or_introl H2)) as (V & _ & _ & _ & L).
  split; [exact V|]. exact (proj1 (L H3)).
Defined.

(** ** The process of the VM *)

Lemma dec_run_uint_acc d : forall acc,
  dec_run (Zpos acc) (NilEmpty.string_of_uint d) = Zpos (Pos.of_uint_acc d acc).
Proof.
  induction d as [|d IH|d IH|d IH|d IH|d IH|d IH|d IH|d IH|d IH|d IH];
    intros acc; cbn [NilEmpty.string_of_uint Pos.of_uint_acc];
    [reflexivity| | | | | | | | | |];
    (match goal with
     | |- dec_run _ (String ?c ?s) = _ =>
         let d := eval vm_compute in (Z.of_nat (nat_of_ascii c) - 48) in
         change (dec_run (Zpos acc) (String c s))
           with (dec_run (10 * Zpos acc + d) s)
     end);
    rewrite <- IH; f_equal; lia.
Qed.

Lemma dec_run_uint d :
  dec_run 0 (NilEmpty.string_of_uint d) = Z.of_N (Pos.of_uint d).
Proof.
  induction d as [|d IH|d IH|d IH|d IH|d IH|d IH|d IH|d IH|d IH|d IH];
    cbn [NilEmpty.string_of_uint Pos.of_uint]; [reflexivity|exact IH| | | | | | | | |];
    (match goal with
     | |- dec_run _ (String ?c ?s) = _ =>
         let k := eval vm_compute in (Z.of_nat (nat_of_ascii c) - 48) in
         change (dec_run 0 (String c s)) with (dec_run k s)
     end);
    apply dec_run_uint_acc.
Qed.

Lemma atol_uint bits d :
  atol bits (NilEmpty.string_of_uint d) =
  Z.max (- 2 ^ (bits - 1))
    (Z.min (2 ^ (bits - 1) - 1) (dec_run 0 (NilEmpty.string_of_uint d))).
Proof. destruct d; reflexivity. Qed.

Lemma uint_no_line_feed d : contains (NilEmpty.string_of_uint d) nl = false.
Proof.
  unfold nl.
  induction d as [|d IH|d IH|d IH|d IH|d IH|d IH|d IH|d IH|d IH|d IH];
    cbn [NilEmpty.string_of_uint]; [reflexivity| | | | | | | | | |];
    rewrite contains_char_cons, IH; reflexivity.
Qed.

(** A number that is not negative, written in decimal: [atol] reads
    it back when it fits a [long], and its text holds a digit and no
    line feed. *)
Lemma dec_read_back bits n :
  0 <= n < 2 ^ (bits - 1) ->
  atol bits (dec n) = n /\ contains (dec n) nl = false /\ 0 < size (dec n).
Proof.
  intros B. unfold dec.
  destruct n as [|p|p]; [| |lia].
  - repeat split; try reflexivity.
    change (atol bits (NilEmpty.string_of_int (Z.to_int 0)))
      with (Z.max (- 2 ^ (bits - 1)) (Z.min (2 ^ (bits - 1) - 1) 0)).
    lia.
  - cbn [Z.to_int NilEmpty.string_of_int].
    pose proof (dec_run_uint (Pos.to_uint p)) as R.
    rewrite DecimalPos.Unsigned.of_to in R. cbn [Z.of_N] in R.
    split; [rewrite atol_uint, R; lia|].
    split; [apply uint_no_line_feed|].
    destruct (NilEmpty.string_of_uint (Pos.to_uint p)) as [|c s];
      [discriminate R|].
    unfold size. cbn [String.length]. lia.
Qed.

(** X23.  When [get_vm_process_id] returns an error, nothing has been
    written: the object and [process_id] are as they were.  The error
    is the code of the command when that failed, and [ERR_NOT_FOUND]
    when the output has no [Process ID: ] or nothing follows it on
    its line. *)
Theorem get_vm_process_id_failure host OpenProcess process_id vm w :
  let command := "showvminfo " ++ quoted (vm_name vm) ++ " " ++ "--log 0 " in
  let r0 := vbm_popen (host_platform host) command "get process ID"
              default_log_error default_retry_failures default_timeout w in
  let r := get_vm_process_id host OpenProcess process_id vm w in
  (fst (value_of r) <> 0 ->
   object_of r = vm /\ snd (value_of r) = process_id) /\
  (value_of r0 <> 0 -> fst (value_of r) = value_of r0) /\
  (value_of r0 = 0 ->
   contains (output_of r0) "Process ID: " = false ->
   fst (value_of r) = ERR_NOT_FOUND).
Proof.
  intros command r0 r. subst r. unfold get_vm_process_id, bind, this.
  rewrite popen_default_eq. fold command. fold r0.
  assert (X : fst r0 = (value_of r0, output_of r0))
    by (unfold value_of, output_of; destruct r0 as [[a b] c]; reflexivity).
  rewrite X. cbv beta iota zeta.
  destruct (Z.eqb_spec (value_of r0) 0) as [Z|Z]; cbn [negb].
  - destruct (find (output_of r0) "Process ID: " 0 =? npos) eqn:F.
    + unfold ret. rewrite value_of_triple, object_of_triple. cbn [fst snd].
      split; [auto|]. split; [contradiction | reflexivity].
    + match goal with
      | |- context [if ?b then ret (ERR_NOT_FOUND, _) else _] => destruct b
      end.
      * unfold ret. rewrite value_of_triple, object_of_triple. cbn [fst snd].
        split; [auto|]. split; [contradiction|]. intros _ _. reflexivity.
      * unfold assign, ret. rewrite value_of_triple, object_of_triple.
        cbn [fst snd]. split; [intros H; contradiction H; reflexivity|].
        split; [contradiction|]. intros _ C.
        rewrite (find_absent _ _ C), Z.eqb_refl in F. discriminate F.
  - unfold ret. rewrite value_of_triple, object_of_triple. cbn [fst snd].
    split; [auto|]. split; [reflexivity | contradiction].
Qed.

Lemma get_vm_process_id_failure_witness :
  let vm := example_vm false in
  let w := new_World [exited 0 ("00:00:06.015 Executable: VirtualBox" ++ nl)
                        100] in
  let command := "showvminfo " ++ quoted (vm_name vm) ++ " " ++ "--log 0 " in
  let r0 := vbm_popen Posix command "get process ID"
              default_log_error default_retry_failures default_timeout w in
  let r := get_vm_process_id posix_host (fun pid => pid) 7 vm w in
  (value_of r0 = 0 /\ contains (output_of r0) "Process ID: " = false) /\
  fst (value_of r) = ERR_NOT_FOUND.
Proof.
  intros vm w command r0 r.
  assert (H1 : value_of r0 = 0) by (vm_compute; reflexivity).
  assert (H2 : contains (output_of r0) "Process ID: " = false)
    by (vm_compute; reflexivity).
  split; [split; assumption|].
  exact (proj2 (proj2 (get_vm_process_id_failure posix_host (fun pid => pid)
                         7 vm w)) H1 H2).
Defined.

(** X24.  A log that names the process of the VM, [Process ID: ] followed
    by a number in decimal up to the end of the line: the number is
    read back exactly and stored in [process_id] and, on POSIX, in
    [vm_pid]; on Windows the member receives the handle that
    [OpenProcess] returns for it. *)
Theorem get_vm_process_id_reads_decimal host OpenProcess process_id vm w
    pre n post :
  let command := "showvminfo " ++ quoted (vm_name vm) ++ " " ++ "--log 0 " in
  let r0 := vbm_popen (host_platform host) command "get process ID"
              default_log_error default_retry_failures default_timeout w in
  value_of r0 = 0 ->
  output_of r0 = pre ++ "Process ID: " ++ dec n ++ nl ++ post ->
  size (output_of r0) < size_modulus ->
  contains pre "Process ID: " = false ->
  0 <= n < 2 ^ 31 ->
  get_vm_process_id host OpenProcess process_id vm w =
    ((0, n),
     set_vm_pid (match host_platform host with
                 | Posix => n
                 | Win32 => OpenProcess n
                 end) vm,
     world_of r0).
Proof.
  intros command r0 V O Hsize Hpre Hn.
  assert (B : 0 <= n < 2 ^ (long_bits (host_platform host) - 1))
    by (destruct (host_platform host); cbn [long_bits]; lia).
  destruct (dec_read_back _ n B) as (A & C & D).
  unfold get_vm_process_id, bind, this.
  rewrite popen_default_eq. fold command. fold r0.
  assert (X : fst r0 = (value_of r0, output_of r0))
    by (unfold value_of, output_of; destruct r0 as [[a b] c]; reflexivity).
  rewrite X. cbv beta iota zeta. rewrite V. cbn [Z.eqb negb]. rewrite O in *.
  set (out := pre ++ "Process ID: " ++ dec n ++ nl ++ post) in *.
  assert (F : find out "Process ID: " 0 = size pre)
    by (apply find_first; [discriminate | reflexivity | exact Hpre]).
  assert (E : out = (pre ++ "Process ID: ") ++ dec n ++ nl ++ post)
    by (unfold out; rewrite append_assoc; reflexivity).
  assert (L : size (pre ++ "Process ID: ") = size pre + 12)
    by (rewrite size_append; reflexivity).
  assert (Sz : size out = size pre + 12 + size (dec n) + (1 + size post)).
  { rewrite E, !size_append. change (size nl) with 1.
    change (size "Process ID: ") with 12. lia. }
  pose proof (size_nonneg pre). pose proof (size_nonneg post).
  assert (F2 : find out nl (size pre + 12) = size pre + 12 + size (dec n)).
  { rewrite E, <- L. apply find_from; [discriminate | reflexivity | exact C]. }
  rewrite F.
  replace (size pre =? npos) with false
    by (symmetry; apply Z.eqb_neq; unfold npos; lia).
  rewrite size_add_small by lia. rewrite F2.
  rewrite size_sub_small by lia.
  replace (size pre + 12 + size (dec n) - (size pre + 12))
    with (size (dec n)) by lia.
  rewrite <- L.
  replace (substr out (size (pre ++ "Process ID: ")) (size (dec n)))
    with (dec n) by (rewrite E; symmetry; apply substr_mid).
  replace (size (dec n) <=? 0) with false by (symmetry; apply Z.leb_gt; lia).
  rewrite A.
  assert (I : int_of_uint n = n).
  { unfold int_of_uint, uint_modulus.
    rewrite Z.mod_small by lia.
    replace (n <? 2 ^ 31) with true by (symmetry; apply Z.ltb_lt; lia).
    reflexivity. }
  rewrite I. reflexivity.
Qed.

Lemma get_vm_process_id_reads_decimal_witness :
  let vm := example_vm false in
  let pre := "00:00:06.015 Executable: VirtualBox" ++ nl ++ "00:00:06.015 " in
  let post := "00:00:06.015 Package type: LINUX_64BITS_GENERIC" ++ nl in
  let w := new_World [exited 0 (pre ++ "Process ID: " ++ dec 6128 ++ nl ++ post)
                        100] in
  let command := "showvminfo " ++ quoted (vm_name vm) ++ " " ++ "--log 0 " in
  let r0 := vbm_popen Posix command "get process ID"
              default_log_error default_retry_failures default_timeout w in
  (value_of r0 = 0 /\
   output_of r0 = pre ++ "Process ID: " ++ dec 6128 ++ nl ++ post /\
   size (output_of r0) < size_modulus /\
   contains pre "Process ID: " = false /\
   0 <= 6128 < 2 ^ 31) /\
  get_vm_process_id posix_host (fun pid => pid) 0 vm w =
    ((0, 6128),
     set_vm_pid (match host_platform posix_host with
                 | Posix => 6128
                 | Win32 => (fun pid => pid) 6128
                 end) vm,
     world_of r0).
Proof.
  intros vm pre post w command r0.
  assert (H1 : value_of r0 = 0) by (vm_compute; reflexivity).
  assert (H2 : output_of r0 = pre ++ "Process ID: " ++ dec 6128 ++ nl ++ post)
    by (vm_compute; reflexivity).
  assert (H3 : size (output_of r0) < size_modulus) by (vm_compute; reflexivity).
  assert (H4 : contains pre "Process ID: " = false) by (vm_compute; reflexivity).
  assert (H5 : 0 <= 6128 < 2 ^ 31) by lia.
  split; [repeat split; try assumption; lia|].
  exact (get_vm_process_id_reads_decimal posix_host (fun pid => pid) 0 vm w
           pre 6128 post H1 H2 H3 H4 H5).
Defined.

(** ** Network statistics *)

Section CounterProperties.

Variable double : Type.
Variable dzero : double.
Variable dadd : double -> double -> double.
Variable atof : string -> double.

Lemma add_counters_unfold fuel output counter_start total :
  add_counters dadd atof fuel output counter_start total =
  if counter_start =? npos then total
  else
    let counter_start := size_add counter_start 3 in
    let counter_end := find output dq counter_start in
    let counter_value :=
      substr output counter_start (size_sub counter_end counter_start) in
    let total := dadd total (atof counter_value) in
    let counter_start := find output ("c=" ++ dq) counter_start in
    match fuel with
    | O => total
    | S fuel => add_counters dadd atof fuel output counter_start total
    end.
Proof. destruct fuel; reflexivity. Qed.

(** Every turn of the loop moves [counter_start] forward by three
    characters at least, so the loop is over before the fuel is used
    up when that is the length of the text. *)
Lemma add_counters_fuel output :
  size output < size_modulus ->
  forall fuel counter_start total,
  (counter_start = npos \/
   (0 <= counter_start /\ counter_start + 3 <= size output)) ->
  (counter_start <> npos -> size output <= counter_start + 3 + Z.of_nat fuel) ->
  add_counters dadd atof (S fuel) output counter_start total =
  add_counters dadd atof fuel output counter_start total.
Proof.
  intros Hsize. induction fuel as [|fuel IH]; intros cs total Hcs Hfuel;
    rewrite (add_counters_unfold (S _) output cs total),
            (add_counters_unfold _ output cs total);
    destruct (Z.eqb_spec cs npos) as [E|E]; try reflexivity;
    destruct Hcs as [Hcs|Hcs]; try contradiction;
    specialize (Hfuel E); cbv zeta;
    rewrite size_add_small by lia;
    destruct (find_bound output ("c=" ++ dq) (cs + 3)) as [F|[F1 F2]];
    try lia; change (size ("c=" ++ dq)) with 3 in *.
  - rewrite F, add_counters_unfold. reflexivity.
  - lia.
  - rewrite F, !add_counters_unfold. reflexivity.
  - apply IH; [right; lia | intros _; lia].
Qed.

Lemma counters_text_length items :
  (4 * List.length items <= String.length (counters_text items))%nat.
Proof.
  induction items as [|[v t] items IH]; cbn [counters_text fold_right fst snd
    List.length]; [lia|].
  fold (counters_text items).
  change ("c=" ++ dq ++ v ++ dq ++ t ++ counters_text items)
    with (String "c" (String "=" (dq ++ v ++ dq ++ t ++ counters_text items))).
  cbn [String.length]. rewrite !length_append.
  change (String.length dq) with 1%nat. lia.
Qed.

(** The loop, started at a counter of a text that is made of
    counters, adds up their values. *)
Lemma add_counters_items : forall items a v t total fuel,
  Forall counter_item ((v, t) :: items) ->
  (List.length items < fuel)%nat ->
  size (a ++ counters_text ((v, t) :: items)) < size_modulus ->
  add_counters dadd atof fuel (a ++ counters_text ((v, t) :: items))
    (size a) total =
  counters_sum dadd atof ((v, t) :: items) total.
Proof.
  induction items as [|[v2 t2] items IH]; intros a v t total fuel Hi Hfuel Hsize;
    inversion Hi as [|? ? (Hv & Hvt) Hrest]; subst;
    cbn [fst snd] in Hv, Hvt;
    set (pat := "c=" ++ dq) in *;
    cbn [counters_text fold_right fst snd] in Hsize |- *.
  - set (out := a ++ "c=" ++ dq ++ v ++ dq ++ t ++ EmptyString) in *.
    assert (E1 : out = (a ++ pat) ++ v ++ dq ++ t)
      by (unfold out; rewrite append_assoc, append_nil_r; reflexivity).
    assert (A : size (a ++ pat) = size a + 3)
      by (rewrite size_append; reflexivity).
    assert (Sz : size out = size a + 3 + size v + 1 + size t).
    { rewrite E1, !size_append. change (size pat) with 3.
      change (size dq) with 1. lia. }
    pose proof (size_nonneg a). pose proof (size_nonneg v).
    pose proof (size_nonneg t).
    rewrite add_counters_unfold.
    replace (size a =? npos) with false
      by (symmetry; apply Z.eqb_neq; unfold npos; lia).
    cbv zeta. rewrite size_add_small by lia.
    assert (F2 : find out dq (size a + 3) = size a + 3 + size v).
    { rewrite E1, <- A.
      apply (find_from (a ++ pat) v dq t); [discriminate | reflexivity | exact Hv]. }
    rewrite F2, size_sub_small by lia.
    replace (size a + 3 + size v - (size a + 3)) with (size v) by lia.
    assert (V : substr out (size a + 3) (size v) = v)
      by (rewrite E1, <- A; apply substr_mid).
    rewrite V.
    assert (F3 : find out pat (size a + 3) = npos).
    { rewrite E1, <- A. apply find_from_absent. exact Hvt. }
    fold pat. rewrite F3.
    destruct fuel; [reflexivity|].
    rewrite add_counters_unfold. reflexivity.
  - set (rest := fold_right
                   (fun item text =>
                      "c=" ++ dq ++ fst item ++ dq ++ snd item ++ text)
                   EmptyString items) in *.
    set (out := a ++ "c=" ++ dq ++ v ++ dq ++ t ++
                "c=" ++ dq ++ v2 ++ dq ++ t2 ++ rest) in *.
    set (tail := v2 ++ dq ++ t2 ++ rest) in *.
    assert (E1 : out = (a ++ pat) ++ v ++ dq ++ (t ++ pat ++ tail))
      by (unfold out; rewrite append_assoc; reflexivity).
    assert (E2 : out = (a ++ pat) ++ (v ++ dq ++ t) ++ pat ++ tail)
      by (rewrite E1, !append_assoc; reflexivity).
    assert (E3 : out = ((a ++ pat) ++ v ++ dq ++ t) ++
                       counters_text ((v2, t2) :: items))
      by (rewrite E2, !append_assoc; reflexivity).
    assert (A : size (a ++ pat) = size a + 3)
      by (rewrite size_append; reflexivity).
    assert (Sz : size out =
                 size a + 3 + size v + 1 + size t + 3 + size tail).
    { rewrite E1, !size_append. change (size pat) with 3.
      change (size dq) with 1. lia. }
    pose proof (size_nonneg a). pose proof (size_nonneg v).
    pose proof (size_nonneg t). pose proof (size_nonneg tail).
    rewrite add_counters_unfold.
    replace (size a =? npos) with false
      by (symmetry; apply Z.eqb_neq; unfold npos; lia).
    cbv zeta. rewrite size_add_small by lia.
    assert (F2 : find out dq (size a + 3) = size a + 3 + size v).
    { rewrite E1, <- A.
      apply (find_from (a ++ pat) v dq (t ++ pat ++ tail));
        [discriminate | reflexivity | exact Hv]. }
    rewrite F2, size_sub_small by lia.
    replace (size a + 3 + size v - (size a + 3)) with (size v) by lia.
    assert (V : substr out (size a + 3) (size v) = v)
      by (rewrite E1, <- A; apply substr_mid).
    rewrite V.
    assert (F3 : find out pat (size a + 3) =
                 size ((a ++ pat) ++ v ++ dq ++ t)).
    { rewrite E2, <- A.
      rewrite (find_from (a ++ pat) (v ++ dq ++ t) pat tail);
        [|discriminate | reflexivity | exact Hvt].
      rewrite (size_append (a ++ pat)). reflexivity. }
    fold pat. rewrite F3.
    destruct fuel as [|fuel]; [cbn [List.length] in Hfuel; lia|].
    rewrite E3.
    apply (IH ((a ++ pat) ++ v ++ dq ++ t) v2 t2
             (dadd total (atof v)) fuel);
      [exact Hrest | cbn [List.length] in Hfuel; lia
      | rewrite <- E3; exact Hsize].
Qed.

(** X25.  The two functions add up the counters of the statistics: on an
    output made of some text without counter followed by counters,
    each written [c="value"], they return 0 and the sum of the values
    as [atof] reads them, added to 0 in the order of the output; the
    sum is 0 when there is no counter.  When the command fails they
    return its code and leave the argument untouched. *)
Theorem get_network_bytes_adds_counters host before items old vm w :
  let sent_command :=
    "debugvm " ++ quoted (vm_name vm) ++ " " ++ "statistics --pattern " ++
    quoted "/Devices/*/TransmitBytes" ++ " " in
  let received_command :=
    "debugvm " ++ quoted (vm_name vm) ++ " " ++ "statistics --pattern " ++
    quoted "/Devices/*/ReceiveBytes" ++ " " in
  let r1 := vbm_popen (host_platform host) sent_command "get bytes sent"
              default_log_error default_retry_failures default_timeout w in
  let r2 := vbm_popen (host_platform host) received_command
              "get bytes received"
              default_log_error default_retry_failures default_timeout w in
  let sent := get_network_bytes_sent host dzero dadd atof old vm w in
  let received := get_network_bytes_received host dzero dadd atof old vm w in
  contains before ("c=" ++ dq) = false ->
  Forall counter_item items ->
  size (before ++ counters_text items) < size_modulus ->
  (value_of r1 = 0 -> output_of r1 = before ++ counters_text items ->
   sent = ((0, counters_sum dadd atof items dzero), vm, world_of r1)) /\
  (value_of r2 = 0 -> output_of r2 = before ++ counters_text items ->
   received = ((0, counters_sum dadd atof items dzero), vm, world_of r2)) /\
  (value_of r1 <> 0 -> sent = ((value_of r1, old), vm, world_of r1)) /\
  (value_of r2 <> 0 -> received = ((value_of r2, old), vm, world_of r2)).
Proof.
  intros sent_command received_command r1 r2 sent received Hb Hi Hsize.
  assert (L : add_counters dadd atof
                (String.length (before ++ counters_text items))
                (before ++ counters_text items)
                (find (before ++ counters_text items) ("c=" ++ dq) 0) dzero
              = counters_sum dadd atof items dzero).
  { destruct items as [|[v t] items].
    - cbn [counters_text fold_right]. rewrite append_nil_r.
      rewrite (find_absent _ _ Hb), add_counters_unfold. reflexivity.
    - assert (F : find (before ++ counters_text ((v, t) :: items))
                    ("c=" ++ dq) 0 = size before).
      { cbn [counters_text fold_right fst snd].
        apply (find_first before ("c=" ++ dq));
          [discriminate | reflexivity | exact Hb]. }
      rewrite F. apply add_counters_items; [exact Hi | | exact Hsize].
      rewrite length_append.
      pose proof (counters_text_length ((v, t) :: items)) as C.
      cbn [List.length] in *. lia. }
  assert (X : forall r : Z * string * World,
            fst r = (value_of r, output_of r))
    by (intros [[a b] c]; reflexivity).
  subst sent received.
  unfold get_network_bytes_sent, get_network_bytes_received, bind, this.
  rewrite !popen_default_eq. fold sent_command received_command.
  fold r1 r2. rewrite (X r1), (X r2). cbv beta iota zeta.
  destruct (Z.eqb_spec (value_of r1) 0) as [Z1|Z1];
    destruct (Z.eqb_spec (value_of r2) 0) as [Z2|Z2]; cbn [negb]; unfold ret;
    repeat split; intros; try contradiction;
    match goal with
    | O : output_of _ = _ |- _ => rewrite O, L
    | _ => idtac
    end; reflexivity.
Qed.

End CounterProperties.

Lemma get_network_bytes_adds_counters_witness :
  let vm := example_vm false in
  let before := "<Statistics>" ++ nl ++ "<Counter " in
  let items :=
    [("397229", " unit=" ++ quoted "bytes" ++ " name=" ++
                quoted "/Devices/PCNet0/TransmitBytes" ++ "/>" ++ nl ++
                "<Counter ");
     ("256", " unit=" ++ quoted "bytes" ++ " name=" ++
             quoted "/Devices/PCNet1/TransmitBytes" ++ "/>" ++ nl ++
             "</Statistics>" ++ nl)] in
  let w := new_World [exited 0 (before ++ counters_text items) 100] in
  let command :=
    "debugvm " ++ quoted (vm_name vm) ++ " " ++ "statistics --pattern " ++
    quoted "/Devices/*/TransmitBytes" ++ " " in
  let r1 := vbm_popen Posix command "get bytes sent"
              default_log_error default_retry_failures default_timeout w in
  (contains before ("c=" ++ dq) = false /\
   Forall counter_item items /\
   size (before ++ counters_text items) < size_modulus /\
   value_of r1 = 0 /\ output_of r1 = before ++ counters_text items) /\
  get_network_bytes_sent posix_host 0 Z.add (atol 64) 7 vm w =
    ((0, counters_sum Z.add (atol 64) items 0), vm, world_of r1).
Proof.
  intros vm before items w command r1.
  assert (H1 : contains before ("c=" ++ dq) = false) by (vm_compute; reflexivity).
  assert (H2 : Forall counter_item items)
    by (repeat constructor; vm_compute; reflexivity).
  assert (H3 : size (before ++ counters_text items) < size_modulus)
    by (vm_compute; reflexivity).
  assert (H4 : value_of r1 = 0) by (vm_compute; reflexivity).
  assert (H5 : output_of r1 = before ++ counters_text items)
    by (vm_compute; reflexivity).
  split; [repeat split; assumption|].
  exact (proj1 (get_network_bytes_adds_counters Z 0 Z.add (atol 64) posix_host
                  before items 7 vm w H1 H2 H3) H4 H5).
Defined.

(** ** From the output of the command to the power flags *)

(** X26.  A poll whose command succeeds with an output that holds
    [VMState="token"] reads that token, the first of the output, and
    sets the flags from it: online for the nine states of a VM that
    is up, suspended for [paused] alone, crashed for [aborted] and
    [gurumeditation], and all three false for any other token. *)
Theorem poll_reads_vmstate host log_state vm w pre token post :
  let r0 := vbm_popen (host_platform host) (poll_command vm) "VM state"
              false false default_timeout w in
  value_of r0 = 0 ->
  output_of r0 = pre ++ "VMState=" ++ quoted token ++ post ->
  size (output_of r0) < size_modulus ->
  contains pre ("VMState=" ++ dq) = false ->
  contains token dq = false ->
  poll_observes host vm w = Some token /\
  power_flags (object_of (poll host log_state vm w)) =
    (one_of online_tokens token, (token =? "paused")%string,
     one_of crashed_tokens token).
Proof.
  intros r0 V O Hsize Hpre Htok.
  assert (Obs : poll_observes host vm w = Some token).
  { unfold poll_observes. fold r0. rewrite V. cbn [Z.eqb].
    rewrite O in *. set (pat := "VMState=" ++ dq).
    set (out := pre ++ "VMState=" ++ quoted token ++ post) in *.
    assert (E0 : out = pre ++ pat ++ token ++ dq ++ post)
      by (unfold out, quoted; rewrite !append_assoc; reflexivity).
    assert (E : out = (pre ++ pat) ++ token ++ dq ++ post)
      by (rewrite E0, append_assoc; reflexivity).
    assert (F : find out pat 0 = size pre)
      by (rewrite E0; apply find_first; [discriminate | reflexivity | exact Hpre]).
    assert (A : size (pre ++ pat) = size pre + 9)
      by (rewrite size_append; reflexivity).
    assert (Sz : size out = size pre + 9 + size token + (1 + size post)).
    { rewrite E, !size_append. change (size pat) with 9.
      change (size dq) with 1. lia. }
    pose proof (size_nonneg pre). pose proof (size_nonneg token).
    pose proof (size_nonneg post).
    assert (F2 : find out dq (size pre + 9) = size pre + 9 + size token).
    { rewrite E, <- A. apply find_from; [discriminate | reflexivity | exact Htok]. }
    unfold vmstate_token. fold pat. rewrite F.
    replace (size pre =? npos) with false
      by (symmetry; apply Z.eqb_neq; unfold npos; lia).
    cbn [negb]. rewrite size_add_small by lia. rewrite F2.
    rewrite size_sub_small by lia.
    replace (size pre + 9 + size token - (size pre + 9)) with (size token) by lia.
    rewrite <- A.
    replace (substr out (size (pre ++ pat)) (size token)) with token
      by (rewrite E; symmetry; apply substr_mid).
    reflexivity. }
  split; [exact Obs|].
  rewrite poll_unfold. cbv zeta. rewrite Obs. apply classify_table.
Qed.

Lemma poll_reads_vmstate_witness :
  let vm := example_vm false in
  let pre := "name=" ++ quoted "vm" ++ nl in
  let w := new_World [exited 0 (vminfo "livesnapshotting") 100] in
  let r0 := vbm_popen Posix (poll_command vm) "VM state"
              false false default_timeout w in
  (value_of r0 = 0 /\
   output_of r0 = pre ++ "VMState=" ++ quoted "livesnapshotting" ++ nl /\
   size (output_of r0) < size_modulus /\
   contains pre ("VMState=" ++ dq) = false /\
   contains "livesnapshotting" dq = false) /\
  poll_observes posix_host vm w = Some "livesnapshotting" /\
  power_flags (object_of (poll posix_host false vm w)) =
    (one_of online_tokens "livesnapshotting",
     ("livesnapshotting" =? "paused")%string,
     one_of crashed_tokens "livesnapshotting").
Proof.
  intros vm pre w r0.
  assert (H1 : value_of r0 = 0) by (vm_compute; reflexivity).
  assert (H2 : output_of r0 =
               pre ++ "VMState=" ++ quoted "livesnapshotting" ++ nl)
    by (vm_compute; reflexivity).
  assert (H3 : size (output_of r0) < size_modulus) by (vm_compute; reflexivity).
  assert (H4 : contains pre ("VMState=" ++ dq) = false)
    by (vm_compute; reflexivity).
  assert (H5 : contains "livesnapshotting" dq = false)
    by (vm_compute; reflexivity).
  split; [repeat split; assumption|].
  exact (poll_reads_vmstate posix_host false vm w pre "livesnapshotting" nl
           H1 H2 H3 H4 H5).
Defined.

(** ** Ports *)

(** X27.  [get_port_forwarding_port] tries the configured port and then,
    when that cannot be bound, any free port: it fails with [ERR_BIND]
    only when the second bind fails as well.
    [get_remote_desktop_port] makes one attempt.  Both store the port
    that the socket was bound to, and both leave the object as it was
    when they fail. *)
Theorem port_probes vm w :
  (forall port rest,
     sockets w = BindFailed :: Bound port :: rest ->
     value_of (get_port_forwarding_port vm w) = 0 /\
     object_of (get_port_forwarding_port vm w) = set_pf_host_port port vm /\
     value_of (get_remote_desktop_port vm w) = ERR_BIND) /\
  (forall port rest,
     sockets w = Bound port :: rest ->
     get_port_forwarding_port vm w =
       (0, set_pf_host_port port vm, snd (next_socket w)) /\
     get_remote_desktop_port vm w =
       (0, set_rd_host_port port vm, snd (next_socket w))) /\
  (value_of (get_port_forwarding_port vm w) <> 0 ->
   object_of (get_port_forwarding_port vm w) = vm) /\
  (value_of (get_remote_desktop_port vm w) <> 0 ->
   object_of (get_remote_desktop_port vm w) = vm).
Proof.
  unfold get_port_forwarding_port, get_remote_desktop_port, bind, call, assign,
    ret, next_socket, value_of, object_of.
  split; [|split; [|split]].
  - intros port rest ->. cbn. auto.
  - intros port rest ->. cbn. auto.
  - destruct w as [c s [|[| |p] [|[| |q] l]] f t e fe fs]; cbn; intros H;
      try reflexivity; contradiction H; reflexivity.
  - destruct w as [c s [|[| |p] l] f t e fe fs]; cbn; intros H;
      try reflexivity; contradiction H; reflexivity.
Qed.

Lemma port_probes_witness :
  let vm := example_vm false in
  let w := {| clock := 0; script := [];
              sockets := [BindFailed; Bound 49152];
              floppy_ready := true; trace := []; stderr := [];
              floppy_error := 0; floppy_errorStr := EmptyString |} in
  sockets w = BindFailed :: Bound 49152 :: [] /\
  value_of (get_port_forwarding_port vm w) = 0 /\
  object_of (get_port_forwarding_port vm w) = set_pf_host_port 49152 vm /\
  value_of (get_remote_desktop_port vm w) = ERR_BIND.
Proof.
  intros vm w.
  assert (H : sockets w = BindFailed :: Bound 49152 :: []) by reflexivity.
  split; [exact H|].
  exact (proj1 (port_probes vm w) 49152 [] H).
Defined.

(** ** A floppy image that cannot be created *)

Lemma steady_ret {A : Type} (a : A) : steady (ret a).
Proof. intros vm w. reflexivity. Qed.

Lemma steady_bind {A B : Type} (m : M A) (k : A -> M B) :
  steady m -> (forall a, steady (k a)) -> steady (bind m k).
Proof.
  intros Hm Hk vm w. pose proof (Hm vm w) as E1.
  unfold bind, world_of in *.
  destruct (m vm w) as [[a vm1] w1]. cbn [snd] in E1.
  rewrite <- E1. apply (Hk a vm1 w1).
Qed.

Lemma steady_this : steady this.
Proof. intros vm w. reflexivity. Qed.

Lemma steady_assign f : steady (assign f).
Proof. intros vm w. reflexivity. Qed.

Lemma steady_ask {A : Type} (f : World -> A) : steady (ask f).
Proof. intros vm w. reflexivity. Qed.

Lemma steady_say msg : steady (effect (say msg)).
Proof. intros vm w. reflexivity. Qed.

Lemma steady_sleep ms : steady (effect (boinc_sleep ms)).
Proof. intros vm w. reflexivity. Qed.

Lemma vbm_popen_loop_floppy_ready fuel : forall p arguments retry_failures
    timeout retry_count sleep_interval retry_notes w,
  floppy_ready
    (snd (vbm_popen_loop fuel p arguments retry_failures timeout
            retry_count sleep_interval retry_notes w)) = floppy_ready w.
Proof.
  induction fuel as [|fuel IH]; intros p arguments rf timeout k s notes w;
    rewrite vbm_popen_loop_unfold, vbm_popen_raw_eq;
    pose proof (vbm_popen_raw_floppy_ready p arguments timeout w) as G;
    destruct (raw_result p _) as [retval output];
    set (w1 := snd (vbm_popen_raw _ _ _ w)) in *;
    cbv zeta;
    destruct (retval =? 0); try exact G;
    destruct rf; cbn [negb]; try exact G;
    destruct (k >=? 5); try exact G.
  rewrite IH. exact G.
Qed.

Lemma steady_vbm_popen p arguments item log_error retry_failures timeout :
  steady (call (vbm_popen p arguments item log_error retry_failures timeout)).
Proof.
  intros vm w. unfold call, world_of, vbm_popen.
  pose proof (vbm_popen_loop_floppy_ready 5 p arguments retry_failures timeout
                0 1000 EmptyString w) as G.
  destruct (vbm_popen_loop _ _ _ _ _ _ _ _ _) as [[[retval output] notes] w1].
  cbn [snd] in G.
  destruct (negb (retval =? 0) && log_error); cbn; exact G.
Qed.

Lemma steady_next_socket : steady (call next_socket).
Proof.
  intros vm w. unfold call, next_socket, world_of.
  destruct (sockets w); reflexivity.
Qed.

Ltac steady_step :=
  lazymatch goal with
  | |- steady (ret _) => apply steady_ret
  | |- steady (bind _ _) => apply steady_bind; [|intros ?]
  | |- steady this => apply steady_this
  | |- steady (assign _) => apply steady_assign
  | |- steady (ask _) => apply steady_ask
  | |- steady (effect (say _)) => apply steady_say
  | |- steady (effect (boinc_sleep _)) => apply steady_sleep
  | |- steady (call (vbm_popen _ _ _ _ _ _)) => apply steady_vbm_popen
  | |- steady (call next_socket) => apply steady_next_socket
  | |- steady (if ?b then _ else _) => destruct b
  | |- steady (match ?x with _ => _ end) => destruct x
  | |- steady (let _ := _ in _) => cbv zeta
  | |- steady ?m => let h := head m in unfold h
  end.

Ltac steady_auto := repeat steady_step.

Lemma triple_bind {A B : Type} (P : VBOX_VM -> World -> Prop)
    (R : A -> VBOX_VM -> World -> Prop) (Q : B -> VBOX_VM -> World -> Prop)
    (m : M A) (k : A -> M B) :
  triple P m R -> (forall a, triple (R a) (k a) Q) -> triple P (bind m k) Q.
Proof.
  intros Hm Hk vm w HP. pose proof (Hm vm w HP) as H.
  unfold bind, value_of, object_of, world_of in *.
  destruct (m vm w) as [[a vm1] w1]. cbn [fst snd] in H.
  apply (Hk a vm1 w1 H).
Qed.

Lemma triple_ret {A : Type} (P : VBOX_VM -> World -> Prop)
    (Q : A -> VBOX_VM -> World -> Prop) (a : A) :
  (forall vm w, P vm w -> Q a vm w) -> triple P (ret a) Q.
Proof. intros H vm w HP. apply H. exact HP. Qed.

Lemma triple_read {B : Type} (P : VBOX_VM -> World -> Prop)
    (Q : B -> VBOX_VM -> World -> Prop) (k : VBOX_VM -> M B) :
  (forall vm0, triple (fun vm w => vm = vm0 /\ P vm w) (k vm0) Q) ->
  triple P (bind this k) Q.
Proof. intros H vm w HP. exact (H vm vm w (conj eq_refl HP)). Qed.

(** [retval = m; if (retval) return retval;]. *)
Lemma triple_check (P : VBOX_VM -> World -> Prop)
    (R Q : Z -> VBOX_VM -> World -> Prop) (m : M Z) (k : M Z) :
  triple P m R ->
  triple (R 0) k Q ->
  (forall retval vm w, retval <> 0 -> R retval vm w -> Q retval vm w) ->
  triple P (bind m (fun retval => if retval =? 0 then k else ret retval)) Q.
Proof.
  intros Hm Hk Hf. apply (triple_bind P R Q); [exact Hm|].
  intros retval. destruct (Z.eqb_spec retval 0) as [->|N]; [exact Hk|].
  apply triple_ret. intros vm w. apply Hf. exact N.
Qed.

(** A function that keeps [P] and leaves the floppy image alone
    keeps both. *)
Lemma triple_frame {A : Type} (P : VBOX_VM -> Prop) (b : bool) (m : M A) :
  preserves P m -> steady m ->
  triple (fun vm w => P vm /\ floppy_ready w = b) m
         (fun _ vm w => P vm /\ floppy_ready w = b).
Proof.
  intros Hp Hs vm w [HP Hw]. split; [apply Hp; exact HP|].
  rewrite Hs. exact Hw.
Qed.

(** X28.  With [enable_floppyio] set and a floppy image that [FloppyIO]
    cannot make ready, a registration never returns 0.  When it got as
    far as allocating the channel it returns [ERR_FWRITE] and the
    channel stays allocated: [read_floppy] and [write_floppy] go on
    returning 0 on the object that it leaves. *)
Theorem register_vm_floppy_not_ready host vm w :
  enable_floppyio vm = true ->
  pFloppy vm = false ->
  floppy_ready w = false ->
  let r := register_vm host vm w in
  value_of r <> 0 /\
  (pFloppy (object_of r) = true ->
   value_of r = ERR_FWRITE /\
   forall received data w',
     value_of (read_floppy received data (object_of r) w') = (0, received) /\
     value_of (write_floppy data (object_of r) w') = (0, Some data)).
Proof.
  intros En Pf Rd r.
  set (P := fun v : VBOX_VM => enable_floppyio v = true /\ pFloppy v = false).
  set (I := fun (v : VBOX_VM) (w : World) => P v /\ floppy_ready w = false).
  assert (H : triple I (register_vm host)
                (fun rc v _ => rc <> 0 /\
                               (pFloppy v = true -> rc = ERR_FWRITE))).
  { assert (F : forall (rc : Z) v w0, rc <> 0 -> I v w0 ->
                  rc <> 0 /\ (pFloppy v = true -> rc = ERR_FWRITE)).
    { intros rc v w0 N [[_ HP] _]. split; [exact N|].
      intros T. rewrite T in HP. discriminate HP. }
    unfold register_vm.
    apply (triple_check _ (fun _ => I));
      [apply triple_frame; [preserves_auto; same_member | steady_auto]
      | | exact F].
    apply (triple_check _ (fun _ => I));
      [apply triple_frame; [preserves_auto | steady_auto] | | exact F].
    unfold register_vm_devices.
    apply triple_read. intros vm0.
    set (I0 := fun (v : VBOX_VM) (w : World) => v = vm0 /\ I v w).
    assert (F0 : forall (rc : Z) v w0, rc <> 0 -> I0 v w0 ->
                   rc <> 0 /\ (pFloppy v = true -> rc = ERR_FWRITE))
      by (intros rc v w0 N [_ HI]; exact (F rc v w0 N HI)).
    assert (K : forall (A : Type) (m : M A),
              preserves (fun v => v = vm0 /\ P v) m -> steady m ->
              triple I0 m (fun _ => I0)).
    { intros A m Hp Hs v w0 [E [HP Hw]].
      destruct (triple_frame (fun v => v = vm0 /\ P v) false m Hp Hs v w0)
        as [[E1 HP1] Hw1]; [exact (conj (conj E HP) Hw)|].
      exact (conj E1 (conj HP1 Hw1)). }
    cbv zeta.
    apply (triple_bind _ (fun _ => I0)); [apply K; [preserves_auto | steady_auto]|].
    intros _.
    apply (triple_check _ (fun _ => I0));
      [apply K; [preserves_auto | steady_auto] | | exact F0].
    apply (triple_check _ (fun _ => I0));
      [apply K; [preserves_auto | steady_auto] | | exact F0].
    apply (triple_bind _ (fun _ => I0)); [apply K; [preserves_auto | steady_auto]|].
    intros _.
    apply (triple_check _ (fun _ => I0));
      [apply K; [preserves_auto | steady_auto] | | exact F0].
    apply (triple_check _ (fun rc _ _ => rc = ERR_FWRITE)).
    - intros v w0 [E [[En0 _] Hw]]. subst v. rewrite En0.
      unfold bind, assign, ask, effect, ret, value_of.
      cbn [fst snd]. rewrite Hw. reflexivity.
    - intros v w0 Z. discriminate Z.
    - intros rc v w0 N ->. split; [exact N | reflexivity]. }
  destruct (H vm w) as [N T]; [repeat split; assumption|].
  fold r in N, T. split; [exact N|].
  intros Pf'. split; [exact (T Pf')|].
  assert (En' : enable_floppyio (object_of r) = true).
  { apply (register_vm_preserves host (fun v => enable_floppyio v = true));
      [apply enable_floppyio_config | exact En]. }
  intros received data w'.
  unfold read_floppy, write_floppy, bind, this, ret, value_of.
  cbn [fst snd]. rewrite En', Pf'. split; reflexivity.
Qed.

Lemma register_vm_floppy_not_ready_witness :
  let w := {| clock := 0; script := repeat (exited 0 EmptyString 10) 30;
              sockets := []; floppy_ready := false;
              trace := []; stderr := [];
              floppy_error := 5; floppy_errorStr := "I/O error" |} in
  let r := register_vm posix_host floppy_vm w in
  (enable_floppyio floppy_vm = true /\ pFloppy floppy_vm = false /\
   floppy_ready w = false) /\
  pFloppy (object_of r) = true /\
  value_of r <> 0 /\
  (pFloppy (object_of r) = true ->
   value_of r = ERR_FWRITE /\
   forall received data w',
     value_of (read_floppy received data (object_of r) w') = (0, received) /\
     value_of (write_floppy data (object_of r) w') = (0, Some data)).
Proof.
  intros w r.
  split; [repeat split|].
  split; [vm_compute; reflexivity|].
  exact (register_vm_floppy_not_ready posix_host floppy_vm w
           eq_refl eq_refl eq_refl).
Defined.
